(** * Verilog generation for multiplexer branch modules

    A shallow embedding of [verilog_mux.cpp] (vpr7_x2p, FPGA-Verilog):
    the structural and behavioural bodies of a multiplexer branch, the
    CMOS branch module, the dispatch on the design technology and the
    driver [print_verilog_submodule_muxes].

    The generator is imperative: it mutates a [ModuleManager], writes to a
    [std::fstream] and stops the process on a failed [VTR_ASSERT] or on
    [exit(1)].  It is embedded in a state-and-failure monad over a [World]
    that holds the module manager, the stream, the files on disk and the
    calls made on the external configuration-memory organisation. *)

From Stdlib Require Import String Ascii List Arith Lia Bool DecimalString.
From Stdlib Require Import DecimalNat.
From stdpp Require Import base option list strings gmap.

Local Open Scope string_scope.
Local Open Scope list_scope.

(** ** Identifiers

    The strong ids of the code base are indices; [ModuleId::INVALID()] is
    [None]. *)

Abbreviation CircuitModelId := nat.
Abbreviation CircuitPortId := nat.
Abbreviation MuxNodeId := nat.
Abbreviation MuxEdgeId := nat.
Abbreviation MuxMemId := nat.
Abbreviation MuxInputId := nat.
Abbreviation MuxOutputId := nat.
Abbreviation ModuleId := (option nat).
Abbreviation INVALID := (@None nat).

(** ** Enumerations of [spice_types.h] and [verilog_global.h]

    The headers are not among the sources.  Each enumeration lists the
    enumerators that [verilog_mux.cpp] names; every other value of the C++
    enum is [*_other n]. *)

Inductive e_spice_model_type :=
| SPICE_MODEL_GATE
| SPICE_MODEL_TYPE_other (n : nat).

Inductive e_spice_model_gate_type :=
| SPICE_MODEL_GATE_MUX2
| SPICE_MODEL_GATE_other (n : nat).

Inductive e_spice_model_design_tech :=
| SPICE_MODEL_DESIGN_CMOS
| SPICE_MODEL_DESIGN_RRAM
| SPICE_MODEL_DESIGN_other (n : nat).

Inductive e_spice_model_port_type :=
| SPICE_MODEL_PORT_INPUT
| SPICE_MODEL_PORT_OUTPUT
| SPICE_MODEL_PORT_SRAM
| SPICE_MODEL_PORT_other (n : nat).

Inductive e_dump_verilog_port_type :=
| VERILOG_PORT_REG
| VERILOG_PORT_CONKT.

Inductive e_module_port_type :=
| MODULE_GLOBAL_PORT
| MODULE_INPUT_PORT
| MODULE_OUTPUT_PORT.

Definition is_SPICE_MODEL_GATE (t : e_spice_model_type) : bool :=
  match t with SPICE_MODEL_GATE => true | _ => false end.

Definition is_SPICE_MODEL_GATE_MUX2 (t : e_spice_model_gate_type) : bool :=
  match t with SPICE_MODEL_GATE_MUX2 => true | _ => false end.

(** ** Ports *)

(** Modelled from the spec: the class [BasicPort] (its header is not among
    the sources).  "Port: name, bit width [...]; addressable as single-bit
    slices for wiring".  A port is a name with a bit range [lsb..msb]; the
    two constructors the generator calls are [BasicPort(name, width)] and
    [BasicPort(name, lsb, msb)].  A port of width 0 has the empty range
    [1..0]. *)
Record BasicPort := mkBasicPort {
  port_name : string;
  port_lsb : nat;
  port_msb : nat
}.

Definition BasicPort_sized (name : string) (width : nat) : BasicPort :=
  match width with
  | 0 => mkBasicPort name 1 0
  | S w => mkBasicPort name 0 w
  end.

Definition BasicPort_range (name : string) (lsb msb : nat) : BasicPort :=
  mkBasicPort name lsb msb.

Definition get_name (p : BasicPort) : string := port_name p.

Definition get_width (p : BasicPort) : nat :=
  if (port_lsb p <=? port_msb p)%nat then port_msb p - port_lsb p + 1 else 0.

(** ** The circuit library

    [CircuitLibrary] is read-only here; it is the record of the accessors
    the generator calls. *)
Record CircuitLibrary := mkCircuitLibrary {
  model_name : CircuitModelId -> string;
  model_type : CircuitModelId -> e_spice_model_type;
  gate_type : CircuitModelId -> e_spice_model_gate_type;
  design_tech_type : CircuitModelId -> e_spice_model_design_tech;
  pass_gate_logic_model : CircuitModelId -> CircuitModelId;
  dump_structural_verilog : CircuitModelId -> bool;
  dump_explicit_port_map : CircuitModelId -> bool;
  model_ports_by_type :
    CircuitModelId -> e_spice_model_port_type -> bool -> list CircuitPortId;
  model_global_ports_by_type :
    CircuitModelId -> e_spice_model_port_type -> bool -> list CircuitPortId;
  port_lib_name : CircuitPortId -> string;
  port_size : CircuitPortId -> nat;
  port_is_mode_select : CircuitPortId -> bool;
  port_default_value : CircuitPortId -> nat
}.

(** ** Multiplexer graphs *)

(** Modelled from the spec: the class [MuxGraph] (mux_graph.h is not among
    the sources).  "Node ids partitioned into inputs, outputs, and memory
    nodes; edges connect exactly one input to exactly one output, each edge
    tagged with one controlling memory-bit id and a polarity flag".  An
    edge id is the position of the edge in [mux_edges]. *)
Record MuxEdge := mkMuxEdge {
  edge_src : MuxNodeId;
  edge_sink : MuxNodeId;
  edge_mem : MuxMemId;
  edge_inv : bool
}.

Record MuxGraph := mkMuxGraph {
  inputs : list MuxNodeId;
  outputs : list MuxNodeId;
  input_id : MuxNodeId -> MuxInputId;
  output_id : MuxNodeId -> MuxOutputId;
  mux_edges : list MuxEdge;
  num_memory_bits : nat;
  num_levels : nat
}.

Definition num_inputs (g : MuxGraph) : nat := length (inputs g).
Definition num_outputs (g : MuxGraph) : nat := length (outputs g).

Definition edge_connects (src sink : MuxNodeId) (e : MuxEdge) : bool :=
  ((edge_src e =? src) && (edge_sink e =? sink))%nat.

(** [find_edges(src, sink)]: the ids of the edges from [src] to [sink], in
    edge order. *)
Fixpoint find_edges_from (i : MuxEdgeId) (es : list MuxEdge)
    (src sink : MuxNodeId) : list MuxEdgeId :=
  match es with
  | [] => []
  | e :: es' =>
      if edge_connects src sink e
      then i :: find_edges_from (S i) es' src sink
      else find_edges_from (S i) es' src sink
  end.

Definition find_edges (g : MuxGraph) (src sink : MuxNodeId) : list MuxEdgeId :=
  find_edges_from 0 (mux_edges g) src sink.

Definition find_edge_mem (g : MuxGraph) (e : MuxEdgeId) : MuxMemId :=
  match mux_edges g !! e with Some ed => edge_mem ed | None => 0 end.

Definition is_edge_use_inv_mem (g : MuxGraph) (e : MuxEdgeId) : bool :=
  match mux_edges g !! e with Some ed => edge_inv ed | None => false end.

(** ** The multiplexer library *)

(** Modelled from the spec: the class [MuxLibrary] (its header is not among
    the sources).  "MuxLibrary entry: (circuit-model id, full MuxGraph)";
    [max_mux_size] is "the maximum multiplexer size observed anywhere in
    MuxLibrary", the size of a multiplexer being its number of inputs (the
    value the driver passes as [mux_size]). *)
Record MuxLibraryEntry := mkMuxLibraryEntry {
  mux_graph : MuxGraph;
  mux_circuit_model : CircuitModelId
}.

Abbreviation MuxLibrary := (list MuxLibraryEntry).

Definition max_mux_size (mux_lib : MuxLibrary) : nat :=
  foldr (fun entry m => Nat.max (num_inputs (mux_graph entry)) m) 0 mux_lib.

(** ** The module manager *)

(** Modelled from the spec: the class [ModuleManager] (module_manager.h is
    not among the sources).  "[add_module(name) -> id]: returns the
    existing id if [name] is already registered, otherwise creates an empty
    Module and returns a new id.  [add_port(module, port, category)]:
    appends; no duplicate-name checking.  [add_child_module(parent,
    child)]: records a usage edge; duplicate calls for the same pair are
    no-ops.  [find_module(name) -> id | invalid]."  A module id is the
    position of the module in the manager. *)
Record Module := mkModule {
  module_name : string;
  module_ports : list (BasicPort * e_module_port_type);
  module_children : gset nat
}.

Abbreviation ModuleManager := (list Module).

Fixpoint find_module_from (i : nat) (mm : ModuleManager) (name : string)
    : ModuleId :=
  match mm with
  | [] => INVALID
  | m :: mm' =>
      if String.eqb (module_name m) name then Some i
      else find_module_from (S i) mm' name
  end.

Definition find_module (mm : ModuleManager) (name : string) : ModuleId :=
  find_module_from 0 mm name.

Definition add_module (mm : ModuleManager) (name : string)
    : ModuleId * ModuleManager :=
  match find_module mm name with
  | Some id => (Some id, mm)
  | None => (Some (length mm), mm ++ [mkModule name [] ∅])
  end.

Definition module_add_port (p : BasicPort) (t : e_module_port_type)
    (m : Module) : Module :=
  mkModule (module_name m) (module_ports m ++ [(p, t)]) (module_children m).

Definition module_add_child (child : nat) (m : Module) : Module :=
  mkModule (module_name m) (module_ports m) ({[child]} ∪ module_children m).

Definition add_port (mm : ModuleManager) (id : ModuleId) (p : BasicPort)
    (t : e_module_port_type) : ModuleManager :=
  match id with
  | Some i => alter (module_add_port p t) i mm
  | None => mm
  end.

Definition add_child_module (mm : ModuleManager) (parent child : ModuleId)
    : ModuleManager :=
  match parent, child with
  | Some p, Some c => alter (module_add_child c) p mm
  | _, _ => mm
  end.

Definition ports_of (mm : ModuleManager) (id : ModuleId)
    : list (BasicPort * e_module_port_type) :=
  match id with
  | Some i => match mm !! i with Some m => module_ports m | None => [] end
  | None => []
  end.

Definition children_of (mm : ModuleManager) (id : ModuleId) : gset nat :=
  match id with
  | Some i => match mm !! i with Some m => module_children m | None => ∅ end
  | None => ∅
  end.

Definition name_of (mm : ModuleManager) (id : ModuleId) : string :=
  match id with
  | Some i => match mm !! i with Some m => module_name m | None => "" end
  | None => ""
  end.

(** ** The output stream

    What is written to the stream is kept as the sequence of the operands
    of [<<] and of the calls of the writer utilities
    ([verilog_writer_utils.h] is not among the sources): a call is kept
    with the arguments that decide its text. *)
Inductive chunk :=
| Str (s : string)
| Num (n : nat)
| Endl
| VerilogPort (kind : e_dump_verilog_port_type) (port : BasicPort)
| Comment (s : string)
| FileHeader (usage : string)
| IncludeDefines (verilog_dir : string)
| ModuleDeclaration (name : string)
    (ports : list (BasicPort * e_module_port_type))
| ModuleInstance (parent child : ModuleId)
    (port2port_name_map : gmap string BasicPort) (explicit_port_map : bool)
| ModuleEnd (name : string).

Record fstream := mkfstream {
  fp_name : string;
  fp_is_open : bool;
  fp_good : bool;
  fp_data : list chunk
}.

(** ** The world of one generation pass

    [w_files] are the files on disk that the stream does not hold open;
    [w_unwritable] are the paths the system refuses to create;
    [w_reserved_blwl] are the calls of
    [try_update_sram_orgz_info_reserved_blwl] on the external state, oldest
    first, each with its two arguments. *)
Record World := mkWorld {
  w_module_manager : ModuleManager;
  w_fp : fstream;
  w_files : gmap string (list chunk);
  w_unwritable : gset string;
  w_reserved_blwl : list (nat * nat)
}.

(** The files as the system sees them: an open stream writes through. *)
Definition disk (w : World) : gmap string (list chunk) :=
  if fp_is_open (w_fp w)
  then <[fp_name (w_fp w) := fp_data (w_fp w)]> (w_files w)
  else w_files w.

(** ** The monad: state and fatal stops *)

(** A run stops on a failed [VTR_ASSERT], on [exit(1)] (kept with the
    message that [vpr_printf] logs before it, without the file and line),
    or where the C++ program has no defined behaviour. *)
Inductive fatal :=
| VTR_ASSERT_failed (condition : string)
| exit_1 (message : string)
| undefined_behaviour (what : string).

Inductive outcome (A : Type) :=
| Done (a : A)
| Fatal (f : fatal).
Arguments Done {A} a.
Arguments Fatal {A} f.

Definition M (A : Type) : Type := World -> outcome A * World.

Definition ret {A} (a : A) : M A := fun w => (Done a, w).

Definition bind {A B} (m : M A) (k : A -> M B) : M B :=
  fun w =>
    match m w with
    | (Done a, w') => k a w'
    | (Fatal f, w') => (Fatal f, w')
    end.

Declare Scope gen_scope.
Delimit Scope gen_scope with gen.
Notation "x <- m ;; k" := (bind m (fun x => k))
  (at level 100, m at next level, k at level 200, right associativity)
  : gen_scope.
Notation "m ;; k" := (bind m (fun _ => k))
  (at level 100, k at level 200, right associativity) : gen_scope.
Local Open Scope gen_scope.

Definition VTR_ASSERT (condition : string) (holds : bool) : M unit :=
  fun w =>
    if holds then (Done tt, w) else (Fatal (VTR_ASSERT_failed condition), w).

Definition exit1 {A} (message : string) : M A :=
  fun w => (Fatal (exit_1 message), w).

(** A range-based [for]: the body runs on each element in turn and a fatal
    stop ends the loop. *)
Fixpoint for_each {A} (l : list A) (body : A -> M unit) : M unit :=
  match l with
  | [] => ret tt
  | x :: l' => body x ;; for_each l' body
  end.

(** *** Operations on the module manager *)

Definition mm_find_module (name : string) : M ModuleId :=
  fun w => (Done (find_module (w_module_manager w) name), w).

Definition set_module_manager (mm : ModuleManager) (w : World) : World :=
  mkWorld mm (w_fp w) (w_files w) (w_unwritable w) (w_reserved_blwl w).

Definition mm_add_module (name : string) : M ModuleId :=
  fun w =>
    let '(id, mm) := add_module (w_module_manager w) name in
    (Done id, set_module_manager mm w).

Definition mm_add_port (id : ModuleId) (p : BasicPort)
    (t : e_module_port_type) : M unit :=
  fun w =>
    (Done tt, set_module_manager (add_port (w_module_manager w) id p t) w).

Definition mm_add_child_module (parent child : ModuleId) : M unit :=
  fun w =>
    (Done tt,
     set_module_manager (add_child_module (w_module_manager w) parent child) w).

(** *** Operations on the stream *)

Definition set_fp (fp : fstream) (w : World) : World :=
  mkWorld (w_module_manager w) fp (w_files w) (w_unwritable w)
    (w_reserved_blwl w).

Definition fp_usable (fp : fstream) : bool := fp_is_open fp && fp_good fp.

(** [fp << x]: appends when the stream is open and good; otherwise nothing
    is written and the stream is marked as failed. *)
Definition fstream_put (c : chunk) (fp : fstream) : fstream :=
  if fp_usable fp
  then mkfstream (fp_name fp) (fp_is_open fp) (fp_good fp) (fp_data fp ++ [c])
  else mkfstream (fp_name fp) (fp_is_open fp) false (fp_data fp).

Definition put (c : chunk) : M unit :=
  fun w => (Done tt, set_fp (fstream_put c (w_fp w)) w).

Fixpoint puts (cs : list chunk) : M unit :=
  match cs with
  | [] => ret tt
  | c :: cs' => put c ;; puts cs'
  end.

(** Modelled from the spec: [check_file_handler] (fpga_x2p_utils.h is not
    among the sources).  "Any attempt to write through an unopened or
    invalid output stream" is fatal. *)
Definition check_file_handler : M unit :=
  fun w =>
    if fp_usable (w_fp w) then (Done tt, w)
    else (Fatal (exit_1 "Fail to create a file!"), w).

(** [fp.open(name, std::fstream::out | std::fstream::trunc)] on a stream
    that is not open: the file is created or emptied, unless the system
    refuses the path, in which case the stream fails and stays closed. *)
Definition fp_open (name : string) : M unit :=
  fun w =>
    if bool_decide (name ∈ w_unwritable w)
    then (Done tt, set_fp (mkfstream name false false []) w)
    else (Done tt, set_fp (mkfstream name true true []) w).

(** [fp.close()]: the file stays on disk with what was written. *)
Definition fp_close : M unit :=
  fun w =>
    (Done tt,
     mkWorld (w_module_manager w)
       (mkfstream (fp_name (w_fp w)) false
          (fp_good (w_fp w) && fp_is_open (w_fp w)) (fp_data (w_fp w)))
       (disk w) (w_unwritable w) (w_reserved_blwl w)).

(** *** The writer utilities *)

Definition print_verilog_comment (comment : string) : M unit :=
  check_file_handler ;; put (Comment comment).

Definition print_verilog_file_header (usage : string) : M unit :=
  check_file_handler ;; put (FileHeader usage).

Definition print_verilog_include_defines_preproc_file (verilog_dir : string)
    : M unit :=
  check_file_handler ;; put (IncludeDefines verilog_dir).

Definition print_verilog_module_declaration (module_id : ModuleId) : M unit :=
  check_file_handler ;;
  (fun w =>
     put (ModuleDeclaration (name_of (w_module_manager w) module_id)
            (ports_of (w_module_manager w) module_id)) w).

Definition print_verilog_module_instance (parent child : ModuleId)
    (port2port_name_map : gmap string BasicPort) (explicit_port_map : bool)
    : M unit :=
  check_file_handler ;;
  put (ModuleInstance parent child port2port_name_map explicit_port_map).

Definition print_verilog_module_end (name : string) : M unit :=
  check_file_handler ;; put (ModuleEnd name).

(** *** The external configuration-memory organisation *)

Definition try_update_sram_orgz_info_reserved_blwl
    (updated_reserved_bl updated_reserved_wl : nat) : M unit :=
  fun w =>
    (Done tt,
     mkWorld (w_module_manager w) (w_fp w) (w_files w) (w_unwritable w)
       (w_reserved_blwl w ++ [(updated_reserved_bl, updated_reserved_wl)])).

(** ** Strings of the C++ standard library *)

Definition tab : string := String (ascii_of_nat 9) "".

(** [std::to_string] of a [size_t]: its decimal digits. *)
Definition to_string (n : nat) : string :=
  NilEmpty.string_of_uint (Nat.to_uint n).

(** [std::string(n, c)]. *)
Fixpoint string_fill (n : nat) (c : ascii) : string :=
  match n with
  | 0 => EmptyString
  | S n' => String c (string_fill n' c)
  end.

(** [s[i] = c] for [i] inside the string; [None] outside, where the C++
    assignment is undefined. *)
Fixpoint string_set (s : string) (i : nat) (c : ascii) : option string :=
  match s, i with
  | EmptyString, _ => None
  | String _ s', 0 => Some (String c s')
  | String a s', S i' =>
      match string_set s' i' c with
      | Some t => Some (String a t)
      | None => None
      end
  end.

Definition string_assign (s : string) (i : nat) (c : ascii) : M string :=
  fun w =>
    match string_set s i c with
    | Some t => (Done t, w)
    | None => (Fatal (undefined_behaviour "std::string::operator[]"), w)
    end.

(** ** The generator *)

(** Structural body of a branch: one pass-gate instance for each connected
    (input, output) pair. *)
Definition generate_verilog_cmos_mux_branch_body_structural
    (circuit_lib : CircuitLibrary) (tgate_model : CircuitModelId)
    (module_id : ModuleId)
    (input_port output_port mem_port mem_inv_port : BasicPort)
    (mux_graph : MuxGraph) : M unit :=
  check_file_handler ;;
  tgate_module_id <- mm_find_module (model_name circuit_lib tgate_model) ;;
  VTR_ASSERT "ModuleId::INVALID() != tgate_module_id"
    (bool_decide (tgate_module_id <> INVALID)) ;;
  let tgate_input_ports :=
    model_ports_by_type circuit_lib tgate_model SPICE_MODEL_PORT_INPUT true in
  let tgate_output_ports :=
    model_ports_by_type circuit_lib tgate_model SPICE_MODEL_PORT_OUTPUT true in
  VTR_ASSERT "3 == tgate_input_ports.size()"
    (3 =? length tgate_input_ports)%nat ;;
  VTR_ASSERT "1 == tgate_output_ports.size()"
    (1 =? length tgate_output_ports)%nat ;;
  print_verilog_comment "---- Structure-level description -----" ;;
  for_each (inputs mux_graph) (fun mux_input =>
    let cur_input_port :=
      BasicPort_range (get_name input_port)
        (input_id mux_graph mux_input) (input_id mux_graph mux_input) in
    for_each (outputs mux_graph) (fun mux_output =>
      let cur_output_port :=
        BasicPort_range (get_name output_port)
          (output_id mux_graph mux_output) (output_id mux_graph mux_output) in
      let edges := find_edges mux_graph mux_input mux_output in
      VTR_ASSERT "(1 == edges.size()) || (0 == edges.size())"
        ((1 =? length edges)%nat || (0 =? length edges)%nat) ;;
      if (0 =? length edges)%nat then ret tt
      else
        let port2port_name_map : gmap string BasicPort := ∅ in
        let port2port_name_map :=
          <[port_lib_name circuit_lib (nth 0 tgate_input_ports 0)
              := cur_input_port]> port2port_name_map in
        let port2port_name_map :=
          <[port_lib_name circuit_lib (nth 0 tgate_output_ports 0)
              := cur_output_port]> port2port_name_map in
        let mux_mem := find_edge_mem mux_graph (nth 0 edges 0) in
        let cur_mem_port :=
          BasicPort_range (get_name mem_port) mux_mem mux_mem in
        let cur_mem_inv_port :=
          BasicPort_range (get_name mem_inv_port) mux_mem mux_mem in
        let port2port_name_map :=
          if negb (is_edge_use_inv_mem mux_graph (nth 0 edges 0))
          then
            <[port_lib_name circuit_lib (nth 2 tgate_input_ports 0)
                := cur_mem_inv_port]>
              (<[port_lib_name circuit_lib (nth 1 tgate_input_ports 0)
                   := cur_mem_port]> port2port_name_map)
          else
            <[port_lib_name circuit_lib (nth 2 tgate_input_ports 0)
                := cur_mem_port]>
              (<[port_lib_name circuit_lib (nth 1 tgate_input_ports 0)
                   := cur_mem_inv_port]> port2port_name_map) in
        print_verilog_module_instance module_id tgate_module_id
          port2port_name_map (dump_explicit_port_map circuit_lib tgate_model) ;;
        mm_add_child_module module_id tgate_module_id)).

(** Behavioural body of a branch: an output register and a case table with
    one entry for each connected (input, output) pair. *)
Definition generate_verilog_cmos_mux_branch_body_behavioral
    (input_port output_port mem_port : BasicPort) (mux_graph : MuxGraph)
    (default_mem_val : nat) : M unit :=
  check_file_handler ;;
  print_verilog_comment "---- Behavioral-level description -----" ;;
  let outreg_port := BasicPort_sized "out_reg" (num_outputs mux_graph) in
  puts [Str tab; VerilogPort VERILOG_PORT_REG outreg_port; Str ";"; Endl] ;;
  puts [Str (tab ++ "always @("); VerilogPort VERILOG_PORT_CONKT input_port;
        Str ", "; VerilogPort VERILOG_PORT_CONKT mem_port; Str ")"; Endl] ;;
  puts [Str (tab ++ "case ("); VerilogPort VERILOG_PORT_CONKT mem_port;
        Str ")"; Endl] ;;
  for_each (inputs mux_graph) (fun mux_input =>
    let cur_input_port :=
      BasicPort_range (get_name input_port)
        (input_id mux_graph mux_input) (input_id mux_graph mux_input) in
    for_each (outputs mux_graph) (fun mux_output =>
      let cur_output_port :=
        BasicPort_range (get_name output_port)
          (output_id mux_graph mux_output) (output_id mux_graph mux_output) in
      let edges := find_edges mux_graph mux_input mux_output in
      VTR_ASSERT "(1 == edges.size()) || (0 == edges.size())"
        ((1 =? length edges)%nat || (0 =? length edges)%nat) ;;
      if (0 =? length edges)%nat then ret tt
      else
        puts [Str (tab ++ tab); Num (get_width mem_port); Str "'b"] ;;
        let case_code :=
          string_fill (get_width mem_port) (ascii_of_nat default_mem_val) in
        let mux_mem := find_edge_mem mux_graph (nth 0 edges 0) in
        case_code <-
          (if negb (is_edge_use_inv_mem mux_graph (nth 0 edges 0))
           then string_assign case_code mux_mem "1"%char
           else string_assign case_code mux_mem "0"%char) ;;
        puts [Str case_code; Str ": ";
              VerilogPort VERILOG_PORT_CONKT outreg_port; Str " <= "] ;;
        puts [VerilogPort VERILOG_PORT_CONKT cur_input_port; Str ";"; Endl])) ;;
  let default_case := string_fill (num_outputs mux_graph) "z"%char in
  puts [Str (tab ++ tab ++ "default: ");
        VerilogPort VERILOG_PORT_CONKT outreg_port; Str " <= "] ;;
  puts [Num (num_outputs mux_graph); Str "'b"; Str default_case; Str ";";
        Endl] ;;
  puts [Str (tab ++ "endcase"); Endl] ;;
  puts [Str (tab ++ "assign "); VerilogPort VERILOG_PORT_CONKT output_port;
        Str " = "] ;;
  puts [VerilogPort VERILOG_PORT_CONKT outreg_port; Str ";"; Endl].

(** The branch module of a CMOS multiplexer, structural or behavioural. *)
Definition generate_verilog_cmos_mux_branch_module
    (circuit_lib : CircuitLibrary) (circuit_model : CircuitModelId)
    (module_name : string) (mux_graph : MuxGraph)
    (use_structural_verilog : bool) : M unit :=
  let tgate_model := pass_gate_logic_model circuit_lib circuit_model in
  if is_SPICE_MODEL_GATE (model_type circuit_lib tgate_model) then
    VTR_ASSERT "SPICE_MODEL_GATE_MUX2 == circuit_lib.gate_type(tgate_model)"
      (is_SPICE_MODEL_GATE_MUX2 (gate_type circuit_lib tgate_model)) ;;
    ret tt
  else
    let tgate_global_ports :=
      model_global_ports_by_type circuit_lib tgate_model
        SPICE_MODEL_PORT_INPUT true in
    check_file_handler ;;
    let num_inputs := num_inputs mux_graph in
    let num_outputs := num_outputs mux_graph in
    let num_mems := num_memory_bits mux_graph in
    VTR_ASSERT "1 == num_outputs" (1 =? num_outputs)%nat ;;
    VTR_ASSERT "1 == mux_graph.num_levels()" (1 =? num_levels mux_graph)%nat ;;
    module_id <- mm_add_module module_name ;;
    VTR_ASSERT "ModuleId::INVALID() != module_id"
      (bool_decide (module_id <> INVALID)) ;;
    for_each tgate_global_ports (fun port =>
      let global_port :=
        BasicPort_sized (port_lib_name circuit_lib port)
          (port_size circuit_lib port) in
      mm_add_port module_id global_port MODULE_GLOBAL_PORT) ;;
    let input_port := BasicPort_sized "in" num_inputs in
    mm_add_port module_id input_port MODULE_INPUT_PORT ;;
    let output_port := BasicPort_sized "out" num_outputs in
    mm_add_port module_id output_port MODULE_OUTPUT_PORT ;;
    let mem_port := BasicPort_sized "mem" num_mems in
    mm_add_port module_id mem_port MODULE_INPUT_PORT ;;
    let mem_inv_port := BasicPort_sized "mem_inv" num_mems in
    mm_add_port module_id mem_inv_port MODULE_INPUT_PORT ;;
    print_verilog_module_declaration module_id ;;
    (if use_structural_verilog then
       generate_verilog_cmos_mux_branch_body_structural circuit_lib
         tgate_model module_id input_port output_port mem_port mem_inv_port
         mux_graph
     else
       VTR_ASSERT "false == use_structural_verilog"
         (negb use_structural_verilog) ;;
       let sram_ports :=
         model_ports_by_type circuit_lib circuit_model SPICE_MODEL_PORT_SRAM
           true in
       let non_mode_select_sram_ports :=
         List.filter (fun port => negb (port_is_mode_select circuit_lib port))
           sram_ports in
       VTR_ASSERT "1 == non_mode_select_sram_ports.size()"
         (1 =? length non_mode_select_sram_ports)%nat ;;
       let mem_default_val :=
         to_string
           (port_default_value circuit_lib
              (nth 0 non_mode_select_sram_ports 0)) in
       VTR_ASSERT "1 == mem_default_val.length()"
         (1 =? String.length mem_default_val)%nat ;;
       generate_verilog_cmos_mux_branch_body_behavioral input_port output_port
         mem_port mux_graph
         (nat_of_ascii
            (match mem_default_val with
             | String c _ => c
             | EmptyString => zero
             end))) ;;
    print_verilog_module_end module_name.

(** What the generator takes from files that are not among the sources:
    the two constants of [verilog_global.h], the naming function of
    [fpga_x2p_naming.h] and the decomposition
    [MuxGraph::build_mux_branch_graphs]. *)
Record Env := mkEnv {
  muxes_verilog_file_name : string;
  verilog_mux_basis_posfix : string;
  generate_verilog_mux_branch_subckt_name :
    CircuitLibrary -> CircuitModelId -> nat -> nat -> string -> string;
  build_mux_branch_graphs : MuxGraph -> list MuxGraph
}.

(** Dispatch on the design technology of the multiplexer. *)
Definition generate_verilog_mux_branch_module (env : Env)
    (circuit_lib : CircuitLibrary) (circuit_model : CircuitModelId)
    (mux_size : nat) (mux_graph : MuxGraph) : M unit :=
  let module_name :=
    generate_verilog_mux_branch_subckt_name env circuit_lib circuit_model
      mux_size (num_inputs mux_graph) (verilog_mux_basis_posfix env) in
  match design_tech_type circuit_lib circuit_model with
  | SPICE_MODEL_DESIGN_CMOS =>
      generate_verilog_cmos_mux_branch_module circuit_lib circuit_model
        module_name mux_graph
        (dump_structural_verilog circuit_lib circuit_model)
  | SPICE_MODEL_DESIGN_RRAM => ret tt
  | SPICE_MODEL_DESIGN_other _ =>
      exit1 ("Invalid design technology of multiplexer (name: "
             ++ model_name circuit_lib circuit_model ++ ")")
  end.

(** [my_strcat] of [util.h]: the concatenation of two C strings. *)
Definition my_strcat (a b : string) : string := (a ++ b)%string.

(** The branch loop of the driver, over the library. *)
Definition generate_all_branches (env : Env) (mux_lib : MuxLibrary)
    (circuit_lib : CircuitLibrary) : M unit :=
  for_each mux_lib (fun mux =>
    let mux_graph := mux_graph mux in
    let mux_circuit_model := mux_circuit_model mux in
    let branch_mux_graphs := build_mux_branch_graphs env mux_graph in
    for_each branch_mux_graphs (fun branch_mux_graph =>
      generate_verilog_mux_branch_module env circuit_lib mux_circuit_model
        (num_inputs mux_graph) branch_mux_graph)).

(** The driver: the Verilog modules of all the multiplexers of the
    library.  The message that [vpr_printf] logs when the file is created
    is not kept. *)
Definition print_verilog_submodule_muxes (env : Env) (mux_lib : MuxLibrary)
    (circuit_lib : CircuitLibrary) (verilog_dir submodule_dir : string)
    : M unit :=
  let verilog_fname := my_strcat submodule_dir (muxes_verilog_file_name env) in
  let verilog_fname := (verilog_fname ++ ".bak")%string in
  fp_open verilog_fname ;;
  check_file_handler ;;
  print_verilog_file_header "Multiplexers" ;;
  print_verilog_include_defines_preproc_file verilog_dir ;;
  generate_all_branches env mux_lib circuit_lib ;;
  fp_close ;;
  try_update_sram_orgz_info_reserved_blwl (max_mux_size mux_lib)
    (max_mux_size mux_lib).

(** ** Observations used by the statements *)

(** What the stream holds. *)
Definition out (w : World) : list chunk := fp_data (w_fp w).

Definition usable (w : World) : Prop := fp_usable (w_fp w) = true.

(** The world after [cs] was written to a usable stream. *)
Definition emit (cs : list chunk) (w : World) : World :=
  set_fp (mkfstream (fp_name (w_fp w)) (fp_is_open (w_fp w))
            (fp_good (w_fp w)) (fp_data (w_fp w) ++ cs)) w.

(** The (input, output) pairs of a graph that an edge connects, in the
    order of the two nested loops, and the first edge of a pair. *)
Definition connected (g : MuxGraph) (p : MuxNodeId * MuxNodeId) : bool :=
  existsb (edge_connects (fst p) (snd p)) (mux_edges g).

Definition all_pairs (g : MuxGraph) : list (MuxNodeId * MuxNodeId) :=
  flat_map (fun i => List.map (fun o => (i, o)) (outputs g)) (inputs g).

Definition connected_pairs (g : MuxGraph) : list (MuxNodeId * MuxNodeId) :=
  List.filter (connected g) (all_pairs g).

Definition edge_of (g : MuxGraph) (p : MuxNodeId * MuxNodeId)
    : option MuxEdge :=
  List.find (edge_connects (fst p) (snd p)) (mux_edges g).

(** The invariant of a graph: at most one edge for each (input, output)
    pair. *)
Definition at_most_one_edge_per_pair (g : MuxGraph) : bool :=
  forallb (fun p => length (find_edges g (fst p) (snd p)) <=? 1)%nat
    (all_pairs g).

(** Every edge goes from an input to an output, and no node is listed
    twice. *)
Definition edges_on_nodes (g : MuxGraph) : bool :=
  forallb (fun e => existsb (Nat.eqb (edge_src e)) (inputs g)
                    && existsb (Nat.eqb (edge_sink e)) (outputs g))
    (mux_edges g)
  && bool_decide (NoDup (inputs g)) && bool_decide (NoDup (outputs g)).

Definition not_declaration (c : chunk) : bool :=
  match c with ModuleDeclaration _ _ => false | _ => true end.

Definition count_declarations (cs : list chunk) : nat :=
  length (List.filter (fun c => negb (not_declaration c)) cs).

Definition declared_names (cs : list chunk) : list string :=
  flat_map (fun c => match c with ModuleDeclaration n _ => [n] | _ => [] end)
    cs.

(** The distinct default values of the configuration ports of a model that
    are not mode-select ports. *)
Definition non_mode_select_sram_ports (circuit_lib : CircuitLibrary)
    (circuit_model : CircuitModelId) : list CircuitPortId :=
  List.filter (fun port => negb (port_is_mode_select circuit_lib port))
    (model_ports_by_type circuit_lib circuit_model SPICE_MODEL_PORT_SRAM true).

Definition distinct_default_values (circuit_lib : CircuitLibrary)
    (circuit_model : CircuitModelId) : list nat :=
  remove_dups
    (List.map (port_default_value circuit_lib)
       (non_mode_select_sram_ports circuit_lib circuit_model)).

(** *** The text of a behavioural body, as the spec words it *)

Definition behavioral_header (input_port mem_port outreg_port : BasicPort)
    : list chunk :=
  [Comment "---- Behavioral-level description -----";
   Str tab; VerilogPort VERILOG_PORT_REG outreg_port; Str ";"; Endl;
   Str (tab ++ "always @("); VerilogPort VERILOG_PORT_CONKT input_port;
   Str ", "; VerilogPort VERILOG_PORT_CONKT mem_port; Str ")"; Endl;
   Str (tab ++ "case ("); VerilogPort VERILOG_PORT_CONKT mem_port; Str ")";
   Endl].

(** One entry of the case table: the literal, then the assignment of the
    input slice to the output register. *)
Definition case_entry (width : nat) (outreg_port : BasicPort)
    (input_name : string) (g : MuxGraph)
    (entry : MuxNodeId * MuxNodeId * string) : list chunk :=
  let i := fst (fst entry) in
  let code := snd entry in
  [Str (tab ++ tab); Num width; Str "'b"; Str code; Str ": ";
   VerilogPort VERILOG_PORT_CONKT outreg_port; Str " <= ";
   VerilogPort VERILOG_PORT_CONKT
     (BasicPort_range input_name (input_id g i) (input_id g i));
   Str ";"; Endl].

Definition behavioral_footer (output_port outreg_port : BasicPort)
    (n_outputs : nat) : list chunk :=
  [Str (tab ++ tab ++ "default: ");
   VerilogPort VERILOG_PORT_CONKT outreg_port; Str " <= ";
   Num n_outputs; Str "'b"; Str (string_fill n_outputs "z"%char); Str ";";
   Endl;
   Str (tab ++ "endcase"); Endl;
   Str (tab ++ "assign "); VerilogPort VERILOG_PORT_CONKT output_port;
   Str " = "; VerilogPort VERILOG_PORT_CONKT outreg_port; Str ";"; Endl].

(** A case literal for an edge: [width] characters, all [default] but the
    one at the memory bit of the edge, which is ['1'], or ['0'] when the
    edge uses the inverted bit. *)
Definition case_code_spec (width : nat) (default : ascii) (ed : MuxEdge)
    (code : string) : Prop :=
  String.length code = width /\
  forall j, j < width ->
    String.get j code =
      Some (if (j =? edge_mem ed)%nat
            then (if edge_inv ed then "0"%char else "1"%char)
            else default).

(** *** The wiring of a pass gate, as the spec words it *)

Record tgate_ports := mk_tgate_ports {
  tgate_data_in : string;
  tgate_data_out : string;
  tgate_ctrl_first : string;
  tgate_ctrl_second : string
}.

Definition tgate_ports_of (circuit_lib : CircuitLibrary)
    (tgate_model : CircuitModelId) : tgate_ports :=
  let ins :=
    model_ports_by_type circuit_lib tgate_model SPICE_MODEL_PORT_INPUT true in
  let outs :=
    model_ports_by_type circuit_lib tgate_model SPICE_MODEL_PORT_OUTPUT true in
  mk_tgate_ports (port_lib_name circuit_lib (nth 0 ins 0))
    (port_lib_name circuit_lib (nth 0 outs 0))
    (port_lib_name circuit_lib (nth 1 ins 0))
    (port_lib_name circuit_lib (nth 2 ins 0)).

Definition tgate_port_names_distinct (t : tgate_ports) : bool :=
  bool_decide
    (NoDup [tgate_data_in t; tgate_data_out t; tgate_ctrl_first t;
            tgate_ctrl_second t]).

Definition slice (name : string) (i : nat) : BasicPort :=
  BasicPort_range name i i.

(** The port map of the instance for the pair [(i, o)] joined by [ed]. *)
Definition wired (t : tgate_ports) (in_name out_name mem_name mem_inv_name
    : string) (g : MuxGraph) (p : MuxNodeId * MuxNodeId) (ed : MuxEdge)
    (m : gmap string BasicPort) : Prop :=
  m !! tgate_data_in t = Some (slice in_name (input_id g (fst p))) /\
  m !! tgate_data_out t = Some (slice out_name (output_id g (snd p))) /\
  m !! tgate_ctrl_first t =
    Some (if edge_inv ed then slice mem_inv_name (edge_mem ed)
          else slice mem_name (edge_mem ed)) /\
  m !! tgate_ctrl_second t =
    Some (if edge_inv ed then slice mem_name (edge_mem ed)
          else slice mem_inv_name (edge_mem ed)).

(** *** The interface of a branch module *)

Definition branch_module_ports (circuit_lib : CircuitLibrary)
    (circuit_model : CircuitModelId) (g : MuxGraph)
    : list (BasicPort * e_module_port_type) :=
  List.map
    (fun port =>
       (BasicPort_sized (port_lib_name circuit_lib port)
          (port_size circuit_lib port), MODULE_GLOBAL_PORT))
    (model_global_ports_by_type circuit_lib
       (pass_gate_logic_model circuit_lib circuit_model)
       SPICE_MODEL_PORT_INPUT true)
  ++ [(BasicPort_sized "in" (num_inputs g), MODULE_INPUT_PORT);
      (BasicPort_sized "out" (num_outputs g), MODULE_OUTPUT_PORT);
      (BasicPort_sized "mem" (num_memory_bits g), MODULE_INPUT_PORT);
      (BasicPort_sized "mem_inv" (num_memory_bits g), MODULE_INPUT_PORT)].

(** Whether a branch handed to the dispatch gets a module: its model is
    CMOS and its pass-gate model is not a logic gate. *)
Definition emits_module (circuit_lib : CircuitLibrary)
    (circuit_model : CircuitModelId) : bool :=
  match design_tech_type circuit_lib circuit_model with
  | SPICE_MODEL_DESIGN_CMOS =>
      negb (is_SPICE_MODEL_GATE
              (model_type circuit_lib
                 (pass_gate_logic_model circuit_lib circuit_model)))
  | _ => false
  end.

(** The branches handed to the dispatch by the driver, in order, each with
    the model of its multiplexer. *)
Definition branches_of (env : Env) (mux_lib : MuxLibrary)
    : list (CircuitModelId * nat * MuxGraph) :=
  flat_map
    (fun mux =>
       List.map
         (fun b => (mux_circuit_model mux, num_inputs (mux_graph mux), b))
         (build_mux_branch_graphs env (mux_graph mux)))
    mux_lib.

Definition branch_name (env : Env) (circuit_lib : CircuitLibrary)
    (b : CircuitModelId * nat * MuxGraph) : string :=
  generate_verilog_mux_branch_subckt_name env circuit_lib (fst (fst b))
    (snd (fst b)) (num_inputs (snd b)) (verilog_mux_basis_posfix env).

Definition dispatch_branch (env : Env) (circuit_lib : CircuitLibrary)
    (b : CircuitModelId * nat * MuxGraph) : M unit :=
  generate_verilog_mux_branch_module env circuit_lib (fst (fst b))
    (snd (fst b)) (snd b).

Definition branch_emits (circuit_lib : CircuitLibrary)
    (b : CircuitModelId * nat * MuxGraph) : bool :=
  emits_module circuit_lib (fst (fst b)).

(** The staging name and the base name of the netlist. *)
Definition base_file_name (env : Env) (submodule_dir : string) : string :=
  my_strcat submodule_dir (muxes_verilog_file_name env).

Definition staging_file_name (env : Env) (submodule_dir : string) : string :=
  (base_file_name env submodule_dir ++ ".bak")%string.

(** The case literal the behavioural body writes for a connected pair. *)
Definition case_code_of (width default_mem_val : nat) (g : MuxGraph)
    (p : MuxNodeId * MuxNodeId) : string :=
  match edge_of g p with
  | Some ed =>
      match string_set (string_fill width (ascii_of_nat default_mem_val))
              (edge_mem ed) (if edge_inv ed then "0"%char else "1"%char) with
      | Some code => code
      | None => EmptyString
      end
  | None => EmptyString
  end.

(** Every edge is controlled by a bit below [width]. *)
Definition mems_below (width : nat) (g : MuxGraph) : bool :=
  forallb (fun e => edge_mem e <? width)%nat (mux_edges g).

(** The port map the structural body builds for a connected pair. *)
Definition tgate_port_map (t : tgate_ports)
    (in_name out_name mem_name mem_inv_name : string) (g : MuxGraph)
    (p : MuxNodeId * MuxNodeId) : gmap string BasicPort :=
  let e := nth 0 (find_edges g (fst p) (snd p)) 0 in
  let m : gmap string BasicPort :=
    <[tgate_data_out t := slice out_name (output_id g (snd p))]>
      (<[tgate_data_in t := slice in_name (input_id g (fst p))]> ∅) in
  if negb (is_edge_use_inv_mem g e)
  then <[tgate_ctrl_second t := slice mem_inv_name (find_edge_mem g e)]>
         (<[tgate_ctrl_first t := slice mem_name (find_edge_mem g e)]> m)
  else <[tgate_ctrl_second t := slice mem_name (find_edge_mem g e)]>
         (<[tgate_ctrl_first t := slice mem_inv_name (find_edge_mem g e)]> m).

(** The module manager once a branch module is registered under [name]
    with its ports: a module of that name is reused and gets the ports
    after those it has. *)
Definition module_add_ports (ps : list (BasicPort * e_module_port_type))
    (m : Module) : Module :=
  mkModule (module_name m) (module_ports m ++ ps) (module_children m).

Definition branch_module_id (mm : ModuleManager) (name : string) : nat :=
  match find_module mm name with
  | Some id => id
  | None => length mm
  end.

Definition register_branch_module (circuit_lib : CircuitLibrary)
    (circuit_model : CircuitModelId) (name : string) (g : MuxGraph)
    (mm : ModuleManager) : ModuleManager :=
  alter (module_add_ports (branch_module_ports circuit_lib circuit_model g))
    (branch_module_id mm name) (snd (add_module mm name)).

(** The world when the declaration of the branch module is written. *)
Definition declared (circuit_lib : CircuitLibrary)
    (circuit_model : CircuitModelId) (name : string) (g : MuxGraph)
    (w : World) : World :=
  emit
    [ModuleDeclaration name
       (ports_of (w_module_manager w) (find_module (w_module_manager w) name)
        ++ branch_module_ports circuit_lib circuit_model g)]
    (set_module_manager
       (register_branch_module circuit_lib circuit_model name g
          (w_module_manager w)) w).

(** An action keeps a property of the world, whatever its outcome. *)
Definition preserves {A} (P : World -> Prop) (m : M A) : Prop :=
  forall w, P w -> P (snd (m w)).

(** The names and the ports of the registered modules. *)
Definition interfaces (mm : ModuleManager)
    : list (string * list (BasicPort * e_module_port_type)) :=
  List.map (fun m => (module_name m, module_ports m)) mm.

(** What the CMOS branch module does once its declaration is written: the
    structural or the behavioural body. *)
Definition cmos_branch_body (circuit_lib : CircuitLibrary)
    (circuit_model : CircuitModelId) (module_id : ModuleId) (g : MuxGraph)
    (use_structural_verilog : bool) : M unit :=
  if use_structural_verilog then
    generate_verilog_cmos_mux_branch_body_structural circuit_lib
      (pass_gate_logic_model circuit_lib circuit_model) module_id
      (BasicPort_sized "in" (num_inputs g))
      (BasicPort_sized "out" (num_outputs g))
      (BasicPort_sized "mem" (num_memory_bits g))
      (BasicPort_sized "mem_inv" (num_memory_bits g)) g
  else
    VTR_ASSERT "1 == non_mode_select_sram_ports.size()"
      (1 =? length (non_mode_select_sram_ports circuit_lib circuit_model))%nat
    ;;
    VTR_ASSERT "1 == mem_default_val.length()"
      (1 =? String.length
              (to_string
                 (port_default_value circuit_lib
                    (nth 0 (non_mode_select_sram_ports circuit_lib
                              circuit_model) 0))))%nat ;;
    generate_verilog_cmos_mux_branch_body_behavioral
      (BasicPort_sized "in" (num_inputs g))
      (BasicPort_sized "out" (num_outputs g))
      (BasicPort_sized "mem" (num_memory_bits g)) g
      (nat_of_ascii
         (match to_string
                  (port_default_value circuit_lib
                     (nth 0 (non_mode_select_sram_ports circuit_lib
                               circuit_model) 0)) with
          | String c _ => c
          | EmptyString => zero
          end)).

(** The stream only grows from [prefix], by chunks that are not module
    declarations, and the names and the ports of the registered modules
    stay [I]. *)
Definition declared_interface
    (I : list (string * list (BasicPort * e_module_port_type)))
    (prefix : list chunk) (w : World) : Prop :=
  interfaces (w_module_manager w) = I
  /\ exists rest,
       out w = prefix ++ rest /\ forallb not_declaration rest = true.

(** The world when the driver enters its loop: the stream is open on the
    staging file and holds the header and the include section. *)
Definition started (env : Env) (verilog_dir submodule_dir : string)
    (w : World) : World :=
  set_fp
    (mkfstream (staging_file_name env submodule_dir) true true
       [FileHeader "Multiplexers"; IncludeDefines verilog_dir]) w.

(** What the branch loop leaves alone: the files the stream does not hold,
    the name and the state of the stream, the paths that cannot be
    created and the calls on the configuration-memory organisation. *)
Definition frame (w0 w : World) : Prop :=
  w_files w = w_files w0
  /\ fp_name (w_fp w) = fp_name (w_fp w0)
  /\ fp_is_open (w_fp w) = fp_is_open (w_fp w0)
  /\ w_unwritable w = w_unwritable w0
  /\ w_reserved_blwl w = w_reserved_blwl w0.

(** ** Sample inputs *)

(** The 4:1 branch of the spec: [in_i] reaches the output under memory bit
    [i]; the edge of [in1] uses the inverted bit. *)
Definition sample_graph : MuxGraph :=
  mkMuxGraph [0; 1; 2; 3] [4] (fun n => n) (fun n => n - 4)
    [mkMuxEdge 0 4 0 false; mkMuxEdge 1 4 1 true; mkMuxEdge 2 4 2 false;
     mkMuxEdge 3 4 3 false]
    4 1.

Definition two_output_graph : MuxGraph :=
  mkMuxGraph [0; 1] [2; 3] (fun n => n) (fun n => n - 2)
    [mkMuxEdge 0 2 0 false; mkMuxEdge 1 3 1 false] 2 1.

(** Model 0 is a multiplexer and model 1 its pass gate, with data input
    10, control inputs 11 and 12 and output 13; the multiplexer has the
    configuration ports [sram]; port 22 is a mode-select port. *)
Definition sample_port_name (p : CircuitPortId) : string :=
  match p with
  | 10 => "in"
  | 11 => "sel"
  | 12 => "selb"
  | 13 => "out"
  | 20 => "sram"
  | 21 => "sram_b"
  | _ => "mode"
  end.

Definition sample_circuit_lib (tech : e_spice_model_design_tech)
    (tgate_type : e_spice_model_type) (structural : bool)
    (sram : list CircuitPortId) : CircuitLibrary :=
  mkCircuitLibrary
    (fun m => match m with 0 => "mux" | _ => "TGATE" end)
    (fun m => match m with 1 => tgate_type | _ => SPICE_MODEL_TYPE_other 0 end)
    (fun _ => SPICE_MODEL_GATE_MUX2)
    (fun _ => tech)
    (fun _ => 1)
    (fun _ => structural)
    (fun _ => true)
    (fun m t _ =>
       match m, t with
       | 1, SPICE_MODEL_PORT_INPUT => [10; 11; 12]
       | 1, SPICE_MODEL_PORT_OUTPUT => [13]
       | 0, SPICE_MODEL_PORT_SRAM => sram
       | _, _ => []
       end)
    (fun _ _ _ => [])
    sample_port_name
    (fun _ => 1)
    (fun p => (p =? 22)%nat)
    (fun _ => 0).

Definition cmos_lib (structural : bool) : CircuitLibrary :=
  sample_circuit_lib SPICE_MODEL_DESIGN_CMOS (SPICE_MODEL_TYPE_other 0)
    structural [20; 22].

(** The same library with a 2:1 logic-gate multiplexer as pass gate, under
    the CMOS technology and under an unrecognised one, and the library
    with two configuration ports of the same default value. *)
Definition gate_lib : CircuitLibrary :=
  sample_circuit_lib SPICE_MODEL_DESIGN_CMOS SPICE_MODEL_GATE true [20; 22].

Definition other_tech_gate_lib : CircuitLibrary :=
  sample_circuit_lib (SPICE_MODEL_DESIGN_other 2) SPICE_MODEL_GATE true
    [20; 22].

Definition two_sram_lib : CircuitLibrary :=
  sample_circuit_lib SPICE_MODEL_DESIGN_CMOS (SPICE_MODEL_TYPE_other 0) false
    [20; 21].

Definition sample_env : Env :=
  mkEnv "muxes.v" "_basis"
    (fun circuit_lib circuit_model mux_size branch_size posfix =>
       (model_name circuit_lib circuit_model ++ "_size" ++ to_string mux_size
        ++ "_" ++ to_string branch_size ++ posfix)%string)
    (fun g => [g]).

(** A library with one 4:1 multiplexer, and one where the same multiplexer
    is listed twice. *)
Definition one_mux_lib : MuxLibrary := [mkMuxLibraryEntry sample_graph 0].

Definition twice_mux_lib : MuxLibrary :=
  [mkMuxLibraryEntry sample_graph 0; mkMuxLibraryEntry sample_graph 0].

(** A world where the pass gate is registered and no stream is open, and
    the same world with the stream open on the staging file. *)
Definition sample_world : World :=
  mkWorld [mkModule "TGATE" [] ∅] (mkfstream "" false true []) ∅ ∅ [].

Definition open_world : World :=
  mkWorld [mkModule "TGATE" [] ∅] (mkfstream "muxes.v.bak" true true []) ∅
    ∅ [].

(** ** Further observations and sample inputs *)

(** The chunks written inside a module: every chunk but the declaration
    and the end of a module and the two chunks of the file preamble. *)
Definition inner_chunk (c : chunk) : bool :=
  match c with
  | ModuleDeclaration _ _ | ModuleEnd _ | FileHeader _ | IncludeDefines _ =>
      false
  | _ => true
  end.

(** The text of one module: its declaration, its body, its end. *)
Definition module_block
    (b : string * list (BasicPort * e_module_port_type) * list chunk)
    : list chunk :=
  ModuleDeclaration (fst (fst b)) (snd (fst b)) :: snd b
  ++ [ModuleEnd (fst (fst b))].

(** The stream grew from [prefix] by chunks written inside a module. *)
Definition grown_inside (prefix : list chunk) (w : World) : Prop :=
  exists rest, out w = prefix ++ rest /\ forallb inner_chunk rest = true.

(** The modules of [mm0] are still registered, under the same ids and
    names. *)
Definition names_kept (mm0 : ModuleManager) (w : World) : Prop :=
  exists l,
    List.map module_name (w_module_manager w)
    = List.map module_name mm0 ++ l.

(** The first failing check of the structural body on the pass gate. *)
Definition tgate_check (circuit_lib : CircuitLibrary)
    (tgate_model : CircuitModelId) (mm : ModuleManager) : option string :=
  match find_module mm (model_name circuit_lib tgate_model) with
  | None => Some "ModuleId::INVALID() != tgate_module_id"
  | Some _ =>
      if negb (3 =? length (model_ports_by_type circuit_lib tgate_model
                              SPICE_MODEL_PORT_INPUT true))%nat
      then Some "3 == tgate_input_ports.size()"
      else if negb (1 =? length (model_ports_by_type circuit_lib tgate_model
                                   SPICE_MODEL_PORT_OUTPUT true))%nat
      then Some "1 == tgate_output_ports.size()"
      else None
  end.

(** A graph with two edges from its first input to its output. *)
Definition double_edge_graph : MuxGraph :=
  mkMuxGraph [0; 1] [2] (fun n => n) (fun n => n - 2)
    [mkMuxEdge 0 2 0 false; mkMuxEdge 0 2 1 false; mkMuxEdge 1 2 1 false]
    2 1.

(** The sample library with the default value [v] on every port. *)
Definition default_value_lib (v : nat) : CircuitLibrary :=
  mkCircuitLibrary
    (model_name (cmos_lib false)) (model_type (cmos_lib false))
    (gate_type (cmos_lib false)) (design_tech_type (cmos_lib false))
    (pass_gate_logic_model (cmos_lib false))
    (dump_structural_verilog (cmos_lib false))
    (dump_explicit_port_map (cmos_lib false))
    (model_ports_by_type (cmos_lib false))
    (model_global_ports_by_type (cmos_lib false))
    (port_lib_name (cmos_lib false)) (port_size (cmos_lib false))
    (port_is_mode_select (cmos_lib false)) (fun _ => v).

Definition rram_lib : CircuitLibrary :=
  sample_circuit_lib SPICE_MODEL_DESIGN_RRAM (SPICE_MODEL_TYPE_other 0) true
    [20].

(** A branch for which the dispatch ends without a module: its model is
    RRAM, or CMOS with a 2:1 logic-gate multiplexer as pass gate. *)
Definition branch_skipped (circuit_lib : CircuitLibrary)
    (b : CircuitModelId * nat * MuxGraph) : bool :=
  match design_tech_type circuit_lib (fst (fst b)) with
  | SPICE_MODEL_DESIGN_CMOS =>
      is_SPICE_MODEL_GATE
        (model_type circuit_lib
           (pass_gate_logic_model circuit_lib (fst (fst b))))
      && is_SPICE_MODEL_GATE_MUX2
           (gate_type circuit_lib
              (pass_gate_logic_model circuit_lib (fst (fst b))))
  | SPICE_MODEL_DESIGN_RRAM => true
  | SPICE_MODEL_DESIGN_other _ => false
  end.

(** What the generation checks on a branch before and while it writes
    its module. *)
Definition branch_valid (circuit_lib : CircuitLibrary)
    (b : CircuitModelId * nat * MuxGraph) : bool :=
  let circuit_model := fst (fst b) in
  let g := snd b in
  let tgate_model := pass_gate_logic_model circuit_lib circuit_model in
  match design_tech_type circuit_lib circuit_model with
  | SPICE_MODEL_DESIGN_CMOS =>
      if is_SPICE_MODEL_GATE (model_type circuit_lib tgate_model)
      then is_SPICE_MODEL_GATE_MUX2 (gate_type circuit_lib tgate_model)
      else
        (num_outputs g =? 1)%nat && (num_levels g =? 1)%nat
        && at_most_one_edge_per_pair g
        && (if dump_structural_verilog circuit_lib circuit_model
            then
              (length (model_ports_by_type circuit_lib tgate_model
                         SPICE_MODEL_PORT_INPUT true) =? 3)%nat
              && (length (model_ports_by_type circuit_lib tgate_model
                            SPICE_MODEL_PORT_OUTPUT true) =? 1)%nat
            else
              (length (non_mode_select_sram_ports circuit_lib circuit_model)
               =? 1)%nat
              && (port_default_value circuit_lib
                    (nth 0 (non_mode_select_sram_ports circuit_lib
                              circuit_model) 0) <? 10)%nat)
  | SPICE_MODEL_DESIGN_RRAM => true
  | SPICE_MODEL_DESIGN_other _ => false
  end.

Definition count_instances (cs : list chunk) : nat :=
  length
    (List.filter
       (fun c => match c with ModuleInstance _ _ _ _ => true | _ => false end)
       cs).

(** * Properties *)

(** ** The monad and the stream *)

Lemma bind_Done {A B} (m : M A) (k : A -> M B) w a w' :
  m w = (Done a, w') -> bind m k w = k a w'.
Proof. intros H. unfold bind. now rewrite H. Qed.

Lemma bind_Fatal {A B} (m : M A) (k : A -> M B) w f w' :
  m w = (Fatal f, w') -> bind m k w = (Fatal f, w').
Proof. intros H. unfold bind. now rewrite H. Qed.

Lemma bind_assoc {A B C} (m : M A) (k : A -> M B) (h : B -> M C) w :
  bind (bind m k) h w = bind m (fun a => bind (k a) h) w.
Proof. unfold bind. now destruct (m w) as [[a|f] w1]. Qed.

Lemma VTR_ASSERT_true c w : VTR_ASSERT c true w = (Done tt, w).
Proof. reflexivity. Qed.

Lemma VTR_ASSERT_false c w :
  VTR_ASSERT c false w = (Fatal (VTR_ASSERT_failed c), w).
Proof. reflexivity. Qed.

Lemma emit_nil w : emit [] w = w.
Proof.
  destruct w as [mm [n o g d] fs u r]. unfold emit, set_fp. simpl.
  now rewrite app_nil_r.
Qed.

Lemma emit_emit cs ds w : emit ds (emit cs w) = emit (cs ++ ds) w.
Proof. unfold emit, set_fp. simpl. now rewrite app_assoc. Qed.

Lemma out_emit cs w : out (emit cs w) = out w ++ cs.
Proof. reflexivity. Qed.

Lemma usable_emit cs w : usable (emit cs w) <-> usable w.
Proof. reflexivity. Qed.

Lemma check_file_handler_usable w :
  usable w -> check_file_handler w = (Done tt, w).
Proof. unfold usable, check_file_handler. now intros ->. Qed.

Lemma check_file_handler_unusable w :
  ~ usable w ->
  check_file_handler w = (Fatal (exit_1 "Fail to create a file!"), w).
Proof.
  unfold usable, check_file_handler. now destruct (fp_usable (w_fp w)).
Qed.

Lemma put_usable c w : usable w -> put c w = (Done tt, emit [c] w).
Proof.
  unfold usable, put, fstream_put, emit. now intros ->.
Qed.

Lemma puts_usable cs w : usable w -> puts cs w = (Done tt, emit cs w).
Proof.
  revert w. induction cs as [|c cs IH]; intros w Hw; simpl.
  - now rewrite emit_nil.
  - rewrite (bind_Done _ _ _ _ _ (put_usable c w Hw)).
    rewrite IH by now apply usable_emit. now rewrite emit_emit.
Qed.

Lemma for_each_app {A} (l1 l2 : list A) (body : A -> M unit) w :
  for_each (l1 ++ l2) body w = (for_each l1 body ;; for_each l2 body) w.
Proof.
  revert w. induction l1 as [|x l1 IH]; intros w; simpl.
  - reflexivity.
  - unfold bind in *. destruct (body x w) as [[[]|f] w1]; [|reflexivity].
    apply IH.
Qed.

Lemma for_each_map {A B} (h : A -> B) (l : list A) (body : B -> M unit) w :
  for_each (List.map h l) body w = for_each l (fun x => body (h x)) w.
Proof.
  revert w. induction l as [|x l IH]; intros w; simpl; [reflexivity|].
  unfold bind. destruct (body (h x) w) as [[[]|f] w1]; [apply IH|reflexivity].
Qed.

(** The two nested loops over the inputs and the outputs of a graph are one
    loop over its pairs. *)
Lemma for_each_pairs (g : MuxGraph)
    (body : MuxNodeId -> MuxNodeId -> M unit) w :
  for_each (inputs g) (fun i => for_each (outputs g) (body i)) w
  = for_each (all_pairs g) (fun p => body (fst p) (snd p)) w.
Proof.
  unfold all_pairs. revert w.
  induction (inputs g) as [|i ins IH]; intros w; simpl; [reflexivity|].
  rewrite for_each_app. unfold bind. rewrite for_each_map. simpl.
  destruct (for_each (outputs g) (fun x => body i x) w) as [[[]|f] w1];
    [apply IH|reflexivity].
Qed.

Lemma bind_for_each_pairs {B} (g : MuxGraph)
    (body : MuxNodeId -> MuxNodeId -> M unit) (k : unit -> M B) w :
  bind (for_each (inputs g) (fun i => for_each (outputs g) (body i))) k w
  = bind (for_each (all_pairs g) (fun p => body (fst p) (snd p))) k w.
Proof. unfold bind. now rewrite for_each_pairs. Qed.

(** ** Edges of a graph *)

Lemma find_edges_from_nil k es i o :
  find_edges_from k es i o = [] <-> existsb (edge_connects i o) es = false.
Proof.
  revert k. induction es as [|e es IH]; intros k; simpl; [tauto|].
  destruct (edge_connects i o e); simpl; [split; discriminate|apply IH].
Qed.

Lemma find_edges_from_head k es i o e r :
  find_edges_from k es i o = e :: r ->
  exists ed, es !! (e - k) = Some ed /\
             List.find (edge_connects i o) es = Some ed /\ k <= e.
Proof.
  revert k. induction es as [|x es IH]; intros k; simpl; [discriminate|].
  destruct (edge_connects i o x).
  - intros [= <- _]. exists x. rewrite Nat.sub_diag. auto.
  - intros H. destruct (IH _ H) as (ed & Hl & Hf & Hk). exists ed.
    replace (e - k) with (S (e - S k)) by lia. simpl. repeat split; auto. lia.
Qed.

Lemma find_edges_head g i o e r :
  find_edges g i o = e :: r ->
  exists ed, edge_of g (i, o) = Some ed /\
             find_edge_mem g e = edge_mem ed /\
             is_edge_use_inv_mem g e = edge_inv ed.
Proof.
  intros H. destruct (find_edges_from_head _ _ _ _ _ _ H) as (ed & Hl & Hf & _).
  rewrite Nat.sub_0_r in Hl. exists ed.
  unfold find_edge_mem, is_edge_use_inv_mem. now rewrite Hl.
Qed.

Lemma find_edges_connected g p :
  connected g p = negb (0 =? length (find_edges g (fst p) (snd p)))%nat.
Proof.
  unfold connected, find_edges.
  destruct (find_edges_from 0 (mux_edges g) (fst p) (snd p)) eqn:E; simpl.
  - now apply find_edges_from_nil in E.
  - destruct (existsb _ _) eqn:X; [reflexivity|].
    apply find_edges_from_nil with (k := 0) in X. congruence.
Qed.

(** ** Strings *)

Lemma length_string_fill n c : String.length (string_fill n c) = n.
Proof. induction n; simpl; congruence. Qed.

Lemma get_string_fill n c j :
  j < n -> String.get j (string_fill n c) = Some c.
Proof.
  revert j. induction n as [|n IH]; intros j Hj; [lia|].
  destruct j; simpl; [reflexivity|]. apply IH. lia.
Qed.

Lemma string_set_spec s i c :
  i < String.length s ->
  exists t, string_set s i c = Some t /\
            String.length t = String.length s /\
            forall j, String.get j t
                      = if (j =? i)%nat then Some c else String.get j s.
Proof.
  revert i. induction s as [|a s IH]; intros i Hi; simpl in Hi; [lia|].
  destruct i as [|i]; simpl.
  - eexists. split; [reflexivity|]. split; [reflexivity|].
    intros [|j]; reflexivity.
  - destruct (IH i ltac:(lia)) as (t & -> & Hlen & Hget).
    eexists. split; [reflexivity|]. simpl. split; [congruence|].
    intros [|j]; simpl; [reflexivity|]. apply Hget.
Qed.

Lemma case_code_fill width d ed :
  edge_mem ed < width ->
  exists code,
    string_set (string_fill width d) (edge_mem ed)
      (if edge_inv ed then "0"%char else "1"%char) = Some code /\
    case_code_spec width d ed code.
Proof.
  intros Hm.
  destruct (string_set_spec (string_fill width d) (edge_mem ed)
              (if edge_inv ed then "0"%char else "1"%char))
    as (t & Ht & Hl & Hg).
  { now rewrite length_string_fill. }
  exists t. split; [exact Ht|]. split.
  - now rewrite Hl, length_string_fill.
  - intros j Hj. rewrite Hg. destruct (j =? edge_mem ed)%nat; [reflexivity|].
    now apply get_string_fill.
Qed.

Lemma get_width_sized name n : get_width (BasicPort_sized name n) = n.
Proof.
  destruct n; unfold get_width; simpl; [reflexivity|]. lia.
Qed.

(** ** Loops that do not stop *)

Lemma for_each_Done {A} (F : A -> World -> World) (body : A -> M unit)
    (l : list A) w :
  usable w ->
  (forall x w, In x l -> usable w ->
     body x w = (Done tt, F x w) /\ usable (F x w)) ->
  for_each l body w = (Done tt, foldl (fun w x => F x w) w l)
  /\ usable (foldl (fun w x => F x w) w l).
Proof.
  revert w. induction l as [|x l IH]; intros w Hw Hb; simpl; [auto|].
  destruct (Hb x w (or_introl eq_refl) Hw) as [E U].
  rewrite (bind_Done _ _ _ _ _ E). apply IH; [exact U|].
  intros y w' Hy. apply Hb. now right.
Qed.

Lemma foldl_emit {A} (h : A -> list chunk) (l : list A) w :
  foldl (fun w x => emit (h x) w) w l = emit (flat_map h l) w.
Proof.
  revert w. induction l as [|x l IH]; intros w; simpl.
  - now rewrite emit_nil.
  - now rewrite IH, emit_emit.
Qed.

Lemma flat_map_filter {A B} (c : A -> bool) (h : A -> list B) (l : list A) :
  flat_map (fun x => if c x then h x else []) l = flat_map h (List.filter c l).
Proof.
  induction l as [|x l IH]; simpl; [reflexivity|].
  destruct (c x); simpl; now rewrite IH.
Qed.

Lemma bind_check {B} (k : unit -> M B) w :
  usable w -> bind check_file_handler k w = k tt w.
Proof. intros Hw. apply bind_Done. now apply check_file_handler_usable. Qed.

Lemma bind_put {B} c (k : unit -> M B) w :
  usable w -> bind (put c) k w = k tt (emit [c] w).
Proof. intros Hw. apply bind_Done. now apply put_usable. Qed.

Lemma bind_puts {B} cs (k : unit -> M B) w :
  usable w -> bind (puts cs) k w = k tt (emit cs w).
Proof. intros Hw. apply bind_Done. now apply puts_usable. Qed.

Lemma bind_assert {B} c (k : unit -> M B) w :
  bind (VTR_ASSERT c true) k w = k tt w.
Proof. reflexivity. Qed.

Lemma print_verilog_comment_usable s w :
  usable w -> print_verilog_comment s w = (Done tt, emit [Comment s] w).
Proof.
  intros Hw. unfold print_verilog_comment. rewrite bind_check by exact Hw.
  now apply put_usable.
Qed.

Lemma bind_comment {B} s (k : unit -> M B) w :
  usable w -> bind (print_verilog_comment s) k w = k tt (emit [Comment s] w).
Proof.
  intros Hw. apply bind_Done. now apply print_verilog_comment_usable.
Qed.

(** ** The behavioural body *)

Lemma case_code_of_spec width d g p :
  mems_below width g = true ->
  connected g p = true ->
  exists ed, edge_of g p = Some ed /\
             string_set (string_fill width (ascii_of_nat d)) (edge_mem ed)
               (if edge_inv ed then "0"%char else "1"%char)
             = Some (case_code_of width d g p) /\
             case_code_spec width (ascii_of_nat d) ed
               (case_code_of width d g p).
Proof.
  intros Hm Hc. unfold connected in Hc. unfold case_code_of, edge_of.
  destruct (List.find _ _) as [ed|] eqn:E.
  - exists ed. split; [reflexivity|].
    apply find_some in E as [Hin _].
    unfold mems_below in Hm. rewrite forallb_forall in Hm.
    specialize (Hm _ Hin). apply Nat.ltb_lt in Hm.
    destruct (case_code_fill width (ascii_of_nat d) ed Hm) as (code & -> & Hs).
    auto.
  - apply existsb_exists in Hc as (ed & Hin & Hed).
    now rewrite (find_none _ _ E ed Hin) in Hed.
Qed.

Lemma at_most_one_edge g p :
  at_most_one_edge_per_pair g = true -> In p (all_pairs g) ->
  length (find_edges g (fst p) (snd p)) <= 1.
Proof.
  unfold at_most_one_edge_per_pair. rewrite forallb_forall.
  intros H Hp. apply Nat.leb_le. now apply H.
Qed.

Lemma behavioral_body_run input_port output_port mem_port g d w :
  usable w ->
  at_most_one_edge_per_pair g = true ->
  mems_below (get_width mem_port) g = true ->
  generate_verilog_cmos_mux_branch_body_behavioral input_port output_port
    mem_port g d w
  = (Done tt,
     emit (behavioral_header input_port mem_port
             (BasicPort_sized "out_reg" (num_outputs g))
           ++ flat_map
                (fun p =>
                   case_entry (get_width mem_port)
                     (BasicPort_sized "out_reg" (num_outputs g))
                     (get_name input_port) g
                     (p, case_code_of (get_width mem_port) d g p))
                (connected_pairs g)
           ++ behavioral_footer output_port
                (BasicPort_sized "out_reg" (num_outputs g)) (num_outputs g))
       w).
Proof.
  intros Hw H1 Hm.
  unfold generate_verilog_cmos_mux_branch_body_behavioral.
  rewrite bind_check by exact Hw. rewrite bind_comment by exact Hw.
  cbv zeta. rewrite !bind_puts by exact Hw.
  rewrite bind_for_each_pairs.
  match goal with
  | |- bind (for_each ?l ?b) _ ?w0 = _ =>
      destruct (for_each_Done
                  (fun p =>
                     emit (if connected g p
                           then case_entry (get_width mem_port)
                                  (BasicPort_sized "out_reg" (num_outputs g))
                                  (get_name input_port) g
                                  (p, case_code_of (get_width mem_port) d g p)
                           else []))
                  b l w0 Hw) as [E U]
  end.
  { intros p w1 Hp Hw1. split; [|exact Hw1]. cbv beta.
    pose proof (at_most_one_edge g p H1 Hp) as Hle.
    pose proof (find_edges_connected g p) as Hc.
    destruct (find_edges g (fst p) (snd p)) as [|e [|e' r]] eqn:Ee;
      simpl in Hle, Hc; [| |lia].
    - rewrite Hc. simpl. now rewrite emit_nil.
    - rewrite Hc. simpl length. simpl Nat.eqb. simpl orb. rewrite bind_assert.
      simpl nth.
      destruct (find_edges_head g (fst p) (snd p) e [] Ee)
        as (ed & Hed & -> & ->).
      destruct (case_code_of_spec (get_width mem_port) d g p Hm Hc)
        as (ed' & Hed' & Hset & _).
      rewrite <- surjective_pairing in Hed. rewrite Hed in Hed'.
      injection Hed' as <-.
      rewrite bind_puts by exact Hw1.
      set (w2 := emit [Str (tab ++ tab); Num (get_width mem_port); Str "'b"]
                   w1).
      assert (Hs : (if negb (edge_inv ed)
                    then string_assign
                           (string_fill (get_width mem_port) (ascii_of_nat d))
                           (edge_mem ed) "1"%char
                    else string_assign
                           (string_fill (get_width mem_port) (ascii_of_nat d))
                           (edge_mem ed) "0"%char) w2
                   = (Done (case_code_of (get_width mem_port) d g p), w2)).
      { unfold string_assign. destruct (edge_inv ed); simpl in *;
          now rewrite Hset. }
      rewrite (bind_Done _ _ _ _ _ Hs). subst w2.
      rewrite bind_puts by exact Hw1. rewrite puts_usable by exact Hw1.
      rewrite !emit_emit. reflexivity. }
  rewrite (bind_Done _ _ _ _ _ E). rewrite foldl_emit in *.
  rewrite !bind_puts by exact U. rewrite puts_usable by exact U.
  rewrite !emit_emit. rewrite flat_map_filter.
  reflexivity.
Qed.

(** ** Counting the connected pairs *)

Lemma length_find_edges_from k es i o :
  length (find_edges_from k es i o)
  = length (List.filter (edge_connects i o) es).
Proof.
  revert k. induction es as [|e es IH]; intros k; simpl; [reflexivity|].
  destruct (edge_connects i o e); simpl; now rewrite IH.
Qed.

Lemma length_filter_le_1 {A} (f : A -> bool) (l : list A) :
  length (List.filter f l) <= 1 ->
  length (List.filter f l) = if existsb f l then 1 else 0.
Proof.
  induction l as [|x l IH]; simpl; [reflexivity|].
  destruct (f x); simpl; [|exact IH].
  intros H. destruct (List.filter f l) eqn:E; simpl in *; [reflexivity|lia].
Qed.

Lemma length_filter_eqb_NoDup (x : nat) (l : list nat) :
  NoDup l ->
  length (List.filter (Nat.eqb x) l) = if existsb (Nat.eqb x) l then 1 else 0.
Proof.
  induction 1 as [|y l Hy Hl IH]; simpl; [reflexivity|].
  destruct (Nat.eqb_spec x y) as [->|Hne]; simpl; [|exact IH].
  rewrite IH. destruct (existsb (Nat.eqb y) l) eqn:E; [|reflexivity].
  apply existsb_exists in E as (z & Hz & Hyz).
  apply Nat.eqb_eq in Hyz. subst z. exfalso. apply Hy.
  now apply list_elem_of_In.
Qed.

Lemma edge_hits_pairs (e : MuxEdge) (ins outs : list nat) :
  NoDup ins -> NoDup outs ->
  existsb (Nat.eqb (edge_src e)) ins = true ->
  existsb (Nat.eqb (edge_sink e)) outs = true ->
  length (List.filter (fun p => edge_connects (fst p) (snd p) e)
            (flat_map (fun i => List.map (fun o => (i, o)) outs) ins)) = 1.
Proof.
  intros Hi Ho Hs Hk.
  assert (Hrow : forall i,
             length (List.filter (fun p => edge_connects (fst p) (snd p) e)
                       (List.map (fun o => (i, o)) outs))
             = if (edge_src e =? i)%nat then 1 else 0).
  { intros i. pose proof (length_filter_eqb_NoDup (edge_sink e) outs Ho) as Hc.
    rewrite Hk in Hc. rewrite <- Hc. clear.
    induction outs as [|o outs IH]; simpl.
    - now destruct (edge_src e =? i)%nat.
    - unfold edge_connects at 1. simpl.
      destruct (edge_src e =? i)%nat eqn:Ei; simpl.
      + destruct (edge_sink e =? o)%nat; simpl; rewrite IH; reflexivity.
      + exact IH. }
  pose proof (length_filter_eqb_NoDup (edge_src e) ins Hi) as Hc.
  rewrite Hs in Hc. rewrite <- Hc. clear Hc Hs Hi.
  induction ins as [|i ins IH]; [reflexivity|].
  cbn [flat_map List.filter].
  rewrite List.filter_app, length_app, Hrow, IH.
  destruct (edge_src e =? i)%nat; reflexivity.
Qed.

Lemma length_flat_map_filter_cons {A B} (c : A -> B -> bool) (e : B)
    (es : list B) (ps : list A) :
  length (flat_map (fun p => List.filter (c p) (e :: es)) ps)
  = length (List.filter (fun p => c p e) ps)
    + length (flat_map (fun p => List.filter (c p) es) ps).
Proof.
  induction ps as [|p ps IH]; [reflexivity|].
  cbn [flat_map]. rewrite !length_app, IH. cbn [List.filter].
  destruct (c p e); simpl; lia.
Qed.

Lemma length_connected_pairs g :
  at_most_one_edge_per_pair g = true ->
  edges_on_nodes g = true ->
  length (connected_pairs g) = length (mux_edges g).
Proof.
  intros H1 Hn. unfold edges_on_nodes in Hn.
  apply andb_prop in Hn as [Hn Ho]. apply andb_prop in Hn as [He Hi].
  apply bool_decide_eq_true in Hi, Ho.
  transitivity
    (length (flat_map
               (fun p => List.filter (edge_connects (fst p) (snd p))
                           (mux_edges g)) (all_pairs g))).
  - unfold connected_pairs.
    assert (Hall : forall p, In p (all_pairs g) ->
              length (List.filter (edge_connects (fst p) (snd p)) (mux_edges g))
              <= 1).
    { intros p Hp. rewrite <- (length_find_edges_from 0).
      now apply at_most_one_edge. }
    induction (all_pairs g) as [|p ps IH]; simpl; [reflexivity|].
    rewrite length_app, <- IH by (intros q Hq; apply Hall; now right).
    rewrite (length_filter_le_1 _ _ (Hall p (or_introl eq_refl))).
    unfold connected. destruct (existsb _ _); reflexivity.
  - rewrite forallb_forall in He. revert He.
    induction (mux_edges g) as [|e es IH]; intros He.
    + simpl. induction (all_pairs g); simpl; auto.
    + rewrite length_flat_map_filter_cons. simpl length.
      rewrite IH by (intros x Hx; apply He; now right).
      specialize (He e (or_introl eq_refl)). apply andb_prop in He as [Hs Hk].
      unfold all_pairs. now rewrite edge_hits_pairs.
Qed.

Lemma behavioral_body_spec input_port output_port mem_port g d w :
  usable w ->
  at_most_one_edge_per_pair g = true ->
  mems_below (get_width mem_port) g = true ->
  exists codes,
    generate_verilog_cmos_mux_branch_body_behavioral input_port output_port
      mem_port g d w
    = (Done tt,
       emit (behavioral_header input_port mem_port
               (BasicPort_sized "out_reg" (num_outputs g))
             ++ flat_map
                  (case_entry (get_width mem_port)
                     (BasicPort_sized "out_reg" (num_outputs g))
                     (get_name input_port) g)
                  (combine (connected_pairs g) codes)
             ++ behavioral_footer output_port
                  (BasicPort_sized "out_reg" (num_outputs g)) (num_outputs g))
         w)
    /\ Forall2
         (fun p code =>
            exists ed, edge_of g p = Some ed /\
                       case_code_spec (get_width mem_port) (ascii_of_nat d)
                         ed code)
         (connected_pairs g) codes.
Proof.
  intros Hw H1 Hm.
  exists (List.map (case_code_of (get_width mem_port) d g) (connected_pairs g)).
  split.
  - rewrite behavioral_body_run by assumption. do 3 f_equal.
    induction (connected_pairs g) as [|p ps IH]; simpl; [reflexivity|].
    now rewrite IH.
  - unfold connected_pairs.
    assert (Hc : forall p, In p (List.filter (connected g) (all_pairs g)) ->
                           connected g p = true).
    { intros p Hp. now apply filter_In in Hp. }
    induction (List.filter (connected g) (all_pairs g)) as [|p ps IH];
      simpl; constructor.
    + destruct (case_code_of_spec (get_width mem_port) d g p Hm
                  (Hc p (or_introl eq_refl))) as (ed & Hed & _ & Hs).
      now exists ed.
    + apply IH. intros q Hq. apply Hc. now right.
Qed.

(** C4.  In behavioural mode the body of a branch whose graph has at most
    one edge for each pair, edges between its inputs and its outputs and
    memory bits below the width [W] of the memory port is written in full
    and is: the header with the output register, then one case entry for
    each connected (input, output) pair and no other, as many as the graph
    has edges, then the default case that assigns ['z'] to every bit of the
    register, then the assignment of the register to the output port.  The
    literal of an entry has [W] characters, all equal to the shared default
    but the one at the memory bit of the edge, which is ['1'], or ['0']
    when the edge uses the inverted bit; the entry assigns the input slice
    of the edge to the register. *)
Theorem C4_behavioral_case_table input_port output_port mem_port g d w :
  usable w ->
  at_most_one_edge_per_pair g = true ->
  edges_on_nodes g = true ->
  mems_below (get_width mem_port) g = true ->
  exists codes,
    generate_verilog_cmos_mux_branch_body_behavioral input_port output_port
      mem_port g d w
    = (Done tt,
       emit (behavioral_header input_port mem_port
               (BasicPort_sized "out_reg" (num_outputs g))
             ++ flat_map
                  (case_entry (get_width mem_port)
                     (BasicPort_sized "out_reg" (num_outputs g))
                     (get_name input_port) g)
                  (combine (connected_pairs g) codes)
             ++ behavioral_footer output_port
                  (BasicPort_sized "out_reg" (num_outputs g)) (num_outputs g))
         w)
    /\ length codes = length (mux_edges g)
    /\ Forall2
         (fun p code =>
            exists ed, edge_of g p = Some ed /\
                       case_code_spec (get_width mem_port) (ascii_of_nat d)
                         ed code)
         (connected_pairs g) codes.
Proof.
  intros Hw H1 Hn Hm.
  destruct (behavioral_body_spec input_port output_port mem_port g d w
              Hw H1 Hm) as (codes & Hrun & Hcodes).
  exists codes. split; [exact Hrun|]. split; [|exact Hcodes].
  rewrite <- (Forall2_length _ _ _ Hcodes).
  now apply length_connected_pairs.
Qed.

(** ** The structural body *)

Lemma print_verilog_module_instance_usable parent child m x w :
  usable w ->
  print_verilog_module_instance parent child m x w
  = (Done tt, emit [ModuleInstance parent child m x] w).
Proof.
  intros Hw. unfold print_verilog_module_instance.
  rewrite bind_check by exact Hw. now apply put_usable.
Qed.

Lemma set_module_manager_same w : set_module_manager (w_module_manager w) w = w.
Proof. now destruct w. Qed.

Lemma module_add_child_idem c m :
  module_add_child c (module_add_child c m) = module_add_child c m.
Proof.
  unfold module_add_child. simpl. f_equal.
  now rewrite (assoc_L (∪)), (idemp_L (∪)).
Qed.

Lemma add_child_module_idem mm parent child :
  add_child_module (add_child_module mm parent child) parent child
  = add_child_module mm parent child.
Proof.
  destruct parent as [p|], child as [c|]; simpl; try reflexivity.
  rewrite list_alter_alter_eq. apply list_alter_ext; [|reflexivity].
  intros m _. apply module_add_child_idem.
Qed.

Lemma children_of_add_child_module mm i c :
  i < length mm ->
  children_of (add_child_module mm (Some i) (Some c)) (Some i)
  = {[c]} ∪ children_of mm (Some i).
Proof.
  intros Hi. simpl. rewrite list_lookup_alter_eq.
  destruct (lookup_lt_is_Some_2 mm i Hi) as [m ->]. reflexivity.
Qed.

Lemma tgate_port_map_wired t in_name out_name mem_name mem_inv_name g p e r :
  tgate_port_names_distinct t = true ->
  find_edges g (fst p) (snd p) = e :: r ->
  exists ed, edge_of g p = Some ed /\
    wired t in_name out_name mem_name mem_inv_name g p ed
      (tgate_port_map t in_name out_name mem_name mem_inv_name g p).
Proof.
  intros Hd He.
  destruct (find_edges_head g (fst p) (snd p) e r He) as (ed & Hed & Hm & Hi).
  rewrite <- surjective_pairing in Hed. exists ed. split; [exact Hed|].
  unfold tgate_port_names_distinct in Hd. apply bool_decide_eq_true in Hd.
  apply NoDup_cons in Hd as [N1 Hd]. apply NoDup_cons in Hd as [N2 Hd].
  apply NoDup_cons in Hd as [N3 _].
  repeat match goal with
         | H : _ ∉ _ :: _ |- _ => apply not_elem_of_cons in H as [? ?]
         end.
  unfold wired, tgate_port_map. rewrite He. simpl nth. rewrite Hm, Hi.
  destruct (edge_inv ed); simpl; repeat split; simplify_map_eq; reflexivity.
Qed.

Lemma foldl_structural (c : MuxNodeId * MuxNodeId -> bool)
    (inst : MuxNodeId * MuxNodeId -> chunk) parent child ps w :
  foldl (fun w p =>
           if c p
           then set_module_manager
                  (add_child_module (w_module_manager w) parent child)
                  (emit [inst p] w)
           else w) w ps
  = set_module_manager
      (match List.filter c ps with
       | [] => w_module_manager w
       | _ :: _ => add_child_module (w_module_manager w) parent child
       end)
      (emit (List.map inst (List.filter c ps)) w).
Proof.
  revert w. induction ps as [|p ps IH]; intros w; simpl.
  - now rewrite emit_nil, set_module_manager_same.
  - rewrite IH. destruct (c p); simpl; [|reflexivity].
    destruct (List.filter c ps); simpl.
    + unfold emit, set_fp, set_module_manager. simpl.
      now rewrite app_nil_r.
    + rewrite add_child_module_idem.
      unfold emit, set_fp, set_module_manager. simpl.
      now rewrite <- app_assoc.
Qed.

Lemma structural_body_run circuit_lib tgate_model module_id input_port
    output_port mem_port mem_inv_port g w tid :
  usable w ->
  find_module (w_module_manager w) (model_name circuit_lib tgate_model)
    = Some tid ->
  length (model_ports_by_type circuit_lib tgate_model SPICE_MODEL_PORT_INPUT
            true) = 3 ->
  length (model_ports_by_type circuit_lib tgate_model SPICE_MODEL_PORT_OUTPUT
            true) = 1 ->
  at_most_one_edge_per_pair g = true ->
  generate_verilog_cmos_mux_branch_body_structural circuit_lib tgate_model
    module_id input_port output_port mem_port mem_inv_port g w
  = (Done tt,
     set_module_manager
       (match connected_pairs g with
        | [] => w_module_manager w
        | _ :: _ =>
            add_child_module (w_module_manager w) module_id (Some tid)
        end)
       (emit
          (Comment "---- Structure-level description -----"
           :: List.map
                (fun p =>
                   ModuleInstance module_id (Some tid)
                     (tgate_port_map (tgate_ports_of circuit_lib tgate_model)
                        (get_name input_port) (get_name output_port)
                        (get_name mem_port) (get_name mem_inv_port) g p)
                     (dump_explicit_port_map circuit_lib tgate_model))
                (connected_pairs g))
          w)).
Proof.
  intros Hw Hf H3 H1 Hone.
  unfold generate_verilog_cmos_mux_branch_body_structural.
  rewrite bind_check by exact Hw.
  unfold mm_find_module at 1. unfold bind at 1. rewrite Hf.
  rewrite H3, H1. simpl Nat.eqb. rewrite bool_decide_eq_true_2 by discriminate.
  rewrite !bind_assert. rewrite bind_comment by exact Hw.
  cbv zeta. rewrite for_each_pairs.
  match goal with
  | |- for_each ?l ?b ?w0 = _ =>
      destruct (for_each_Done
                  (fun p w1 =>
                     if connected g p
                     then set_module_manager
                            (add_child_module (w_module_manager w1) module_id
                               (Some tid))
                            (emit
                               [ModuleInstance module_id (Some tid)
                                  (tgate_port_map
                                     (tgate_ports_of circuit_lib tgate_model)
                                     (get_name input_port)
                                     (get_name output_port)
                                     (get_name mem_port)
                                     (get_name mem_inv_port) g p)
                                  (dump_explicit_port_map circuit_lib
                                     tgate_model)] w1)
                     else w1)
                  b l w0 Hw) as [E U]
  end.
  { intros p w1 Hp Hw1. cbv beta.
    pose proof (at_most_one_edge g p Hone Hp) as Hle.
    pose proof (find_edges_connected g p) as Hc.
    destruct (find_edges g (fst p) (snd p)) as [|e [|e' r]] eqn:Ee;
      simpl in Hle, Hc; [| |lia]; rewrite Hc.
    - split; [reflexivity|exact Hw1].
    - split; [|exact Hw1].
      simpl length. simpl Nat.eqb. simpl orb. rewrite bind_assert.
      rewrite (bind_Done _ _ _ _ _
                 (print_verilog_module_instance_usable _ _ _ _ _ Hw1)).
      unfold mm_add_child_module, tgate_port_map, tgate_ports_of, slice.
      rewrite Ee. reflexivity. }
  rewrite E. rewrite foldl_structural. unfold connected_pairs.
  destruct (List.filter (connected g) (all_pairs g));
    unfold emit, set_fp, set_module_manager; simpl; rewrite <- ?app_assoc;
    reflexivity.
Qed.

(** C3.  In structural mode, for a graph with at most one edge for each
    pair and a pass gate that is registered, has three input ports and one
    output port with four distinct names, the body writes exactly one
    pass-gate instance for each connected (input, output) pair, in loop
    order, and none for the other pairs.  The instance of a pair wires the
    input slice at the input id to the data input of the gate, the output
    slice to its data output, and the [mem] and [mem_inv] slices at the
    memory bit of the edge to its two control inputs, in that order when
    the edge does not use the inverted bit and swapped when it does.  The
    pass gate is recorded as a child of the branch module as soon as one
    instance is written. *)
Theorem C3_structural_instances circuit_lib tgate_model module_id input_port
    output_port mem_port mem_inv_port g w tid :
  usable w ->
  find_module (w_module_manager w) (model_name circuit_lib tgate_model)
    = Some tid ->
  length (model_ports_by_type circuit_lib tgate_model SPICE_MODEL_PORT_INPUT
            true) = 3 ->
  length (model_ports_by_type circuit_lib tgate_model SPICE_MODEL_PORT_OUTPUT
            true) = 1 ->
  tgate_port_names_distinct (tgate_ports_of circuit_lib tgate_model) = true ->
  at_most_one_edge_per_pair g = true ->
  exists maps w',
    generate_verilog_cmos_mux_branch_body_structural circuit_lib tgate_model
      module_id input_port output_port mem_port mem_inv_port g w
    = (Done tt, w')
    /\ out w'
       = out w
         ++ Comment "---- Structure-level description -----"
            :: List.map
                 (fun m =>
                    ModuleInstance module_id (Some tid) m
                      (dump_explicit_port_map circuit_lib tgate_model))
                 maps
    /\ Forall2
         (fun p m =>
            exists ed, edge_of g p = Some ed /\
              wired (tgate_ports_of circuit_lib tgate_model)
                (get_name input_port) (get_name output_port)
                (get_name mem_port) (get_name mem_inv_port) g p ed m)
         (connected_pairs g) maps
    /\ w_module_manager w'
       = match connected_pairs g with
         | [] => w_module_manager w
         | _ :: _ =>
             add_child_module (w_module_manager w) module_id (Some tid)
         end
    /\ (forall i, module_id = Some i -> i < length (w_module_manager w) ->
        connected_pairs g <> [] ->
        children_of (w_module_manager w') module_id
        = {[tid]} ∪ children_of (w_module_manager w) module_id).
Proof.
  intros Hw Hf H3 H1 Hd Hone.
  exists (List.map
            (tgate_port_map (tgate_ports_of circuit_lib tgate_model)
               (get_name input_port) (get_name output_port)
               (get_name mem_port) (get_name mem_inv_port) g)
            (connected_pairs g)).
  eexists. split; [now apply structural_body_run with (tid := tid)|].
  split; [|split; [|split]].
  - unfold out. simpl. now rewrite List.map_map.
  - unfold connected_pairs.
    assert (Hc : forall p, In p (List.filter (connected g) (all_pairs g)) ->
                           connected g p = true).
    { intros p Hp. now apply filter_In in Hp. }
    induction (List.filter (connected g) (all_pairs g)) as [|p ps IH];
      simpl; constructor.
    + pose proof (Hc p (or_introl eq_refl)) as Hp.
      rewrite find_edges_connected in Hp.
      destruct (find_edges g (fst p) (snd p)) as [|e r] eqn:Ee;
        [discriminate|].
      now apply tgate_port_map_wired with (e := e) (r := r).
    + apply IH. intros q Hq. apply Hc. now right.
  - reflexivity.
  - intros i -> Hi Hne. simpl w_module_manager.
    destruct (connected_pairs g); [congruence|].
    now apply children_of_add_child_module.
Qed.

Lemma C3_structural_instances_witness :
  exists maps w',
    generate_verilog_cmos_mux_branch_body_structural (cmos_lib true) 1
      (Some 0) (BasicPort_sized "in" 4) (BasicPort_sized "out" 1)
      (BasicPort_sized "mem" 4) (BasicPort_sized "mem_inv" 4) sample_graph
      open_world
    = (Done tt, w')
    /\ out w'
       = out open_world
         ++ Comment "---- Structure-level description -----"
            :: List.map (fun m => ModuleInstance (Some 0) (Some 0) m true) maps
    /\ length maps = 4.
Proof.
  destruct (C3_structural_instances (cmos_lib true) 1 (Some 0)
              (BasicPort_sized "in" 4) (BasicPort_sized "out" 1)
              (BasicPort_sized "mem" 4) (BasicPort_sized "mem_inv" 4)
              sample_graph open_world 0)
    as (maps & w' & Hrun & Hout & Hw & _);
    [reflexivity|reflexivity|reflexivity|reflexivity|reflexivity|reflexivity|].
  exists maps, w'. split; [exact Hrun|]. split; [exact Hout|].
  apply Forall2_length in Hw. rewrite <- Hw. reflexivity.
Defined.

(** The spec's example, run: the instance for [in1], whose edge uses the
    inverted bit, has [mem_inv[1]] on the first control input of the gate
    and [mem[1]] on the second. *)
Example sample_inverted_wiring :
  let m :=
    tgate_port_map (tgate_ports_of (cmos_lib true) 1) "in" "out" "mem"
      "mem_inv" sample_graph (1, 4) in
  m !! "in"%string = Some (mkBasicPort "in" 1 1)
  /\ m !! "out"%string = Some (mkBasicPort "out" 0 0)
  /\ m !! "sel"%string = Some (mkBasicPort "mem_inv" 1 1)
  /\ m !! "selb"%string = Some (mkBasicPort "mem" 1 1).
Proof. vm_compute. repeat split. Qed.

Lemma C4_behavioral_case_table_witness :
  exists codes,
    generate_verilog_cmos_mux_branch_body_behavioral (BasicPort_sized "in" 4)
      (BasicPort_sized "out" 1) (BasicPort_sized "mem" 4) sample_graph
      (nat_of_ascii "0") open_world
    = (Done tt,
       emit (behavioral_header (BasicPort_sized "in" 4)
               (BasicPort_sized "mem" 4) (BasicPort_sized "out_reg" 1)
             ++ flat_map
                  (case_entry 4 (BasicPort_sized "out_reg" 1) "in"
                     sample_graph)
                  (combine [(0, 4); (1, 4); (2, 4); (3, 4)] codes)
             ++ behavioral_footer (BasicPort_sized "out" 1)
                  (BasicPort_sized "out_reg" 1) 1)
         open_world)
    /\ length codes = 4.
Proof.
  destruct (C4_behavioral_case_table (BasicPort_sized "in" 4)
              (BasicPort_sized "out" 1) (BasicPort_sized "mem" 4) sample_graph
              (nat_of_ascii "0") open_world)
    as (codes & Hrun & Hlen & _);
    [reflexivity|reflexivity|reflexivity|reflexivity|].
  exists codes. split; [exact Hrun|exact Hlen].
Defined.

(** The spec's example, run: the four literals of the case table of the
    4:1 branch under the default ['0']. *)
Example sample_case_codes :
  List.map (case_code_of 4 (nat_of_ascii "0") sample_graph)
    (connected_pairs sample_graph)
  = ["1000"; "0000"; "0010"; "0001"]%string.
Proof. vm_compute. reflexivity. Qed.

(** ** Properties kept by every run *)

Lemma preserves_bind {A B} P (m : M A) (k : A -> M B) :
  preserves P m -> (forall a, preserves P (k a)) -> preserves P (bind m k).
Proof.
  intros Hm Hk w Hw. unfold bind. specialize (Hm w Hw).
  destruct (m w) as [[a|f] w1]; simpl in *; [now apply Hk|exact Hm].
Qed.

Lemma preserves_for_each {A} P (l : list A) (body : A -> M unit) :
  (forall x, preserves P (body x)) -> preserves P (for_each l body).
Proof.
  intros Hb. induction l as [|x l IH]; simpl.
  - intros w Hw. exact Hw.
  - apply preserves_bind; [apply Hb|intros _; exact IH].
Qed.

Lemma preserves_same {A} P (m : M A) :
  (forall w, snd (m w) = w) -> preserves P m.
Proof. intros H w Hw. now rewrite H. Qed.

Lemma same_ret {A} (a : A) w : snd (ret a w) = w.
Proof. reflexivity. Qed.

Lemma same_VTR_ASSERT c b w : snd (VTR_ASSERT c b w) = w.
Proof. now destruct b. Qed.

Lemma same_check_file_handler w : snd (check_file_handler w) = w.
Proof. unfold check_file_handler. now destruct (fp_usable (w_fp w)). Qed.

Lemma same_string_assign s i c w : snd (string_assign s i c w) = w.
Proof. unfold string_assign. now destruct (string_set s i c). Qed.

Lemma same_mm_find_module n w : snd (mm_find_module n w) = w.
Proof. reflexivity. Qed.

Lemma same_exit1 {A} s w : snd (@exit1 A s w) = w.
Proof. reflexivity. Qed.

Lemma preserves_puts P cs :
  forallb not_declaration cs = true ->
  (forall c, not_declaration c = true -> preserves P (put c)) ->
  preserves P (puts cs).
Proof.
  intros Hcs Hp. induction cs as [|c cs IH]; simpl.
  - now apply preserves_same.
  - simpl in Hcs. apply andb_prop in Hcs as [Hc Hcs].
    apply preserves_bind; [now apply Hp|intros _; now apply IH].
Qed.

(** Steps through an action built from the primitives; [prim] closes the
    goals for [put] and for the operations on the module manager. *)
Ltac preserves_with prim :=
  repeat first
    [ apply preserves_bind; [|intros ?]
    | apply preserves_for_each; intros ?
    | apply preserves_puts; [reflexivity|]
    | apply preserves_same; intros ?;
      first [ apply same_ret | apply same_VTR_ASSERT
            | apply same_check_file_handler | apply same_string_assign
            | apply same_mm_find_module | apply same_exit1 ]
    | match goal with
      | |- preserves _ (if ?b then _ else _) => destruct b
      | |- preserves _ (match ?x with _ => _ end) => destruct x
      end
    | prim ].

Lemma preserves_behavioral_body P input_port output_port mem_port g d :
  (forall c, not_declaration c = true -> preserves P (put c)) ->
  preserves P
    (generate_verilog_cmos_mux_branch_body_behavioral input_port output_port
       mem_port g d).
Proof.
  intros Hp.
  unfold generate_verilog_cmos_mux_branch_body_behavioral,
    print_verilog_comment.
  cbv zeta. preserves_with ltac:(first [exact Hp | now apply Hp]).
Qed.

Lemma preserves_structural_body P circuit_lib tgate_model module_id input_port
    output_port mem_port mem_inv_port g :
  (forall c, not_declaration c = true -> preserves P (put c)) ->
  (forall parent child, preserves P (mm_add_child_module parent child)) ->
  preserves P
    (generate_verilog_cmos_mux_branch_body_structural circuit_lib tgate_model
       module_id input_port output_port mem_port mem_inv_port g).
Proof.
  intros Hp Hc.
  unfold generate_verilog_cmos_mux_branch_body_structural,
    print_verilog_comment, print_verilog_module_instance.
  cbv zeta. preserves_with ltac:(first [exact Hp | now apply Hp | apply Hc]).
Qed.

(** ** The module manager *)

Lemma find_module_from_Some k mm n i :
  find_module_from k mm n = Some i ->
  k <= i /\ exists m, mm !! (i - k) = Some m /\ module_name m = n.
Proof.
  revert k. induction mm as [|m mm IH]; intros k; simpl; [discriminate|].
  destruct (String.eqb_spec (module_name m) n) as [Hn|Hn].
  - intros [= <-]. split; [lia|]. exists m. now rewrite Nat.sub_diag.
  - intros H. destruct (IH _ H) as (Hk & m' & Hl & Hm). split; [lia|].
    exists m'. replace (i - k) with (S (i - S k)) by lia. auto.
Qed.

Lemma find_module_Some mm n i :
  find_module mm n = Some i ->
  exists m, mm !! i = Some m /\ module_name m = n.
Proof.
  intros H. apply find_module_from_Some in H as (_ & m & Hl & Hm).
  rewrite Nat.sub_0_r in Hl. eauto.
Qed.

Lemma find_module_from_new k mm n ps ch :
  find_module_from k mm n = None ->
  find_module_from k (mm ++ [mkModule n ps ch]) n = Some (k + length mm).
Proof.
  revert k. induction mm as [|m mm IH]; intros k; simpl.
  - intros _. rewrite String.eqb_refl. f_equal. lia.
  - destruct (String.eqb (module_name m) n); [discriminate|].
    intros H. rewrite IH by exact H. f_equal. lia.
Qed.

Lemma find_module_from_names k mm mm' n :
  List.map module_name mm = List.map module_name mm' ->
  find_module_from k mm n = find_module_from k mm' n.
Proof.
  revert k mm'. induction mm as [|m mm IH]; intros k [|m' mm'] H;
    simpl in *; try discriminate; [reflexivity|].
  injection H as -> H. destruct (String.eqb _ _); [reflexivity|]. now apply IH.
Qed.

Lemma find_module_interfaces mm mm' n :
  interfaces mm = interfaces mm' -> find_module mm n = find_module mm' n.
Proof.
  intros H. apply find_module_from_names.
  apply (f_equal (List.map fst)) in H. unfold interfaces in H.
  now rewrite !List.map_map in H.
Qed.

Lemma ports_of_interfaces mm mm' id :
  interfaces mm = interfaces mm' -> ports_of mm id = ports_of mm' id.
Proof.
  intros H. destruct id as [i|]; [|reflexivity]. simpl.
  assert (E : interfaces mm !! i = interfaces mm' !! i) by now rewrite H.
  unfold interfaces in E. change (@List.map) with (@fmap list _) in E.
  rewrite !list_lookup_fmap in E.
  destruct (mm !! i), (mm' !! i); simpl in E; congruence.
Qed.

Lemma interfaces_alter_children f i mm :
  (forall m, module_name (f m) = module_name m
             /\ module_ports (f m) = module_ports m) ->
  interfaces (alter f i mm) = interfaces mm.
Proof.
  intros Hf. unfold interfaces. revert i.
  induction mm as [|m mm IH]; intros [|i]; simpl; try reflexivity.
  - destruct (Hf m) as [-> ->]. reflexivity.
  - f_equal. apply IH.
Qed.

Lemma interfaces_add_child_module mm parent child :
  interfaces (add_child_module mm parent child) = interfaces mm.
Proof.
  destruct parent as [p|], child as [c|]; try reflexivity. simpl.
  apply interfaces_alter_children. intros m. split; reflexivity.
Qed.

Lemma add_module_id mm n :
  add_module mm n = (Some (branch_module_id mm n), snd (add_module mm n)).
Proof.
  unfold add_module, branch_module_id. now destruct (find_module mm n).
Qed.

(** The module that [add_module] returns: it has the name asked for, and
    the ports that a module of that name had before. *)
Lemma add_module_lookup mm n :
  exists m,
    snd (add_module mm n) !! branch_module_id mm n = Some m
    /\ module_name m = n
    /\ module_ports m = ports_of mm (find_module mm n)
    /\ find_module (snd (add_module mm n)) n = Some (branch_module_id mm n).
Proof.
  unfold add_module, branch_module_id.
  destruct (find_module mm n) as [i|] eqn:E; simpl.
  - destruct (find_module_Some _ _ _ E) as (m & Hl & Hn).
    exists m. rewrite Hl. auto.
  - exists (mkModule n [] ∅). rewrite lookup_app_r by lia.
    rewrite Nat.sub_diag. simpl. repeat split; try reflexivity.
    unfold find_module in *. now rewrite find_module_from_new.
Qed.

Lemma module_add_ports_nil m : module_add_ports [] m = m.
Proof. destruct m. unfold module_add_ports. simpl. now rewrite app_nil_r. Qed.

Lemma module_add_ports_port ps p t m :
  module_add_port p t (module_add_ports ps m)
  = module_add_ports (ps ++ [(p, t)]) m.
Proof.
  unfold module_add_port, module_add_ports. simpl. now rewrite app_assoc.
Qed.

Lemma add_port_after_ports mm i ps p t :
  add_port (alter (module_add_ports ps) i mm) (Some i) p t
  = alter (module_add_ports (ps ++ [(p, t)])) i mm.
Proof.
  simpl. rewrite list_alter_alter_eq. apply list_alter_ext; [|reflexivity].
  intros m _. apply module_add_ports_port.
Qed.

Lemma for_each_add_port (f : CircuitPortId -> BasicPort) t i l w :
  for_each l (fun port => mm_add_port (Some i) (f port) t) w
  = (Done tt,
     set_module_manager
       (alter (module_add_ports (List.map (fun port => (f port, t)) l)) i
          (w_module_manager w)) w).
Proof.
  revert w. induction l as [|x l IH]; intros w; simpl.
  - rewrite list_alter_id by apply module_add_ports_nil.
    now rewrite set_module_manager_same.
  - unfold bind, mm_add_port at 1. rewrite IH. simpl. f_equal.
    unfold set_module_manager. simpl. f_equal.
    rewrite list_alter_alter_eq. apply list_alter_ext; [|reflexivity].
    intros m _. unfold module_add_ports, module_add_port. simpl.
    now rewrite <- app_assoc.
Qed.

(** ** The CMOS branch module *)

Lemma registered_lookup circuit_lib circuit_model name g mm :
  exists m,
    register_branch_module circuit_lib circuit_model name g mm
      !! branch_module_id mm name = Some m
    /\ module_name m = name
    /\ module_ports m
       = ports_of mm (find_module mm name)
         ++ branch_module_ports circuit_lib circuit_model g.
Proof.
  destruct (add_module_lookup mm name) as (m & Hl & Hn & Hp & _).
  exists (module_add_ports (branch_module_ports circuit_lib circuit_model g) m).
  unfold register_branch_module. rewrite list_lookup_alter_eq, Hl. simpl.
  rewrite Hp. auto.
Qed.

Lemma interfaces_registered_find circuit_lib circuit_model name g mm :
  find_module (register_branch_module circuit_lib circuit_model name g mm) name
  = Some (branch_module_id mm name).
Proof.
  destruct (add_module_lookup mm name) as (m & _ & _ & _ & Hf).
  rewrite <- Hf. apply find_module_from_names. unfold register_branch_module.
  generalize (snd (add_module mm name)) (branch_module_id mm name).
  intros l. induction l as [|x l IH]; intros [|i]; simpl; try reflexivity.
  f_equal. apply IH.
Qed.

Lemma bind_add_port {B} id p t (k : unit -> M B) w :
  bind (mm_add_port id p t) k w
  = k tt (set_module_manager (add_port (w_module_manager w) id p t) w).
Proof. reflexivity. Qed.

Lemma bind_module_declaration {B} id (k : unit -> M B) w :
  usable w ->
  bind (print_verilog_module_declaration id) k w
  = k tt (emit [ModuleDeclaration (name_of (w_module_manager w) id)
                  (ports_of (w_module_manager w) id)] w).
Proof.
  intros Hw. apply bind_Done. unfold print_verilog_module_declaration.
  rewrite bind_check by exact Hw. now apply put_usable.
Qed.

Lemma cmos_module_run circuit_lib circuit_model name g b w :
  is_SPICE_MODEL_GATE
    (model_type circuit_lib (pass_gate_logic_model circuit_lib circuit_model))
  = false ->
  usable w ->
  num_outputs g = 1 ->
  num_levels g = 1 ->
  generate_verilog_cmos_mux_branch_module circuit_lib circuit_model name g b w
  = bind
      (cmos_branch_body circuit_lib circuit_model
         (Some (branch_module_id (w_module_manager w) name)) g b)
      (fun _ => print_verilog_module_end name)
      (declared circuit_lib circuit_model name g w).
Proof.
  intros Hg Hw Ho Hl.
  unfold generate_verilog_cmos_mux_branch_module. rewrite Hg.
  cbv beta iota zeta.
  rewrite bind_check by exact Hw.
  replace (1 =? num_outputs g)%nat with true by now rewrite Ho.
  replace (1 =? num_levels g)%nat with true by now rewrite Hl.
  rewrite !bind_assert.
  assert (Hadd : mm_add_module name w
                 = (Done (Some (branch_module_id (w_module_manager w) name)),
                    set_module_manager
                      (snd (add_module (w_module_manager w) name)) w)).
  { unfold mm_add_module. now rewrite add_module_id. }
  rewrite (bind_Done _ _ _ _ _ Hadd).
  rewrite bool_decide_eq_true_2 by discriminate. rewrite bind_assert.
  rewrite (bind_Done _ _ _ _ _ (for_each_add_port _ _ _ _ _)).
  rewrite !bind_add_port. cbn [w_module_manager set_module_manager].
  rewrite !add_port_after_ports.
  rewrite bind_module_declaration by exact Hw.
  destruct (registered_lookup circuit_lib circuit_model name g
              (w_module_manager w)) as (m & Hm & Hn & Hp).
  unfold register_branch_module, branch_module_ports in Hm.
  cbn [name_of ports_of w_module_manager set_module_manager].
  rewrite <- !app_assoc. cbn [app]. rewrite Hm, Hn, Hp.
  unfold declared, register_branch_module, branch_module_ports.
  unfold cmos_branch_body, non_mode_select_sram_ports.
  destruct b; reflexivity.
Qed.

Lemma preserves_cmos_branch_body P circuit_lib circuit_model module_id g b
    name :
  (forall c, not_declaration c = true -> preserves P (put c)) ->
  (forall parent child, preserves P (mm_add_child_module parent child)) ->
  preserves P
    (bind (cmos_branch_body circuit_lib circuit_model module_id g b)
       (fun _ => print_verilog_module_end name)).
Proof.
  intros Hp Hc. apply preserves_bind.
  - unfold cmos_branch_body. destruct b.
    + now apply preserves_structural_body.
    + apply preserves_bind; [now apply preserves_same, same_VTR_ASSERT|].
      intros _.
      apply preserves_bind; [now apply preserves_same, same_VTR_ASSERT|].
      intros _. now apply preserves_behavioral_body.
  - intros _. unfold print_verilog_module_end.
    apply preserves_bind; [now apply preserves_same, same_check_file_handler|].
    intros _. now apply Hp.
Qed.

Lemma declared_interface_put I prefix c :
  not_declaration c = true ->
  preserves (declared_interface I prefix) (put c).
Proof.
  intros Hc w [Hi (rest & Ho & Hn)]. split; [exact Hi|].
  unfold put, fstream_put, out in *. simpl.
  destruct (fp_usable (w_fp w)); simpl.
  - exists (rest ++ [c]). rewrite Ho, app_assoc. split; [reflexivity|].
    rewrite forallb_app, Hn. simpl. now rewrite Hc.
  - now exists rest.
Qed.

Lemma declared_interface_start w :
  declared_interface (interfaces (w_module_manager w)) (out w) w.
Proof. split; [reflexivity|]. exists []. now rewrite app_nil_r. Qed.

Lemma declared_interface_add_child I prefix parent child :
  preserves (declared_interface I prefix) (mm_add_child_module parent child).
Proof.
  intros w [Hi Ho]. split; [|exact Ho]. simpl.
  now rewrite interfaces_add_child_module.
Qed.

Lemma branch_module_interface circuit_lib circuit_model name g b w :
  is_SPICE_MODEL_GATE
    (model_type circuit_lib (pass_gate_logic_model circuit_lib circuit_model))
  = false ->
  usable w ->
  num_outputs g = 1 ->
  num_levels g = 1 ->
  exists id rest,
    let w' :=
      snd (generate_verilog_cmos_mux_branch_module circuit_lib circuit_model
             name g b w) in
    find_module (w_module_manager w') name = Some id
    /\ ports_of (w_module_manager w') (Some id)
       = ports_of (w_module_manager w) (find_module (w_module_manager w) name)
         ++ branch_module_ports circuit_lib circuit_model g
    /\ out w'
       = out w
         ++ ModuleDeclaration name
              (ports_of (w_module_manager w)
                 (find_module (w_module_manager w) name)
               ++ branch_module_ports circuit_lib circuit_model g)
            :: rest.
Proof.
  intros Hg Hw Ho Hl. cbv zeta.
  rewrite cmos_module_run by assumption.
  set (w1 := declared circuit_lib circuit_model name g w).
  set (I := interfaces (w_module_manager w1)).
  set (prefix := out w1).
  assert (H1 : declared_interface I prefix w1)
    by apply declared_interface_start.
  pose proof (preserves_cmos_branch_body (declared_interface I prefix)
                circuit_lib circuit_model
                (Some (branch_module_id (w_module_manager w) name)) g b name
                (declared_interface_put I prefix)
                (declared_interface_add_child I prefix) w1 H1)
    as [Hi (rest & Hr & _)].
  exists (branch_module_id (w_module_manager w) name), rest.
  split; [|split].
  - rewrite (find_module_interfaces _ _ _ Hi). subst I w1. simpl.
    apply interfaces_registered_find.
  - rewrite (ports_of_interfaces _ _ _ Hi). subst I w1. simpl.
    destruct (registered_lookup circuit_lib circuit_model name g
                (w_module_manager w)) as (m & -> & _ & Hp).
    exact Hp.
  - rewrite Hr. subst prefix w1. unfold declared. rewrite out_emit.
    now rewrite <- app_assoc.
Qed.

(** C10.  For a branch graph with one output and one level on the CMOS
    path (the pass gate is not a logic gate, the stream is usable), the
    module registered under the name of the branch gets, after the ports a
    module of that name had, one global port for each global input port of
    the pass-gate model, then [in], [out], [mem] and [mem_inv], of the
    widths of the graph; the declaration written to the stream lists these
    ports.  This holds for both values of the flag, so the interface is the
    same in structural and in behavioural mode, and it holds whether the
    body that follows ends or stops. *)
Theorem C10_branch_module_interface circuit_lib circuit_model name g b w :
  is_SPICE_MODEL_GATE
    (model_type circuit_lib (pass_gate_logic_model circuit_lib circuit_model))
  = false ->
  usable w ->
  num_outputs g = 1 ->
  num_levels g = 1 ->
  exists id rest,
    let w' :=
      snd (generate_verilog_cmos_mux_branch_module circuit_lib circuit_model
             name g b w) in
    find_module (w_module_manager w') name = Some id
    /\ ports_of (w_module_manager w') (Some id)
       = ports_of (w_module_manager w) (find_module (w_module_manager w) name)
         ++ branch_module_ports circuit_lib circuit_model g
    /\ out w'
       = out w
         ++ ModuleDeclaration name
              (ports_of (w_module_manager w)
                 (find_module (w_module_manager w) name)
               ++ branch_module_ports circuit_lib circuit_model g)
            :: rest.
Proof. apply branch_module_interface. Qed.

Lemma C10_branch_module_interface_witness :
  exists id rest,
    let w' :=
      snd (generate_verilog_cmos_mux_branch_module (cmos_lib false) 0
             "mux_size4_4_basis" sample_graph false open_world) in
    find_module (w_module_manager w') "mux_size4_4_basis" = Some id
    /\ ports_of (w_module_manager w') (Some id)
       = [(mkBasicPort "in" 0 3, MODULE_INPUT_PORT);
          (mkBasicPort "out" 0 0, MODULE_OUTPUT_PORT);
          (mkBasicPort "mem" 0 3, MODULE_INPUT_PORT);
          (mkBasicPort "mem_inv" 0 3, MODULE_INPUT_PORT)]
    /\ out w'
       = ModuleDeclaration "mux_size4_4_basis"
           [(mkBasicPort "in" 0 3, MODULE_INPUT_PORT);
            (mkBasicPort "out" 0 0, MODULE_OUTPUT_PORT);
            (mkBasicPort "mem" 0 3, MODULE_INPUT_PORT);
            (mkBasicPort "mem_inv" 0 3, MODULE_INPUT_PORT)]
         :: rest.
Proof.
  exact (C10_branch_module_interface (cmos_lib false) 0 "mux_size4_4_basis"
           sample_graph false open_world eq_refl eq_refl eq_refl eq_refl).
Defined.

(** ** The guard and the shape check *)

Lemma cmos_gate_run circuit_lib circuit_model name g b w :
  is_SPICE_MODEL_GATE
    (model_type circuit_lib (pass_gate_logic_model circuit_lib circuit_model))
  = true ->
  generate_verilog_cmos_mux_branch_module circuit_lib circuit_model name g b w
  = if is_SPICE_MODEL_GATE_MUX2
         (gate_type circuit_lib
            (pass_gate_logic_model circuit_lib circuit_model))
    then (Done tt, w)
    else (Fatal
            (VTR_ASSERT_failed
               "SPICE_MODEL_GATE_MUX2 == circuit_lib.gate_type(tgate_model)"),
          w).
Proof.
  intros Hg. unfold generate_verilog_cmos_mux_branch_module. rewrite Hg.
  cbv beta iota zeta. now destruct (is_SPICE_MODEL_GATE_MUX2 _).
Qed.

Lemma cmos_unusable circuit_lib circuit_model name g b w :
  is_SPICE_MODEL_GATE
    (model_type circuit_lib (pass_gate_logic_model circuit_lib circuit_model))
  = false ->
  ~ usable w ->
  generate_verilog_cmos_mux_branch_module circuit_lib circuit_model name g b w
  = (Fatal (exit_1 "Fail to create a file!"), w).
Proof.
  intros Hg Hw. unfold generate_verilog_cmos_mux_branch_module. rewrite Hg.
  cbv beta iota zeta. apply bind_Fatal. now apply check_file_handler_unusable.
Qed.

Lemma cmos_shape_violation circuit_lib circuit_model name g b w :
  is_SPICE_MODEL_GATE
    (model_type circuit_lib (pass_gate_logic_model circuit_lib circuit_model))
  = false ->
  usable w ->
  num_outputs g <> 1 \/ num_levels g <> 1 ->
  generate_verilog_cmos_mux_branch_module circuit_lib circuit_model name g b w
  = (Fatal
       (VTR_ASSERT_failed
          (if (1 =? num_outputs g)%nat then "1 == mux_graph.num_levels()"
           else "1 == num_outputs")),
     w).
Proof.
  intros Hg Hw Hs. unfold generate_verilog_cmos_mux_branch_module. rewrite Hg.
  cbv beta iota zeta. rewrite bind_check by exact Hw.
  destruct (Nat.eqb_spec 1 (num_outputs g)) as [Ho|Ho].
  - rewrite bind_assert.
    destruct (Nat.eqb_spec 1 (num_levels g)) as [Hl|Hl]; [lia|reflexivity].
  - reflexivity.
Qed.

(** C5 as amended.  A branch graph whose number of outputs or of levels
    is not 1 leaves the world of the CMOS emission as it was: nothing is
    written and nothing is registered.  The emission stops there, except
    when the pass-gate model is a 2:1 logic-gate multiplexer, where it
    returns; when the pass-gate model is not a logic gate and the stream is
    usable, the stop is the failed assertion of the shape, on the outputs
    first.  So the emission registers or writes something only for a graph
    with one output and one level. *)
Theorem C5_shape_violation_is_fatal circuit_lib circuit_model name g b w :
  let tgate_model := pass_gate_logic_model circuit_lib circuit_model in
  let run :=
    generate_verilog_cmos_mux_branch_module circuit_lib circuit_model name g b
      w in
  (num_outputs g <> 1 \/ num_levels g <> 1 ->
   snd run = w
   /\ (if is_SPICE_MODEL_GATE (model_type circuit_lib tgate_model)
          && is_SPICE_MODEL_GATE_MUX2 (gate_type circuit_lib tgate_model)
       then fst run = Done tt
       else exists f, fst run = Fatal f)
   /\ (is_SPICE_MODEL_GATE (model_type circuit_lib tgate_model) = false ->
       usable w ->
       fst run
       = Fatal
           (VTR_ASSERT_failed
              (if (1 =? num_outputs g)%nat then "1 == mux_graph.num_levels()"
               else "1 == num_outputs"))))
  /\ (snd run <> w -> num_outputs g = 1 /\ num_levels g = 1).
Proof.
  cbv zeta.
  assert (Hkeep : num_outputs g <> 1 \/ num_levels g <> 1 ->
                  snd (generate_verilog_cmos_mux_branch_module circuit_lib
                         circuit_model name g b w) = w).
  { intros Hs.
    destruct (is_SPICE_MODEL_GATE
                (model_type circuit_lib
                   (pass_gate_logic_model circuit_lib circuit_model)))
      eqn:Hg.
    - rewrite cmos_gate_run by exact Hg.
      now destruct (is_SPICE_MODEL_GATE_MUX2 _).
    - destruct (fp_usable (w_fp w)) eqn:Hw.
      + now rewrite cmos_shape_violation.
      + rewrite cmos_unusable; [reflexivity|exact Hg|].
        unfold usable. now rewrite Hw. }
  split.
  - intros Hs. split; [now apply Hkeep|]. split.
    + destruct (is_SPICE_MODEL_GATE
                  (model_type circuit_lib
                     (pass_gate_logic_model circuit_lib circuit_model)))
        eqn:Hg; simpl.
      * rewrite cmos_gate_run by exact Hg.
        destruct (is_SPICE_MODEL_GATE_MUX2 _); simpl; eauto.
      * destruct (fp_usable (w_fp w)) eqn:Hw.
        -- rewrite cmos_shape_violation by assumption. simpl. eauto.
        -- rewrite cmos_unusable; [simpl; eauto|exact Hg|].
           unfold usable. now rewrite Hw.
    + intros Hg Hw. now rewrite cmos_shape_violation.
  - intros Hchanged.
    destruct (Nat.eq_dec (num_outputs g) 1) as [Ho|Ho];
      [|exfalso; apply Hchanged, Hkeep; auto].
    destruct (Nat.eq_dec (num_levels g) 1) as [Hl|Hl]; [auto|].
    exfalso. apply Hchanged, Hkeep. auto.
Qed.

Lemma C5_shape_violation_is_fatal_witness :
  generate_verilog_cmos_mux_branch_module (cmos_lib true) 0 "m"
    two_output_graph true open_world
  = (Fatal (VTR_ASSERT_failed "1 == num_outputs"), open_world).
Proof.
  destruct (C5_shape_violation_is_fatal (cmos_lib true) 0 "m"
              two_output_graph true open_world) as [H _].
  cbv zeta in H. destruct H as (Hw & _ & Hf).
  - left. vm_compute. lia.
  - rewrite (surjective_pairing
               (generate_verilog_cmos_mux_branch_module (cmos_lib true) 0 "m"
                  two_output_graph true open_world)).
    rewrite Hw, Hf; reflexivity.
Defined.

(** C5 as stated fails: with a 2:1 logic-gate multiplexer as pass gate,
    the guard returns before the shape is checked, and a graph with two
    outputs raises no violation. *)
Lemma C5_counterexample :
  num_outputs two_output_graph = 2
  /\ generate_verilog_cmos_mux_branch_module gate_lib 0 "m" two_output_graph
       true open_world
     = (Done tt, open_world).
Proof. split; reflexivity. Qed.

(** ** The dispatch on the design technology *)

(** C7 as amended.  Under one of the two recognised design technologies, a
    model whose pass gate is a 2:1 logic-gate multiplexer gets no module:
    the dispatch ends without a fatal stop and leaves the world as it was,
    and the loop over the branches goes on with the next one. *)
Theorem C7_mux2_gate_is_skipped env circuit_lib circuit_model mux_size g w :
  design_tech_type circuit_lib circuit_model = SPICE_MODEL_DESIGN_CMOS
  \/ design_tech_type circuit_lib circuit_model = SPICE_MODEL_DESIGN_RRAM ->
  model_type circuit_lib (pass_gate_logic_model circuit_lib circuit_model)
  = SPICE_MODEL_GATE ->
  gate_type circuit_lib (pass_gate_logic_model circuit_lib circuit_model)
  = SPICE_MODEL_GATE_MUX2 ->
  generate_verilog_mux_branch_module env circuit_lib circuit_model mux_size g w
  = (Done tt, w)
  /\ forall rest,
       for_each (g :: rest)
         (generate_verilog_mux_branch_module env circuit_lib circuit_model
            mux_size) w
       = for_each rest
           (generate_verilog_mux_branch_module env circuit_lib circuit_model
              mux_size) w.
Proof.
  intros Ht Hm Hg.
  assert (E : generate_verilog_mux_branch_module env circuit_lib circuit_model
                mux_size g w = (Done tt, w)).
  { unfold generate_verilog_mux_branch_module.
    destruct Ht as [-> | ->]; [|reflexivity].
    rewrite cmos_gate_run by now rewrite Hm. now rewrite Hg. }
  split; [exact E|]. intros rest. simpl. now rewrite (bind_Done _ _ _ _ _ E).
Qed.

Lemma C7_mux2_gate_is_skipped_witness :
  generate_verilog_mux_branch_module sample_env gate_lib 0 4 sample_graph
    open_world
  = (Done tt, open_world).
Proof.
  apply (C7_mux2_gate_is_skipped sample_env gate_lib 0 4 sample_graph
           open_world).
  - left. reflexivity.
  - reflexivity.
  - reflexivity.
Defined.

(** C7 as stated fails: under an unrecognised design technology the same
    model stops the generation. *)
Lemma C7_counterexample :
  model_type other_tech_gate_lib
    (pass_gate_logic_model other_tech_gate_lib 0) = SPICE_MODEL_GATE
  /\ gate_type other_tech_gate_lib
       (pass_gate_logic_model other_tech_gate_lib 0) = SPICE_MODEL_GATE_MUX2
  /\ generate_verilog_mux_branch_module sample_env other_tech_gate_lib 0 4
       sample_graph open_world
     = (Fatal
          (exit_1 "Invalid design technology of multiplexer (name: mux)"),
        open_world).
Proof. repeat split; reflexivity. Qed.

(** ** The default value of the configuration ports *)

Lemma print_verilog_module_end_usable name w :
  usable w ->
  print_verilog_module_end name w = (Done tt, emit [ModuleEnd name] w).
Proof.
  intros Hw. unfold print_verilog_module_end.
  rewrite bind_check by exact Hw. now apply put_usable.
Qed.

(** C8 as amended.  In behavioural mode, once the declaration of the
    module is written, the model must have exactly one configuration port
    that is not a mode-select port, whatever the default values: with none
    or with several the generation stops on the failed assertion, before
    the behavioural body.  With exactly one, the decimal text of its
    default value must be one character, or the generation stops in the
    same way; that character is then the shared default of every case
    literal of the body, which is written in full and followed by the end
    of the module. *)
Theorem C8_single_sram_port_default circuit_lib circuit_model name g w :
  is_SPICE_MODEL_GATE
    (model_type circuit_lib (pass_gate_logic_model circuit_lib circuit_model))
  = false ->
  usable w ->
  num_outputs g = 1 ->
  num_levels g = 1 ->
  at_most_one_edge_per_pair g = true ->
  mems_below (num_memory_bits g) g = true ->
  let run :=
    generate_verilog_cmos_mux_branch_module circuit_lib circuit_model name g
      false w in
  let w1 := declared circuit_lib circuit_model name g w in
  match non_mode_select_sram_ports circuit_lib circuit_model with
  | [port] =>
      match to_string (port_default_value circuit_lib port) with
      | String c EmptyString =>
          exists codes,
            run
            = (Done tt,
               emit
                 ((behavioral_header (BasicPort_sized "in" (num_inputs g))
                     (BasicPort_sized "mem" (num_memory_bits g))
                     (BasicPort_sized "out_reg" (num_outputs g))
                   ++ flat_map
                        (case_entry (num_memory_bits g)
                           (BasicPort_sized "out_reg" (num_outputs g)) "in" g)
                        (combine (connected_pairs g) codes)
                   ++ behavioral_footer
                        (BasicPort_sized "out" (num_outputs g))
                        (BasicPort_sized "out_reg" (num_outputs g))
                        (num_outputs g))
                  ++ [ModuleEnd name])
                 w1)
            /\ Forall2
                 (fun p code =>
                    exists ed, edge_of g p = Some ed /\
                               case_code_spec (num_memory_bits g) c ed code)
                 (connected_pairs g) codes
      | _ =>
          run
          = (Fatal (VTR_ASSERT_failed "1 == mem_default_val.length()"), w1)
      end
  | _ =>
      run
      = (Fatal (VTR_ASSERT_failed "1 == non_mode_select_sram_ports.size()"),
         w1)
  end.
Proof.
  intros Hg Hw Ho Hl H1 Hm. cbv zeta.
  rewrite cmos_module_run by assumption.
  set (w1 := declared circuit_lib circuit_model name g w).
  assert (Hw1 : usable w1) by exact Hw.
  unfold cmos_branch_body.
  destruct (non_mode_select_sram_ports circuit_lib circuit_model)
    as [|port [|port' ports]]; [reflexivity| |reflexivity].
  simpl length. change (1 =? 1)%nat with true.
  rewrite !bind_assoc, bind_assert. simpl nth.
  destruct (to_string (port_default_value circuit_lib port))
    as [|c [|c' s]]; [reflexivity| |reflexivity].
  simpl String.length. change (1 =? 1)%nat with true.
  destruct (behavioral_body_spec (BasicPort_sized "in" (num_inputs g))
              (BasicPort_sized "out" (num_outputs g))
              (BasicPort_sized "mem" (num_memory_bits g)) g (nat_of_ascii c)
              w1 Hw1 H1) as (codes & Hrun & Hcodes).
  { now rewrite get_width_sized. }
  rewrite get_width_sized, ascii_nat_embedding in Hcodes.
  exists codes. split; [|exact Hcodes].
  rewrite bind_assoc, bind_assert. rewrite (bind_Done _ _ _ _ _ Hrun).
  rewrite print_verilog_module_end_usable by exact Hw1.
  rewrite emit_emit, get_width_sized.
  replace (get_name (BasicPort_sized "in" (num_inputs g))) with "in"
    by now destruct (num_inputs g).
  reflexivity.
Qed.

Lemma C8_single_sram_port_default_witness :
  exists codes,
    generate_verilog_cmos_mux_branch_module (cmos_lib false) 0 "m"
      sample_graph false open_world
    = (Done tt,
       emit
         ((behavioral_header (BasicPort_sized "in" 4) (BasicPort_sized "mem" 4)
             (BasicPort_sized "out_reg" 1)
           ++ flat_map
                (case_entry 4 (BasicPort_sized "out_reg" 1) "in" sample_graph)
                (combine (connected_pairs sample_graph) codes)
           ++ behavioral_footer (BasicPort_sized "out" 1)
                (BasicPort_sized "out_reg" 1) 1)
          ++ [ModuleEnd "m"])
         (declared (cmos_lib false) 0 "m" sample_graph open_world))
    /\ Forall2
         (fun p code =>
            exists ed, edge_of sample_graph p = Some ed /\
                       case_code_spec 4 "0"%char ed code)
         (connected_pairs sample_graph) codes.
Proof.
  exact (C8_single_sram_port_default (cmos_lib false) 0 "m" sample_graph
           open_world eq_refl eq_refl eq_refl eq_refl eq_refl eq_refl).
Defined.

(** C8 as stated fails: the two configuration ports of the model have the
    same default value, so exactly one distinct default value is found,
    and the generation stops. *)
Lemma C8_counterexample :
  distinct_default_values two_sram_lib 0 = [0]
  /\ generate_verilog_cmos_mux_branch_module two_sram_lib 0 "m" sample_graph
       false open_world
     = (Fatal (VTR_ASSERT_failed "1 == non_mode_select_sram_ports.size()"),
        declared two_sram_lib 0 "m" sample_graph open_world).
Proof. split; vm_compute; reflexivity. Qed.

(** ** Runs that end *)

Lemma bind_Done_inv {A B} (m : M A) (k : A -> M B) w b w' :
  bind m k w = (Done b, w') ->
  exists a w1, m w = (Done a, w1) /\ k a w1 = (Done b, w').
Proof.
  unfold bind. destruct (m w) as [[a|f] w1]; [eauto|discriminate].
Qed.

Lemma bind_assert_Done_inv {B} c h (k : unit -> M B) w b w' :
  bind (VTR_ASSERT c h) k w = (Done b, w') ->
  h = true /\ k tt w = (Done b, w').
Proof. destruct h; [auto|discriminate]. Qed.

Lemma bind_check_Done_inv {B} (k : unit -> M B) w b w' :
  bind check_file_handler k w = (Done b, w') ->
  usable w /\ k tt w = (Done b, w').
Proof.
  unfold bind, check_file_handler, usable.
  destruct (fp_usable (w_fp w)); [auto|discriminate].
Qed.

Lemma Done_keeps_invariant {A} (P : World -> Prop) (m : M A) w a w' :
  preserves P m -> P w -> m w = (Done a, w') -> P w'.
Proof. intros Hp Hw H. specialize (Hp w Hw). now rewrite H in Hp. Qed.

Lemma structural_body_Done circuit_lib tgate_model module_id input_port
    output_port mem_port mem_inv_port g w w' :
  generate_verilog_cmos_mux_branch_body_structural circuit_lib tgate_model
    module_id input_port output_port mem_port mem_inv_port g w
  = (Done tt, w') ->
  exists rest,
    out w' = out w ++ Comment "---- Structure-level description -----" :: rest
    /\ forallb not_declaration rest = true.
Proof.
  unfold generate_verilog_cmos_mux_branch_body_structural. intros H.
  apply bind_check_Done_inv in H as [Hw H].
  unfold mm_find_module at 1 in H. unfold bind at 1 in H.
  apply bind_assert_Done_inv in H as [_ H].
  apply bind_assert_Done_inv in H as [_ H].
  apply bind_assert_Done_inv in H as [_ H].
  rewrite bind_comment in H by exact Hw. cbv zeta in H.
  match type of H with
  | ?tail ?w2 = _ =>
      assert (Hp : preserves
                     (declared_interface (interfaces (w_module_manager w2))
                        (out w2)) tail)
  end.
  { unfold print_verilog_module_instance.
    preserves_with
      ltac:(first [ now apply declared_interface_put
                  | apply declared_interface_add_child ]). }
  destruct (Done_keeps_invariant _ _ _ _ _ Hp (declared_interface_start _) H)
    as [_ (rest & Hr & Hn)].
  exists rest. split; [|exact Hn]. rewrite Hr, out_emit.
  now rewrite <- app_assoc.
Qed.

Lemma behavioral_body_Done input_port output_port mem_port g d w w' :
  generate_verilog_cmos_mux_branch_body_behavioral input_port output_port
    mem_port g d w
  = (Done tt, w') ->
  exists rest,
    out w' = out w ++ Comment "---- Behavioral-level description -----" :: rest
    /\ forallb not_declaration rest = true.
Proof.
  unfold generate_verilog_cmos_mux_branch_body_behavioral. intros H.
  apply bind_check_Done_inv in H as [Hw H].
  rewrite bind_comment in H by exact Hw. cbv zeta in H.
  match type of H with
  | ?tail ?w2 = _ =>
      assert (Hp : preserves
                     (declared_interface (interfaces (w_module_manager w2))
                        (out w2)) tail)
  end.
  { preserves_with ltac:(first [ exact (declared_interface_put _ _)
                               | now apply declared_interface_put ]). }
  destruct (Done_keeps_invariant _ _ _ _ _ Hp (declared_interface_start _) H)
    as [_ (rest & Hr & Hn)].
  exists rest. split; [|exact Hn]. rewrite Hr, out_emit.
  now rewrite <- app_assoc.
Qed.

Lemma module_end_Done name w w' :
  print_verilog_module_end name w = (Done tt, w') ->
  out w' = out w ++ [ModuleEnd name].
Proof.
  unfold print_verilog_module_end. intros H.
  apply bind_check_Done_inv in H as [Hw H].
  rewrite put_usable in H by exact Hw. now injection H as <-.
Qed.

(** A CMOS branch module that is generated to its end was declared, and
    the declaration is followed by the body that the flag selects. *)
Lemma cmos_module_Done circuit_lib circuit_model name g b w w' :
  is_SPICE_MODEL_GATE
    (model_type circuit_lib (pass_gate_logic_model circuit_lib circuit_model))
  = false ->
  generate_verilog_cmos_mux_branch_module circuit_lib circuit_model name g b w
  = (Done tt, w') ->
  exists rest,
    out w'
    = out w
      ++ ModuleDeclaration name
           (ports_of (w_module_manager w)
              (find_module (w_module_manager w) name)
            ++ branch_module_ports circuit_lib circuit_model g)
         :: Comment
              (if b then "---- Structure-level description -----"
               else "---- Behavioral-level description -----")
         :: rest
    /\ forallb not_declaration rest = true.
Proof.
  intros Hg H.
  destruct (fp_usable (w_fp w)) eqn:Hw.
  2:{ rewrite cmos_unusable in H; [discriminate|exact Hg|].
      unfold usable. now rewrite Hw. }
  destruct (Nat.eq_dec (num_outputs g) 1) as [Ho|Ho].
  2:{ rewrite cmos_shape_violation in H; auto. discriminate. }
  destruct (Nat.eq_dec (num_levels g) 1) as [Hl|Hl].
  2:{ rewrite cmos_shape_violation in H; auto. discriminate. }
  rewrite cmos_module_run in H by assumption.
  apply bind_Done_inv in H as ([] & w2 & Hbody & Hend).
  apply module_end_Done in Hend.
  assert (Hb : exists rest,
             out w2
             = out (declared circuit_lib circuit_model name g w)
               ++ Comment
                    (if b then "---- Structure-level description -----"
                     else "---- Behavioral-level description -----")
                  :: rest
             /\ forallb not_declaration rest = true).
  { unfold cmos_branch_body in Hbody. destruct b.
    - now apply structural_body_Done in Hbody.
    - apply bind_assert_Done_inv in Hbody as [_ Hbody].
      apply bind_assert_Done_inv in Hbody as [_ Hbody].
      now apply behavioral_body_Done in Hbody. }
  destruct Hb as (rest & Hr & Hn).
  exists (rest ++ [ModuleEnd name]). split.
  - rewrite Hend, Hr. unfold declared. rewrite out_emit.
    rewrite <- !app_assoc. reflexivity.
  - rewrite forallb_app, Hn. reflexivity.
Qed.

(** The dispatch, run on the 4:1 branch in behavioural mode. *)
Example dispatch_cmos_behavioral :
  exists w',
    generate_verilog_mux_branch_module sample_env (cmos_lib false) 0 4
      sample_graph open_world = (Done tt, w')
    /\ declared_names (out w') = ["mux_size4_4_basis"]%string.
Proof. eexists. split; vm_compute; reflexivity. Qed.

Example dispatch_rram :
  generate_verilog_mux_branch_module sample_env
    (sample_circuit_lib SPICE_MODEL_DESIGN_RRAM (SPICE_MODEL_TYPE_other 0)
       true [20])
    0 4 sample_graph open_world
  = (Done tt, open_world).
Proof. reflexivity. Qed.

(** ** The driver *)

Lemma for_each_ext {A} (l : list A) (f h : A -> M unit) w :
  (forall x w, f x w = h x w) -> for_each l f w = for_each l h w.
Proof.
  intros E. revert w. induction l as [|x l IH]; intros w; simpl;
    [reflexivity|].
  unfold bind. rewrite E.
  destruct (h x w) as [[[]|e] w1]; [apply IH|reflexivity].
Qed.

Lemma for_each_flat_map {A B} (h : A -> list B) (l : list A)
    (body : B -> M unit) w :
  for_each (flat_map h l) body w
  = for_each l (fun x => for_each (h x) body) w.
Proof.
  revert w. induction l as [|x l IH]; intros w; simpl; [reflexivity|].
  rewrite for_each_app. unfold bind.
  destruct (for_each (h x) body w) as [[[]|e] w1]; [apply IH|reflexivity].
Qed.

Lemma generate_all_branches_flat env mux_lib circuit_lib w :
  generate_all_branches env mux_lib circuit_lib w
  = for_each (branches_of env mux_lib) (dispatch_branch env circuit_lib) w.
Proof.
  unfold generate_all_branches, branches_of. rewrite for_each_flat_map.
  apply for_each_ext. intros mux w1. cbv zeta. now rewrite for_each_map.
Qed.

Lemma preserves_any_put P :
  (forall c, preserves P (put c)) ->
  forall f : World -> chunk, preserves P (fun w => put (f w) w).
Proof. intros Hp f w Hw. exact (Hp (f w) w Hw). Qed.

Lemma preserves_cmos_module P circuit_lib circuit_model name g b :
  (forall c, preserves P (put c)) ->
  (forall mm w, P w -> P (set_module_manager mm w)) ->
  preserves P
    (generate_verilog_cmos_mux_branch_module circuit_lib circuit_model name g
       b).
Proof.
  intros Hp Hm.
  assert (Hadd : forall n, preserves P (mm_add_module n)).
  { intros n w Hw. unfold mm_add_module.
    destruct (add_module (w_module_manager w) n) as [id mm]. now apply Hm. }
  assert (Hport : forall id p t, preserves P (mm_add_port id p t)).
  { intros id p t w Hw. now apply Hm. }
  assert (Hchild : forall p c, preserves P (mm_add_child_module p c)).
  { intros p c w Hw. now apply Hm. }
  unfold generate_verilog_cmos_mux_branch_module,
    print_verilog_module_declaration, print_verilog_module_end.
  cbv zeta.
  preserves_with
    ltac:(first [ apply Hadd | apply Hport | apply Hchild | apply Hp
                | apply (preserves_any_put P Hp) ]).
Qed.

Lemma preserves_dispatch P env circuit_lib circuit_model mux_size g :
  (forall c, preserves P (put c)) ->
  (forall mm w, P w -> P (set_module_manager mm w)) ->
  preserves P
    (generate_verilog_mux_branch_module env circuit_lib circuit_model mux_size
       g).
Proof.
  intros Hp Hm. unfold generate_verilog_mux_branch_module.
  destruct (design_tech_type circuit_lib circuit_model).
  - now apply preserves_cmos_module.
  - now apply preserves_same.
  - now apply preserves_same.
Qed.

Lemma preserves_all_branches P env mux_lib circuit_lib :
  (forall c, preserves P (put c)) ->
  (forall mm w, P w -> P (set_module_manager mm w)) ->
  preserves P (generate_all_branches env mux_lib circuit_lib).
Proof.
  intros Hp Hm. unfold generate_all_branches.
  apply preserves_for_each. intros mux. cbv zeta.
  apply preserves_for_each. intros g. now apply preserves_dispatch.
Qed.

Lemma frame_put w0 c : preserves (frame w0) (put c).
Proof.
  intros w (Hf & Hn & Ho & Hu & Hr). unfold frame, put, fstream_put. simpl.
  destruct (fp_usable (w_fp w)); simpl; auto.
Qed.

Lemma frame_set_module_manager w0 mm w :
  frame w0 w -> frame w0 (set_module_manager mm w).
Proof. intros H. exact H. Qed.

Lemma frame_all_branches env mux_lib circuit_lib w :
  frame w (snd (generate_all_branches env mux_lib circuit_lib w)).
Proof.
  apply (preserves_all_branches (frame w)).
  - apply frame_put.
  - apply frame_set_module_manager.
  - repeat split.
Qed.

(** The driver, step by step: the stream is opened on the staging name;
    when the system refuses, the driver stops; otherwise the header and
    the include section are written, the branches are generated, and when
    all are, the stream is closed and the reserved lines are updated. *)
Lemma driver_run env mux_lib circuit_lib verilog_dir submodule_dir w :
  print_verilog_submodule_muxes env mux_lib circuit_lib verilog_dir
    submodule_dir w
  = if bool_decide (staging_file_name env submodule_dir ∈ w_unwritable w)
    then (Fatal (exit_1 "Fail to create a file!"),
          set_fp (mkfstream (staging_file_name env submodule_dir) false false
                    []) w)
    else
      match generate_all_branches env mux_lib circuit_lib
              (started env verilog_dir submodule_dir w) with
      | (Done _, w3) =>
          try_update_sram_orgz_info_reserved_blwl (max_mux_size mux_lib)
            (max_mux_size mux_lib) (snd (fp_close w3))
      | (Fatal f, w3) => (Fatal f, w3)
      end.
Proof.
  unfold print_verilog_submodule_muxes. cbv zeta.
  fold (base_file_name env submodule_dir).
  fold (staging_file_name env submodule_dir).
  destruct (bool_decide
              (staging_file_name env submodule_dir ∈ w_unwritable w)) eqn:E.
  { assert (Hopen : fp_open (staging_file_name env submodule_dir) w
                    = (Done tt,
                       set_fp (mkfstream (staging_file_name env submodule_dir)
                                 false false []) w)).
    { unfold fp_open. now rewrite E. }
    rewrite (bind_Done _ _ _ _ _ Hopen). apply bind_Fatal.
    now apply check_file_handler_unusable. }
  set (w0 := set_fp (mkfstream (staging_file_name env submodule_dir) true true
                       []) w).
  assert (Hw0 : usable w0) by reflexivity.
  assert (Hopen : fp_open (staging_file_name env submodule_dir) w
                  = (Done tt, w0)).
  { unfold fp_open. now rewrite E. }
  rewrite (bind_Done _ _ _ _ _ Hopen).
  rewrite bind_check by exact Hw0.
  unfold print_verilog_file_header, print_verilog_include_defines_preproc_file.
  rewrite bind_assoc.
  rewrite bind_check by exact Hw0. rewrite bind_put by exact Hw0.
  rewrite bind_assoc.
  rewrite bind_check by exact Hw0. rewrite bind_put by exact Hw0.
  change (emit [IncludeDefines verilog_dir]
            (emit [FileHeader "Multiplexers"] w0))
    with (started env verilog_dir submodule_dir w).
  unfold bind at 1.
  destruct (generate_all_branches env mux_lib circuit_lib
              (started env verilog_dir submodule_dir w)) as [[[]|f] w3];
    reflexivity.
Qed.

Lemma max_mux_size_ge mux_lib entry :
  In entry mux_lib -> num_inputs (mux_graph entry) <= max_mux_size mux_lib.
Proof.
  induction mux_lib as [|e l IH]; simpl; [tauto|].
  intros [->|H]; [lia|]. specialize (IH H). lia.
Qed.

Lemma max_mux_size_attained mux_lib :
  mux_lib <> [] ->
  exists entry,
    In entry mux_lib /\ num_inputs (mux_graph entry) = max_mux_size mux_lib.
Proof.
  induction mux_lib as [|e l IH]; [congruence|]. intros _. simpl.
  destruct l as [|e' l'].
  - exists e. simpl. split; [auto|lia].
  - destruct (IH ltac:(discriminate)) as (x & Hx & Hm).
    destruct (Nat.max_spec (num_inputs (mux_graph e))
                (max_mux_size (e' :: l'))) as [[_ ->]|[_ ->]].
    + exists x. auto.
    + exists e. auto.
Qed.

(** C9 as amended.  In a generation pass that runs to its end, that is,
    when the staging file is created and the generation of the branches of
    every entry of the library ends, the reserved lines are updated exactly
    once: the update is applied to the world that the generation of all the
    branches and the closing of the stream leave, it is the only call on
    the configuration-memory organisation, and both its arguments are the
    largest multiplexer size [M] of the library.  A pass ends only in this
    way, and a pass that stops makes no call. *)
Theorem C9_reserved_lines_after_library env mux_lib circuit_lib verilog_dir
    submodule_dir w :
  let M := max_mux_size mux_lib in
  let run :=
    print_verilog_submodule_muxes env mux_lib circuit_lib verilog_dir
      submodule_dir w in
  (forall entry, In entry mux_lib -> num_inputs (mux_graph entry) <= M)
  /\ (mux_lib <> [] ->
      exists entry, In entry mux_lib /\ num_inputs (mux_graph entry) = M)
  /\ (forall w3,
        staging_file_name env submodule_dir ∉ w_unwritable w ->
        generate_all_branches env mux_lib circuit_lib
          (started env verilog_dir submodule_dir w) = (Done tt, w3) ->
        run
        = (Done tt,
           snd (try_update_sram_orgz_info_reserved_blwl M M
                  (snd (fp_close w3))))
        /\ w_reserved_blwl w3 = w_reserved_blwl w
        /\ w_reserved_blwl (snd run) = w_reserved_blwl w ++ [(M, M)])
  /\ (fst run = Done tt ->
      (staging_file_name env submodule_dir ∉ w_unwritable w)
      /\ exists w3,
           generate_all_branches env mux_lib circuit_lib
             (started env verilog_dir submodule_dir w) = (Done tt, w3))
  /\ (forall f, fst run = Fatal f ->
      w_reserved_blwl (snd run) = w_reserved_blwl w).
Proof.
  cbv zeta. split; [apply max_mux_size_ge|].
  split; [apply max_mux_size_attained|].
  pose proof (frame_all_branches env mux_lib circuit_lib
                (started env verilog_dir submodule_dir w))
    as (_ & _ & _ & _ & Hr).
  rewrite driver_run. split; [|split].
  - intros w3 Hu Hrun. rewrite bool_decide_eq_false_2 by exact Hu.
    rewrite Hrun in *. simpl in Hr. split; [reflexivity|].
    split; [exact Hr|]. simpl. now rewrite Hr.
  - destruct (bool_decide
                (staging_file_name env submodule_dir ∈ w_unwritable w))
      eqn:E; [discriminate|].
    apply bool_decide_eq_false in E. intros H. split; [exact E|].
    destruct (generate_all_branches env mux_lib circuit_lib
                (started env verilog_dir submodule_dir w)) as [[[]|f] w3];
      [eauto|discriminate].
  - intros f. destruct (bool_decide _); [reflexivity|].
    destruct (generate_all_branches env mux_lib circuit_lib
                (started env verilog_dir submodule_dir w)) as [[[]|f'] w3];
      simpl in *; [discriminate|]. intros _. exact Hr.
Qed.

Lemma C9_reserved_lines_after_library_witness :
  let run :=
    print_verilog_submodule_muxes sample_env one_mux_lib (cmos_lib false)
      "verilog/" "sub/" sample_world in
  fst run = Done tt /\ w_reserved_blwl (snd run) = [(4, 4)].
Proof.
  destruct (C9_reserved_lines_after_library sample_env one_mux_lib
              (cmos_lib false) "verilog/" "sub/" sample_world)
    as (_ & _ & H & _).
  destruct (H (snd (generate_all_branches sample_env one_mux_lib
                      (cmos_lib false)
                      (started sample_env "verilog/" "sub/" sample_world))))
    as (Hrun & _ & Hlog).
  - vm_compute. intros E. discriminate E.
  - vm_compute. reflexivity.
  - cbv zeta. split; [now rewrite Hrun|exact Hlog].
Defined.

(** C9 as stated fails: a pass that stops, here on the unrecognised design
    technology of the model of its first entry, never updates the reserved
    lines. *)
Lemma C9_counterexample :
  let run :=
    print_verilog_submodule_muxes sample_env one_mux_lib other_tech_gate_lib
      "verilog/" "sub/" sample_world in
  fst run
  = Fatal (exit_1 "Invalid design technology of multiplexer (name: mux)")
  /\ w_reserved_blwl (snd run) = [].
Proof. vm_compute. split; reflexivity. Qed.

(** The pass over the library with one 4:1 multiplexer reserves 4 bit
    lines and 4 word lines. *)
Example reserved_lines_of_one_mux :
  w_reserved_blwl
    (snd (print_verilog_submodule_muxes sample_env one_mux_lib
            (cmos_lib false) "verilog/" "sub/" sample_world))
  = [(4, 4)].
Proof. vm_compute. reflexivity. Qed.

(** ** The staging file *)

Lemma length_string_append (a b : string) :
  String.length (a ++ b) = String.length a + String.length b.
Proof. induction a as [|c a IH]; simpl; [reflexivity|]. now rewrite IH. Qed.

Lemma base_is_not_staging env submodule_dir :
  base_file_name env submodule_dir <> staging_file_name env submodule_dir.
Proof.
  unfold staging_file_name. intros H.
  apply (f_equal String.length) in H. rewrite length_string_append in H.
  simpl in H. lia.
Qed.

Lemma fst_update_after_close bl wl w :
  fst (try_update_sram_orgz_info_reserved_blwl bl wl (snd (fp_close w)))
  = Done tt.
Proof. reflexivity. Qed.

Lemma disk_update_after_close bl wl w :
  disk (snd (try_update_sram_orgz_info_reserved_blwl bl wl (snd (fp_close w))))
  = disk w.
Proof. reflexivity. Qed.

Lemma out_update_after_close bl wl w :
  out (snd (try_update_sram_orgz_info_reserved_blwl bl wl (snd (fp_close w))))
  = out w.
Proof. reflexivity. Qed.

Lemma open_update_after_close bl wl w :
  fp_is_open
    (w_fp (snd (try_update_sram_orgz_info_reserved_blwl bl wl
                  (snd (fp_close w)))))
  = false.
Proof. reflexivity. Qed.

Lemma prefix_all_branches env mux_lib circuit_lib w :
  exists rest,
    out (snd (generate_all_branches env mux_lib circuit_lib w))
    = out w ++ rest.
Proof.
  apply (preserves_all_branches
           (fun w1 => exists rest, out w1 = out w ++ rest)).
  - intros c w1 [rest Hr]. unfold put, fstream_put, out in *. simpl.
    destruct (fp_usable (w_fp w1)); simpl.
    + exists (rest ++ [c]). now rewrite Hr, app_assoc.
    + now exists rest.
  - intros mm w1 H. exact H.
  - exists []. now rewrite app_nil_r.
Qed.

(** C2 as amended.  The generation pass writes the netlist to the file
    named by the base name extended with [.bak] and never renames it: no
    other file is created, changed or removed, the base name among them.
    After a pass that ends, the stream is closed and the whole netlist,
    which starts with the header and the include section, is under the
    staging name.  After a pass that stops, either the staging file could
    not be created and the files are as they were, or what was written
    until the stop is under the staging name. *)
Theorem C2_netlist_stays_under_staging_name env mux_lib circuit_lib
    verilog_dir submodule_dir w :
  fp_is_open (w_fp w) = false ->
  let staging := staging_file_name env submodule_dir in
  let base := base_file_name env submodule_dir in
  let run :=
    print_verilog_submodule_muxes env mux_lib circuit_lib verilog_dir
      submodule_dir w in
  staging = (base ++ ".bak")%string
  /\ base <> staging
  /\ (forall p, p <> staging -> disk (snd run) !! p = disk w !! p)
  /\ match fst run with
     | Done _ =>
         fp_is_open (w_fp (snd run)) = false
         /\ disk (snd run) !! staging = Some (out (snd run))
         /\ exists rest,
              out (snd run)
              = FileHeader "Multiplexers" :: IncludeDefines verilog_dir :: rest
     | Fatal _ =>
         (staging ∈ w_unwritable w /\ disk (snd run) = disk w)
         \/ exists rest,
              disk (snd run) !! staging
              = Some (FileHeader "Multiplexers"
                      :: IncludeDefines verilog_dir :: rest)
     end.
Proof.
  intros Hclosed. cbv zeta. split; [reflexivity|].
  split; [apply base_is_not_staging|].
  rewrite driver_run.
  assert (Hdisk : disk w = w_files w) by (unfold disk; now rewrite Hclosed).
  destruct (bool_decide
              (staging_file_name env submodule_dir ∈ w_unwritable w)) eqn:E.
  { simpl. split; [intros p _; now rewrite Hdisk|].
    left. split; [now apply bool_decide_eq_true in E|now rewrite Hdisk]. }
  pose proof (frame_all_branches env mux_lib circuit_lib
                (started env verilog_dir submodule_dir w))
    as (Hf & Hn & Ho & _ & _).
  destruct (prefix_all_branches env mux_lib circuit_lib
              (started env verilog_dir submodule_dir w)) as [rest Hrest].
  destruct (generate_all_branches env mux_lib circuit_lib
              (started env verilog_dir submodule_dir w)) as [[[]|f] w3];
    simpl in Hf, Hn, Ho, Hrest; cbv beta iota.
  - rewrite fst_update_after_close, disk_update_after_close,
      out_update_after_close, open_update_after_close.
    assert (Hd : disk w3
                 = <[staging_file_name env submodule_dir := out w3]>
                     (w_files w)).
    { unfold disk. rewrite Ho, Hn, Hf. reflexivity. }
    rewrite Hd. split; [|split; [|split]].
    + intros p Hp. rewrite lookup_insert_ne by congruence. now rewrite Hdisk.
    + reflexivity.
    + now rewrite lookup_insert_eq.
    + exists rest. exact Hrest.
  - cbn [fst snd].
    assert (Hd : disk w3
                 = <[staging_file_name env submodule_dir := out w3]>
                     (w_files w)).
    { unfold disk. rewrite Ho, Hn, Hf. reflexivity. }
    rewrite Hd. split.
    + intros p Hp. rewrite lookup_insert_ne by congruence. now rewrite Hdisk.
    + right. exists rest. rewrite lookup_insert_eq. now rewrite Hrest.
Qed.

Lemma C2_netlist_stays_under_staging_name_witness :
  disk
    (snd (print_verilog_submodule_muxes sample_env one_mux_lib
            (cmos_lib false) "verilog/" "sub/" sample_world))
    !! "sub/muxes.v"
  = disk sample_world !! "sub/muxes.v".
Proof.
  destruct (C2_netlist_stays_under_staging_name sample_env one_mux_lib
              (cmos_lib false) "verilog/" "sub/" sample_world eq_refl)
    as (_ & _ & H & _).
  apply H. intros E. vm_compute in E. discriminate E.
Defined.

(** C2 as stated fails: after a pass that ends, nothing is under the base
    name; the netlist is under the staging name. *)
Lemma C2_counterexample :
  let run :=
    print_verilog_submodule_muxes sample_env one_mux_lib (cmos_lib false)
      "verilog/" "sub/" sample_world in
  fst run = Done tt
  /\ base_file_name sample_env "sub/" = "sub/muxes.v"%string
  /\ disk (snd run) !! "sub/muxes.v" = None
  /\ disk (snd run) !! "sub/muxes.v.bak" = Some (out (snd run)).
Proof. vm_compute. repeat split. Qed.

(** ** One definition for each branch that is handed over *)

Lemma declared_names_app l l' :
  declared_names (l ++ l') = declared_names l ++ declared_names l'.
Proof. unfold declared_names. apply flat_map_app. Qed.

Lemma declared_names_none l :
  forallb not_declaration l = true -> declared_names l = [].
Proof.
  induction l as [|c l IH]; simpl; [reflexivity|].
  intros H. apply andb_prop in H as [Hc Hl].
  destruct c; try discriminate; simpl; now apply IH.
Qed.

Lemma dispatch_branch_Done env circuit_lib b w w' :
  dispatch_branch env circuit_lib b w = (Done tt, w') ->
  declared_names (out w')
  = declared_names (out w)
    ++ (if branch_emits circuit_lib b then [branch_name env circuit_lib b]
        else []).
Proof.
  unfold dispatch_branch, generate_verilog_mux_branch_module, branch_emits,
    emits_module.
  fold (branch_name env circuit_lib b).
  destruct (design_tech_type circuit_lib (fst (fst b))).
  - destruct (is_SPICE_MODEL_GATE _) eqn:Hg; simpl.
    + rewrite cmos_gate_run by exact Hg.
      destruct (is_SPICE_MODEL_GATE_MUX2 _); [|discriminate].
      intros [= <-]. now rewrite app_nil_r.
    + intros H. apply cmos_module_Done in H as (rest & -> & Hn); [|exact Hg].
      rewrite declared_names_app. simpl.
      now rewrite (declared_names_none _ Hn).
  - intros [= <-]. now rewrite app_nil_r.
  - discriminate.
Qed.

Lemma dispatch_branches_Done env circuit_lib bs w w' :
  for_each bs (dispatch_branch env circuit_lib) w = (Done tt, w') ->
  declared_names (out w')
  = declared_names (out w)
    ++ List.map (branch_name env circuit_lib)
         (List.filter (branch_emits circuit_lib) bs).
Proof.
  revert w. induction bs as [|b bs IH]; intros w; simpl.
  - intros [= <-]. now rewrite app_nil_r.
  - intros H. apply bind_Done_inv in H as ([] & w1 & Hb & Hrest).
    rewrite (IH _ Hrest), (dispatch_branch_Done _ _ _ _ _ Hb).
    rewrite <- app_assoc. now destruct (branch_emits circuit_lib b).
Qed.

(** A branch that gets a module is registered under its name when its
    generation ends. *)
Lemma dispatch_branch_registers env circuit_lib b w w' :
  dispatch_branch env circuit_lib b w = (Done tt, w') ->
  branch_emits circuit_lib b = true ->
  find_module (w_module_manager w') (branch_name env circuit_lib b)
  <> INVALID.
Proof.
  unfold dispatch_branch, generate_verilog_mux_branch_module, branch_emits,
    emits_module.
  fold (branch_name env circuit_lib b).
  destruct (design_tech_type circuit_lib (fst (fst b))); [|discriminate..].
  intros H Hg. apply negb_true_iff in Hg.
  destruct (fp_usable (w_fp w)) eqn:Hw.
  2:{ rewrite cmos_unusable in H; [discriminate|exact Hg|].
      unfold usable. now rewrite Hw. }
  destruct (Nat.eq_dec (num_outputs (snd b)) 1) as [Ho|Ho].
  2:{ rewrite cmos_shape_violation in H; [discriminate|auto..]. }
  destruct (Nat.eq_dec (num_levels (snd b)) 1) as [Hl|Hl].
  2:{ rewrite cmos_shape_violation in H; [discriminate|auto..]. }
  destruct (branch_module_interface circuit_lib (fst (fst b))
              (branch_name env circuit_lib b) (snd b)
              (dump_structural_verilog circuit_lib (fst (fst b))) w Hg Hw Ho Hl)
    as (id & _ & Hf & _).
  rewrite H in Hf. simpl in Hf. now rewrite Hf.
Qed.

(** C1 as amended.  The driver hands every branch of every entry of the
    library to the generation, whether or not a module of its name is
    registered: nothing is skipped.  In a pass that ends, the module
    definitions in the netlist are, in order, one for each branch handed
    over whose model is CMOS with a pass gate that is not a logic gate, so
    that a name that occurs twice among these branches is defined twice.  A
    branch that gets a definition is registered under its name when its
    generation ends. *)
Theorem C1_one_definition_per_branch_handed_over env mux_lib circuit_lib
    verilog_dir submodule_dir w w' :
  print_verilog_submodule_muxes env mux_lib circuit_lib verilog_dir
    submodule_dir w = (Done tt, w') ->
  declared_names (out w')
  = List.map (branch_name env circuit_lib)
      (List.filter (branch_emits circuit_lib) (branches_of env mux_lib))
  /\ forall b w0 w1,
       dispatch_branch env circuit_lib b w0 = (Done tt, w1) ->
       branch_emits circuit_lib b = true ->
       declared_names (out w1)
       = declared_names (out w0) ++ [branch_name env circuit_lib b]
       /\ find_module (w_module_manager w1) (branch_name env circuit_lib b)
          <> INVALID.
Proof.
  intros H. split.
  - rewrite driver_run in H.
    destruct (bool_decide _); [discriminate|].
    rewrite generate_all_branches_flat in H.
    destruct (for_each (branches_of env mux_lib)
                (dispatch_branch env circuit_lib)
                (started env verilog_dir submodule_dir w))
      as [[[]|f] w3] eqn:E; [|discriminate].
    replace w'
      with (snd (try_update_sram_orgz_info_reserved_blwl
                   (max_mux_size mux_lib) (max_mux_size mux_lib)
                   (snd (fp_close w3)))) by now rewrite H.
    rewrite out_update_after_close.
    now rewrite (dispatch_branches_Done _ _ _ _ _ E).
  - intros b w0 w1 Hb He. split.
    + rewrite (dispatch_branch_Done _ _ _ _ _ Hb). now rewrite He.
    + now apply dispatch_branch_registers with (w := w0).
Qed.

Lemma C1_one_definition_per_branch_handed_over_witness :
  declared_names
    (out (snd (print_verilog_submodule_muxes sample_env one_mux_lib
                 (cmos_lib false) "verilog/" "sub/" sample_world)))
  = ["mux_size4_4_basis"]%string.
Proof.
  refine (proj1 (C1_one_definition_per_branch_handed_over sample_env
                   one_mux_lib (cmos_lib false) "verilog/" "sub/" sample_world
                   _ _)).
  vm_compute. reflexivity.
Defined.

(** C1 as stated fails: the library lists the same multiplexer twice, the
    two branches have the same name, and the pass, which ends, writes two
    definitions of the module of that name. *)
Lemma C1_counterexample :
  let run :=
    print_verilog_submodule_muxes sample_env twice_mux_lib (cmos_lib false)
      "verilog/" "sub/" sample_world in
  fst run = Done tt
  /\ List.map (branch_name sample_env (cmos_lib false))
       (branches_of sample_env twice_mux_lib)
     = ["mux_size4_4_basis"; "mux_size4_4_basis"]%string
  /\ declared_names (out (snd run))
     = ["mux_size4_4_basis"; "mux_size4_4_basis"]%string.
Proof. vm_compute. repeat split. Qed.

(** * Further properties of the generator *)

(** ** Checks come before effects *)

(** X1.  The CMOS generation of a branch module registers nothing and
    writes nothing unless the pass gate is not a logic gate, the stream is
    usable and the graph has one output and one level: when one of the
    four fails the world is left as it was, and the generation ends
    without a fatal stop only in the case of a 2:1 logic-gate multiplexer
    as pass gate. *)
Theorem X1_checks_before_effects circuit_lib circuit_model name g b w :
  is_SPICE_MODEL_GATE
    (model_type circuit_lib (pass_gate_logic_model circuit_lib circuit_model))
  = true
  \/ ~ usable w \/ num_outputs g <> 1 \/ num_levels g <> 1 ->
  let run :=
    generate_verilog_cmos_mux_branch_module circuit_lib circuit_model name g b
      w in
  snd run = w
  /\ (fst run = Done tt <->
      is_SPICE_MODEL_GATE
        (model_type circuit_lib
           (pass_gate_logic_model circuit_lib circuit_model)) = true
      /\ is_SPICE_MODEL_GATE_MUX2
           (gate_type circuit_lib
              (pass_gate_logic_model circuit_lib circuit_model)) = true).
Proof.
  intros H. cbv zeta.
  destruct (is_SPICE_MODEL_GATE _) eqn:Hg.
  - rewrite cmos_gate_run by exact Hg.
    destruct (is_SPICE_MODEL_GATE_MUX2 _); simpl; split; try reflexivity.
    + tauto.
    + split; [discriminate|]. intros [_ ?]. discriminate.
  - destruct H as [H|H]; [discriminate|].
    destruct (fp_usable (w_fp w)) eqn:Hw.
    + destruct H as [H|H]; [exfalso; apply H; exact Hw|].
      rewrite cmos_shape_violation by auto. simpl. split; [reflexivity|].
      split; [discriminate|]. intros [? _]. discriminate.
    + rewrite cmos_unusable; [|exact Hg|unfold usable; now rewrite Hw].
      simpl. split; [reflexivity|].
      split; [discriminate|]. intros [? _]. discriminate.
Qed.

Lemma X1_checks_before_effects_witness :
  snd (generate_verilog_cmos_mux_branch_module (cmos_lib true) 0 "m"
         two_output_graph true open_world) = open_world.
Proof.
  refine (proj1 (X1_checks_before_effects (cmos_lib true) 0 "m"
                   two_output_graph true open_world _)).
  right. right. left. vm_compute. lia.
Defined.

(** ** The checks of the structural body *)

(** X2.  Before it writes anything, the structural body checks that the
    pass gate is registered, then that its model has three input ports,
    then that it has one output port: on a usable stream the first check
    that fails stops the body, and the world is left as it was. *)
Theorem X2_structural_body_checks_pass_gate circuit_lib tgate_model module_id
    input_port output_port mem_port mem_inv_port g w failed :
  usable w ->
  tgate_check circuit_lib tgate_model (w_module_manager w) = Some failed ->
  generate_verilog_cmos_mux_branch_body_structural circuit_lib tgate_model
    module_id input_port output_port mem_port mem_inv_port g w
  = (Fatal (VTR_ASSERT_failed failed), w).
Proof.
  intros Hw Hc.
  unfold generate_verilog_cmos_mux_branch_body_structural.
  rewrite bind_check by exact Hw.
  unfold mm_find_module at 1. unfold bind at 1.
  unfold tgate_check in Hc.
  destruct (find_module (w_module_manager w)
              (model_name circuit_lib tgate_model)) as [tid|].
  - rewrite bool_decide_eq_true_2 by discriminate. rewrite bind_assert.
    cbv zeta.
    destruct (3 =? length (model_ports_by_type circuit_lib tgate_model
                             SPICE_MODEL_PORT_INPUT true))%nat;
      cbn [negb] in Hc.
    + rewrite bind_assert.
      destruct (1 =? length (model_ports_by_type circuit_lib tgate_model
                               SPICE_MODEL_PORT_OUTPUT true))%nat;
        cbn [negb] in Hc; [discriminate|].
      now injection Hc as <-.
    + now injection Hc as <-.
  - rewrite bool_decide_eq_false_2 by (intros H; now apply H).
    now injection Hc as <-.
Qed.

Lemma X2_structural_body_checks_pass_gate_witness :
  generate_verilog_cmos_mux_branch_body_structural (cmos_lib true) 0 (Some 0)
    (BasicPort_sized "in" 4) (BasicPort_sized "out" 1)
    (BasicPort_sized "mem" 4) (BasicPort_sized "mem_inv" 4) sample_graph
    open_world
  = (Fatal (VTR_ASSERT_failed "ModuleId::INVALID() != tgate_module_id"),
     open_world).
Proof.
  apply (X2_structural_body_checks_pass_gate (cmos_lib true) 0 (Some 0)
           (BasicPort_sized "in" 4) (BasicPort_sized "out" 1)
           (BasicPort_sized "mem" 4) (BasicPort_sized "mem_inv" 4)
           sample_graph open_world).
  - reflexivity.
  - reflexivity.
Defined.

(** ** The whole structural module *)

Lemma find_module_from_app k mm l n i :
  find_module_from k mm n = Some i ->
  find_module_from k (mm ++ l) n = Some i.
Proof.
  revert k. induction mm as [|m mm IH]; intros k; simpl; [discriminate|].
  destruct (String.eqb (module_name m) n); [auto|apply IH].
Qed.

Lemma names_alter_add_ports ps i mm :
  List.map module_name (alter (module_add_ports ps) i mm)
  = List.map module_name mm.
Proof.
  revert i. induction mm as [|m mm IH]; intros [|i]; simpl; try reflexivity.
  f_equal. apply IH.
Qed.

Lemma find_module_registered circuit_lib circuit_model name g mm n i :
  find_module mm n = Some i ->
  find_module (register_branch_module circuit_lib circuit_model name g mm) n
  = Some i.
Proof.
  intros H. unfold register_branch_module, find_module.
  rewrite (find_module_from_names 0 _ (snd (add_module mm name)))
    by apply names_alter_add_ports.
  unfold add_module. destruct (find_module mm name); simpl; [exact H|].
  now apply find_module_from_app.
Qed.

Lemma structural_module_run circuit_lib circuit_model name g w tid :
  is_SPICE_MODEL_GATE
    (model_type circuit_lib (pass_gate_logic_model circuit_lib circuit_model))
  = false ->
  usable w ->
  num_outputs g = 1 ->
  num_levels g = 1 ->
  at_most_one_edge_per_pair g = true ->
  find_module (w_module_manager w)
    (model_name circuit_lib (pass_gate_logic_model circuit_lib circuit_model))
  = Some tid ->
  length (model_ports_by_type circuit_lib
            (pass_gate_logic_model circuit_lib circuit_model)
            SPICE_MODEL_PORT_INPUT true) = 3 ->
  length (model_ports_by_type circuit_lib
            (pass_gate_logic_model circuit_lib circuit_model)
            SPICE_MODEL_PORT_OUTPUT true) = 1 ->
  let tgate_model := pass_gate_logic_model circuit_lib circuit_model in
  let id := Some (branch_module_id (w_module_manager w) name) in
  let registered :=
    register_branch_module circuit_lib circuit_model name g
      (w_module_manager w) in
  generate_verilog_cmos_mux_branch_module circuit_lib circuit_model name g
    true w
  = (Done tt,
     set_module_manager
       (match connected_pairs g with
        | [] => registered
        | _ :: _ => add_child_module registered id (Some tid)
        end)
       (emit
          (ModuleDeclaration name
             (ports_of (w_module_manager w)
                (find_module (w_module_manager w) name)
              ++ branch_module_ports circuit_lib circuit_model g)
           :: Comment "---- Structure-level description -----"
           :: List.map
                (fun p =>
                   ModuleInstance id (Some tid)
                     (tgate_port_map (tgate_ports_of circuit_lib tgate_model)
                        "in" "out" "mem" "mem_inv" g p)
                     (dump_explicit_port_map circuit_lib tgate_model))
                (connected_pairs g)
           ++ [ModuleEnd name])
          w)).
Proof.
  intros Hg Hw Ho Hl H1 Hf H3 H1o. cbv zeta.
  rewrite cmos_module_run by assumption.
  set (w1 := declared circuit_lib circuit_model name g w).
  assert (Hw1 : usable w1) by exact Hw.
  assert (Hf1 : find_module (w_module_manager w1)
                  (model_name circuit_lib
                     (pass_gate_logic_model circuit_lib circuit_model))
                = Some tid).
  { subst w1. simpl. now apply find_module_registered. }
  unfold cmos_branch_body.
  rewrite (bind_Done _ _ _ _ _
             (structural_body_run circuit_lib _ _ _ _ _ _ g w1 tid Hw1 Hf1 H3
                H1o H1)).
  rewrite print_verilog_module_end_usable by exact Hw1.
  replace (get_name (BasicPort_sized "in" (num_inputs g))) with "in"
    by now destruct (num_inputs g).
  replace (get_name (BasicPort_sized "out" (num_outputs g))) with "out"
    by now destruct (num_outputs g).
  replace (get_name (BasicPort_sized "mem" (num_memory_bits g))) with "mem"
    by now destruct (num_memory_bits g).
  replace (get_name (BasicPort_sized "mem_inv" (num_memory_bits g)))
    with "mem_inv" by now destruct (num_memory_bits g).
  subst w1. unfold declared, emit, set_fp, set_module_manager. simpl.
  rewrite <- !app_assoc. simpl.
  destruct (connected_pairs g); reflexivity.
Qed.

(** X3.  In structural mode, for a graph with one output, one level and
    at most one edge for each pair, a usable stream and a registered pass
    gate that is not a logic gate and has three input ports and one
    output port, the CMOS generation ends; it writes the declaration of
    the module, the structural comment, one pass-gate instance for each
    connected pair and the end of the module, and it registers the module
    with its ports and, when there is an instance, the pass gate as its
    child.  The configuration ports of the model are not looked at. *)
Theorem X3_structural_module circuit_lib circuit_model name g w tid :
  is_SPICE_MODEL_GATE
    (model_type circuit_lib (pass_gate_logic_model circuit_lib circuit_model))
  = false ->
  usable w ->
  num_outputs g = 1 ->
  num_levels g = 1 ->
  at_most_one_edge_per_pair g = true ->
  find_module (w_module_manager w)
    (model_name circuit_lib (pass_gate_logic_model circuit_lib circuit_model))
  = Some tid ->
  length (model_ports_by_type circuit_lib
            (pass_gate_logic_model circuit_lib circuit_model)
            SPICE_MODEL_PORT_INPUT true) = 3 ->
  length (model_ports_by_type circuit_lib
            (pass_gate_logic_model circuit_lib circuit_model)
            SPICE_MODEL_PORT_OUTPUT true) = 1 ->
  let tgate_model := pass_gate_logic_model circuit_lib circuit_model in
  let id := Some (branch_module_id (w_module_manager w) name) in
  let registered :=
    register_branch_module circuit_lib circuit_model name g
      (w_module_manager w) in
  generate_verilog_cmos_mux_branch_module circuit_lib circuit_model name g
    true w
  = (Done tt,
     set_module_manager
       (match connected_pairs g with
        | [] => registered
        | _ :: _ => add_child_module registered id (Some tid)
        end)
       (emit
          (ModuleDeclaration name
             (ports_of (w_module_manager w)
                (find_module (w_module_manager w) name)
              ++ branch_module_ports circuit_lib circuit_model g)
           :: Comment "---- Structure-level description -----"
           :: List.map
                (fun p =>
                   ModuleInstance id (Some tid)
                     (tgate_port_map (tgate_ports_of circuit_lib tgate_model)
                        "in" "out" "mem" "mem_inv" g p)
                     (dump_explicit_port_map circuit_lib tgate_model))
                (connected_pairs g)
           ++ [ModuleEnd name])
          w)).
Proof. apply structural_module_run. Qed.

Lemma X3_structural_module_witness :
  exists w',
    generate_verilog_cmos_mux_branch_module (cmos_lib true) 0 "m" sample_graph
      true open_world = (Done tt, w')
    /\ length (out w') = 7
    /\ children_of (w_module_manager w') (Some 1) = {[0]}.
Proof.
  eexists. split.
  - apply (X3_structural_module (cmos_lib true) 0 "m" sample_graph open_world
             0); reflexivity.
  - split; vm_compute; reflexivity.
Defined.

(** ** The modules that the dispatch generates *)

Lemma behavioral_module_run circuit_lib circuit_model name g w port c :
  is_SPICE_MODEL_GATE
    (model_type circuit_lib (pass_gate_logic_model circuit_lib circuit_model))
  = false ->
  usable w ->
  num_outputs g = 1 ->
  num_levels g = 1 ->
  at_most_one_edge_per_pair g = true ->
  mems_below (num_memory_bits g) g = true ->
  non_mode_select_sram_ports circuit_lib circuit_model = [port] ->
  to_string (port_default_value circuit_lib port) = String c EmptyString ->
  exists codes,
    generate_verilog_cmos_mux_branch_module circuit_lib circuit_model name g
      false w
    = (Done tt,
       emit
         ((behavioral_header (BasicPort_sized "in" (num_inputs g))
             (BasicPort_sized "mem" (num_memory_bits g))
             (BasicPort_sized "out_reg" (num_outputs g))
           ++ flat_map
                (case_entry (num_memory_bits g)
                   (BasicPort_sized "out_reg" (num_outputs g)) "in" g)
                (combine (connected_pairs g) codes)
           ++ behavioral_footer (BasicPort_sized "out" (num_outputs g))
                (BasicPort_sized "out_reg" (num_outputs g)) (num_outputs g))
          ++ [ModuleEnd name])
         (declared circuit_lib circuit_model name g w))
    /\ Forall2
         (fun p code =>
            exists ed, edge_of g p = Some ed /\
                       case_code_spec (num_memory_bits g) c ed code)
         (connected_pairs g) codes.
Proof.
  intros Hg Hw Ho Hl H1 Hm Hp Hv.
  set (w1 := declared circuit_lib circuit_model name g w).
  assert (Hw1 : usable w1) by exact Hw.
  destruct (behavioral_body_spec (BasicPort_sized "in" (num_inputs g))
              (BasicPort_sized "out" (num_outputs g))
              (BasicPort_sized "mem" (num_memory_bits g)) g (nat_of_ascii c)
              w1 Hw1 H1) as (codes & Hrun & Hcodes).
  { now rewrite get_width_sized. }
  rewrite get_width_sized, ascii_nat_embedding in Hcodes.
  exists codes. split; [|exact Hcodes].
  rewrite cmos_module_run by assumption. fold w1.
  unfold cmos_branch_body. rewrite Hp. simpl length. simpl nth.
  rewrite Hv. simpl String.length.
  change (1 =? 1)%nat with true. rewrite !bind_assoc, !bind_assert.
  rewrite (bind_Done _ _ _ _ _ Hrun).
  rewrite print_verilog_module_end_usable by exact Hw1.
  rewrite emit_emit, get_width_sized.
  replace (get_name (BasicPort_sized "in" (num_inputs g))) with "in"
    by now destruct (num_inputs g).
  reflexivity.
Qed.

(** C6.  The generation of a branch module looks at the design technology
    of the circuit model of the multiplexer, and knows two.  Under CMOS it
    is the CMOS generation with the flag [dump_structural_verilog] of the
    model as mode.  A module generated to its end has its declaration
    followed by the structural body when the flag is set and by the
    behavioural body when it is not.  And it is generated to its end: for
    a pass gate that is not a logic gate, a usable stream and a graph with
    one output, one level and at most one edge for each pair, with the
    flag set and the pass gate registered with three input ports and one
    output port, the generation ends and writes the declaration, the
    structural comment, one pass-gate instance for each connected pair and
    the end of the module; with the flag not set, the memory bits in
    range and one configuration port that is not a mode-select port, of a
    one-character default, it ends and writes the declaration, the
    behavioural text with one case entry for each connected pair and the
    end of the module.  Under RRAM it ends at once and leaves the world as
    it was: nothing is written and nothing is registered.  Under any other
    value it stops with [exit(1)], the world as it was. *)
Theorem C6_technology_dispatch env circuit_lib circuit_model mux_size g w :
  let name :=
    generate_verilog_mux_branch_subckt_name env circuit_lib circuit_model
      mux_size (num_inputs g) (verilog_mux_basis_posfix env) in
  let run :=
    generate_verilog_mux_branch_module env circuit_lib circuit_model mux_size
      g w in
  let tgate_model := pass_gate_logic_model circuit_lib circuit_model in
  let id := Some (branch_module_id (w_module_manager w) name) in
  let registered :=
    register_branch_module circuit_lib circuit_model name g
      (w_module_manager w) in
  match design_tech_type circuit_lib circuit_model with
  | SPICE_MODEL_DESIGN_CMOS =>
      run
      = generate_verilog_cmos_mux_branch_module circuit_lib circuit_model name
          g (dump_structural_verilog circuit_lib circuit_model) w
      /\ (is_SPICE_MODEL_GATE (model_type circuit_lib tgate_model) = false ->
          forall w', run = (Done tt, w') ->
          exists rest,
            out w'
            = out w
              ++ ModuleDeclaration name
                   (ports_of (w_module_manager w)
                      (find_module (w_module_manager w) name)
                    ++ branch_module_ports circuit_lib circuit_model g)
                 :: Comment
                      (if dump_structural_verilog circuit_lib circuit_model
                       then "---- Structure-level description -----"
                       else "---- Behavioral-level description -----")
                 :: rest
            /\ forallb not_declaration rest = true)
      /\ (is_SPICE_MODEL_GATE (model_type circuit_lib tgate_model) = false ->
          usable w ->
          num_outputs g = 1 ->
          num_levels g = 1 ->
          at_most_one_edge_per_pair g = true ->
          if dump_structural_verilog circuit_lib circuit_model
          then
            forall tid,
              find_module (w_module_manager w)
                (model_name circuit_lib tgate_model) = Some tid ->
              length (model_ports_by_type circuit_lib tgate_model
                        SPICE_MODEL_PORT_INPUT true) = 3 ->
              length (model_ports_by_type circuit_lib tgate_model
                        SPICE_MODEL_PORT_OUTPUT true) = 1 ->
              run
              = (Done tt,
                 set_module_manager
                   (match connected_pairs g with
                    | [] => registered
                    | _ :: _ => add_child_module registered id (Some tid)
                    end)
                   (emit
                      (ModuleDeclaration name
                         (ports_of (w_module_manager w)
                            (find_module (w_module_manager w) name)
                          ++ branch_module_ports circuit_lib circuit_model g)
                       :: Comment "---- Structure-level description -----"
                       :: List.map
                            (fun p =>
                               ModuleInstance id (Some tid)
                                 (tgate_port_map
                                    (tgate_ports_of circuit_lib tgate_model)
                                    "in" "out" "mem" "mem_inv" g p)
                                 (dump_explicit_port_map circuit_lib
                                    tgate_model))
                            (connected_pairs g)
                       ++ [ModuleEnd name])
                      w))
          else
            forall port c,
              mems_below (num_memory_bits g) g = true ->
              non_mode_select_sram_ports circuit_lib circuit_model = [port] ->
              to_string (port_default_value circuit_lib port)
              = String c EmptyString ->
              exists codes,
                run
                = (Done tt,
                   emit
                     ((behavioral_header
                         (BasicPort_sized "in" (num_inputs g))
                         (BasicPort_sized "mem" (num_memory_bits g))
                         (BasicPort_sized "out_reg" (num_outputs g))
                       ++ flat_map
                            (case_entry (num_memory_bits g)
                               (BasicPort_sized "out_reg" (num_outputs g))
                               "in" g)
                            (combine (connected_pairs g) codes)
                       ++ behavioral_footer
                            (BasicPort_sized "out" (num_outputs g))
                            (BasicPort_sized "out_reg" (num_outputs g))
                            (num_outputs g))
                      ++ [ModuleEnd name])
                     (declared circuit_lib circuit_model name g w))
                /\ Forall2
                     (fun p code =>
                        exists ed, edge_of g p = Some ed /\
                                   case_code_spec (num_memory_bits g) c ed
                                     code)
                     (connected_pairs g) codes)
  | SPICE_MODEL_DESIGN_RRAM => run = (Done tt, w)
  | SPICE_MODEL_DESIGN_other _ =>
      run
      = (Fatal
           (exit_1
              ("Invalid design technology of multiplexer (name: "
               ++ model_name circuit_lib circuit_model ++ ")")),
         w)
  end.
Proof.
  cbv zeta. unfold generate_verilog_mux_branch_module.
  destruct (design_tech_type circuit_lib circuit_model); try reflexivity.
  split; [reflexivity|]. split.
  - intros Hg w' H. now apply cmos_module_Done in H.
  - intros Hg Hw Ho Hl H1.
    destruct (dump_structural_verilog circuit_lib circuit_model).
    + intros tid Hf H3 H1o. now apply structural_module_run.
    + intros port c Hm Hp Hv. now apply behavioral_module_run with port.
Qed.

Lemma C6_technology_dispatch_witness :
  (exists w',
     generate_verilog_mux_branch_module sample_env (cmos_lib true) 0 4
       sample_graph open_world = (Done tt, w')
     /\ count_instances (out w') = 4
     /\ last (out w') = Some (ModuleEnd "mux_size4_4_basis"))
  /\ (exists codes,
        fst (generate_verilog_mux_branch_module sample_env (cmos_lib false) 0
               4 sample_graph open_world) = Done tt
        /\ Forall2
             (fun p code =>
                exists ed, edge_of sample_graph p = Some ed /\
                           case_code_spec 4 "0" ed code)
             (connected_pairs sample_graph) codes).
Proof.
  split.
  - pose proof (C6_technology_dispatch sample_env (cmos_lib true) 0 4
                  sample_graph open_world) as H.
    cbv zeta in H. change (design_tech_type (cmos_lib true) 0)
      with SPICE_MODEL_DESIGN_CMOS in H. cbv iota in H.
    destruct H as (_ & _ & H).
    change (dump_structural_verilog (cmos_lib true) 0) with true in H.
    cbv iota in H. eexists. split.
    + apply (H eq_refl eq_refl eq_refl eq_refl eq_refl 0); reflexivity.
    + split; vm_compute; reflexivity.
  - pose proof (C6_technology_dispatch sample_env (cmos_lib false) 0 4
                  sample_graph open_world) as H.
    cbv zeta in H. change (design_tech_type (cmos_lib false) 0)
      with SPICE_MODEL_DESIGN_CMOS in H. cbv iota in H.
    destruct H as (_ & _ & H).
    change (dump_structural_verilog (cmos_lib false) 0) with false in H.
    cbv iota in H.
    destruct (H eq_refl eq_refl eq_refl eq_refl eq_refl 20 "0"%char eq_refl
                eq_refl eq_refl) as (codes & Hrun & Hcodes).
    exists codes. split; [now rewrite Hrun|exact Hcodes].
Defined.

(** ** Two edges on one pair *)

Lemma split_first_false {A} (ok : A -> bool) (l : list A) :
  forallb ok l = false ->
  exists l1 x l2,
    l = l1 ++ x :: l2 /\ forallb ok l1 = true /\ ok x = false.
Proof.
  induction l as [|a l IH]; simpl; [discriminate|].
  destruct (ok a) eqn:Ha; simpl.
  - intros H. destruct (IH H) as (l1 & x & l2 & -> & H1 & Hx).
    exists (a :: l1), x, l2. simpl. now rewrite Ha, H1.
  - intros _. exists [], a, l. auto.
Qed.

Lemma assert_edges_fails {B} (n : nat) (k : unit -> M B) w :
  2 <= n ->
  bind (VTR_ASSERT "(1 == edges.size()) || (0 == edges.size())"
          ((1 =? n)%nat || (0 =? n)%nat)) k w
  = (Fatal
       (VTR_ASSERT_failed "(1 == edges.size()) || (0 == edges.size())"),
     w).
Proof.
  intros Hn. destruct n as [|[|n]]; [lia|lia|reflexivity].
Qed.

(** X4.  When a pair of the graph has two edges or more, the structural
    body stops on the failed assertion of the edges at the first such
    pair, in loop order; the instances of the pairs before it are written
    and stay in the stream, and nothing is written for the pairs after
    it. *)
Theorem X4_structural_body_stops_on_double_edge circuit_lib tgate_model
    module_id input_port output_port mem_port mem_inv_port g w tid :
  usable w ->
  find_module (w_module_manager w) (model_name circuit_lib tgate_model)
    = Some tid ->
  length (model_ports_by_type circuit_lib tgate_model SPICE_MODEL_PORT_INPUT
            true) = 3 ->
  length (model_ports_by_type circuit_lib tgate_model SPICE_MODEL_PORT_OUTPUT
            true) = 1 ->
  at_most_one_edge_per_pair g = false ->
  exists before p after w',
    all_pairs g = before ++ p :: after
    /\ forallb (fun q => length (find_edges g (fst q) (snd q)) <=? 1)%nat
         before = true
    /\ 2 <= length (find_edges g (fst p) (snd p))
    /\ generate_verilog_cmos_mux_branch_body_structural circuit_lib
         tgate_model module_id input_port output_port mem_port mem_inv_port g
         w
       = (Fatal
            (VTR_ASSERT_failed "(1 == edges.size()) || (0 == edges.size())"),
          w')
    /\ out w'
       = out w
         ++ Comment "---- Structure-level description -----"
            :: List.map
                 (fun q =>
                    ModuleInstance module_id (Some tid)
                      (tgate_port_map (tgate_ports_of circuit_lib tgate_model)
                         (get_name input_port) (get_name output_port)
                         (get_name mem_port) (get_name mem_inv_port) g q)
                      (dump_explicit_port_map circuit_lib tgate_model))
                 (List.filter (connected g) before).
Proof.
  intros Hw Hf H3 H1 Hbad.
  destruct (split_first_false _ _ Hbad) as (before & p & after & Hsplit & Hok
                                            & Hp).
  apply Nat.leb_gt in Hp.
  exists before, p, after.
  unfold generate_verilog_cmos_mux_branch_body_structural.
  rewrite bind_check by exact Hw.
  unfold mm_find_module at 1. unfold bind at 1. rewrite Hf.
  rewrite H3, H1. change (3 =? 3)%nat with true. change (1 =? 1)%nat with true.
  rewrite bool_decide_eq_true_2 by discriminate.
  rewrite !bind_assert. rewrite bind_comment by exact Hw.
  cbv zeta. rewrite for_each_pairs, Hsplit, for_each_app.
  match goal with
  | |- context [bind (for_each before ?b) _ ?w0] =>
      destruct (for_each_Done
                  (fun q w1 =>
                     if connected g q
                     then set_module_manager
                            (add_child_module (w_module_manager w1) module_id
                               (Some tid))
                            (emit
                               [ModuleInstance module_id (Some tid)
                                  (tgate_port_map
                                     (tgate_ports_of circuit_lib tgate_model)
                                     (get_name input_port)
                                     (get_name output_port)
                                     (get_name mem_port)
                                     (get_name mem_inv_port) g q)
                                  (dump_explicit_port_map circuit_lib
                                     tgate_model)] w1)
                     else w1)
                  b before w0 Hw) as [E U]
  end.
  { intros q w1 Hq Hw1. cbv beta.
    rewrite forallb_forall in Hok. specialize (Hok q Hq).
    apply Nat.leb_le in Hok.
    pose proof (find_edges_connected g q) as Hc.
    destruct (find_edges g (fst q) (snd q)) as [|e [|e' r]] eqn:Ee;
      simpl in Hok, Hc; [| |lia]; rewrite Hc.
    - split; [reflexivity|exact Hw1].
    - split; [|exact Hw1].
      simpl length. simpl Nat.eqb. simpl orb. rewrite bind_assert.
      rewrite (bind_Done _ _ _ _ _
                 (print_verilog_module_instance_usable _ _ _ _ _ Hw1)).
      unfold mm_add_child_module, tgate_port_map, tgate_ports_of, slice.
      rewrite Ee. reflexivity. }
  rewrite (bind_Done _ _ _ _ _ E). rewrite foldl_structural.
  cbn [for_each]. rewrite bind_assoc.
  eexists. split; [reflexivity|]. split; [exact Hok|]. split; [exact Hp|].
  split; [now apply assert_edges_fails|].
  unfold out. simpl. now rewrite <- app_assoc.
Qed.

Lemma X4_structural_body_stops_on_double_edge_witness :
  exists w',
    generate_verilog_cmos_mux_branch_body_structural (cmos_lib true) 1
      (Some 0) (BasicPort_sized "in" 2) (BasicPort_sized "out" 1)
      (BasicPort_sized "mem" 2) (BasicPort_sized "mem_inv" 2)
      double_edge_graph open_world
    = (Fatal
         (VTR_ASSERT_failed "(1 == edges.size()) || (0 == edges.size())"),
       w').
Proof.
  destruct (X4_structural_body_stops_on_double_edge (cmos_lib true) 1 (Some 0)
              (BasicPort_sized "in" 2) (BasicPort_sized "out" 1)
              (BasicPort_sized "mem" 2) (BasicPort_sized "mem_inv" 2)
              double_edge_graph open_world 0)
    as (_ & _ & _ & w' & _ & _ & _ & H & _);
    [reflexivity|reflexivity|reflexivity|reflexivity|reflexivity|].
  exists w'. exact H.
Defined.

(** X5.  When a pair of the graph has two edges or more, the behavioural
    body stops on the failed assertion of the edges at the first such
    pair: the header of the case table and the entries of the pairs
    before it are written, and neither the default case nor [endcase] nor
    the assignment of the output follows. *)
Theorem X5_behavioral_body_stops_on_double_edge input_port output_port
    mem_port g d w :
  usable w ->
  mems_below (get_width mem_port) g = true ->
  at_most_one_edge_per_pair g = false ->
  exists before p after w',
    all_pairs g = before ++ p :: after
    /\ forallb (fun q => length (find_edges g (fst q) (snd q)) <=? 1)%nat
         before = true
    /\ 2 <= length (find_edges g (fst p) (snd p))
    /\ generate_verilog_cmos_mux_branch_body_behavioral input_port
         output_port mem_port g d w
       = (Fatal
            (VTR_ASSERT_failed "(1 == edges.size()) || (0 == edges.size())"),
          w')
    /\ out w'
       = out w
         ++ behavioral_header input_port mem_port
              (BasicPort_sized "out_reg" (num_outputs g))
         ++ flat_map
              (fun q =>
                 case_entry (get_width mem_port)
                   (BasicPort_sized "out_reg" (num_outputs g))
                   (get_name input_port) g
                   (q, case_code_of (get_width mem_port) d g q))
              (List.filter (connected g) before).
Proof.
  intros Hw Hm Hbad.
  destruct (split_first_false _ _ Hbad) as (before & p & after & Hsplit & Hok
                                            & Hp).
  apply Nat.leb_gt in Hp.
  exists before, p, after.
  unfold generate_verilog_cmos_mux_branch_body_behavioral.
  rewrite bind_check by exact Hw. rewrite bind_comment by exact Hw.
  cbv zeta. rewrite !bind_puts by exact Hw.
  rewrite bind_for_each_pairs, Hsplit.
  match goal with
  | |- context [bind (for_each (before ++ p :: after) ?b) ?k ?w0] =>
      assert (Hloop :
                exists w1,
                  for_each (before ++ p :: after) b w0
                  = (Fatal
                       (VTR_ASSERT_failed
                          "(1 == edges.size()) || (0 == edges.size())"), w1)
                  /\ out w1
                     = out w0
                       ++ flat_map
                            (fun q =>
                               case_entry (get_width mem_port)
                                 (BasicPort_sized "out_reg" (num_outputs g))
                                 (get_name input_port) g
                                 (q, case_code_of (get_width mem_port) d g q))
                            (List.filter (connected g) before));
        [rewrite for_each_app;
         destruct (for_each_Done
                     (fun q =>
                        emit (if connected g q
                              then case_entry (get_width mem_port)
                                     (BasicPort_sized "out_reg"
                                        (num_outputs g))
                                     (get_name input_port) g
                                     (q, case_code_of (get_width mem_port) d g
                                           q)
                              else []))
                     b before w0 Hw) as [E U]|]
  end.
  { intros q w1 Hq Hw1. split; [|exact Hw1]. cbv beta.
    rewrite forallb_forall in Hok. specialize (Hok q Hq).
    apply Nat.leb_le in Hok.
    pose proof (find_edges_connected g q) as Hc.
    destruct (find_edges g (fst q) (snd q)) as [|e [|e' r]] eqn:Ee;
      simpl in Hok, Hc; [| |lia].
    - rewrite Hc. simpl. now rewrite emit_nil.
    - rewrite Hc. simpl length. simpl Nat.eqb. simpl orb. rewrite bind_assert.
      simpl nth.
      destruct (find_edges_head g (fst q) (snd q) e [] Ee)
        as (ed & Hed & -> & ->).
      destruct (case_code_of_spec (get_width mem_port) d g q Hm Hc)
        as (ed' & Hed' & Hset & _).
      rewrite <- surjective_pairing in Hed. rewrite Hed in Hed'.
      injection Hed' as <-.
      rewrite bind_puts by exact Hw1.
      set (w2 := emit [Str (tab ++ tab); Num (get_width mem_port); Str "'b"]
                   w1).
      assert (Hs : (if negb (edge_inv ed)
                    then string_assign
                           (string_fill (get_width mem_port) (ascii_of_nat d))
                           (edge_mem ed) "1"%char
                    else string_assign
                           (string_fill (get_width mem_port) (ascii_of_nat d))
                           (edge_mem ed) "0"%char) w2
                   = (Done (case_code_of (get_width mem_port) d g q), w2)).
      { unfold string_assign. destruct (edge_inv ed); simpl in *;
          now rewrite Hset. }
      rewrite (bind_Done _ _ _ _ _ Hs). subst w2.
      rewrite bind_puts by exact Hw1. rewrite puts_usable by exact Hw1.
      rewrite !emit_emit. reflexivity. }
  { rewrite (bind_Done _ _ _ _ _ E). rewrite foldl_emit.
    cbn [for_each]. rewrite bind_assoc. eexists. split.
    - now apply assert_edges_fails.
    - rewrite out_emit. now rewrite flat_map_filter. }
  destruct Hloop as (w1 & Hrun & Hout).
  exists w1. split; [reflexivity|]. split; [exact Hok|]. split; [exact Hp|].
  split; [now apply bind_Fatal|].
  rewrite Hout. unfold out, behavioral_header. simpl.
  rewrite <- !app_assoc. reflexivity.
Qed.

Lemma X5_behavioral_body_stops_on_double_edge_witness :
  exists w',
    generate_verilog_cmos_mux_branch_body_behavioral (BasicPort_sized "in" 2)
      (BasicPort_sized "out" 1) (BasicPort_sized "mem" 2) double_edge_graph
      (nat_of_ascii "0") open_world
    = (Fatal
         (VTR_ASSERT_failed "(1 == edges.size()) || (0 == edges.size())"),
       w').
Proof.
  destruct (X5_behavioral_body_stops_on_double_edge (BasicPort_sized "in" 2)
              (BasicPort_sized "out" 1) (BasicPort_sized "mem" 2)
              double_edge_graph (nat_of_ascii "0") open_world)
    as (_ & _ & _ & w' & _ & _ & _ & H & _);
    [reflexivity|reflexivity|reflexivity|].
  exists w'. exact H.
Defined.

(** ** The default value as one digit *)

Lemma to_string_digit n :
  n < 10 -> to_string n = String (ascii_of_nat (48 + n)) EmptyString.
Proof.
  intros H. do 10 (destruct n as [|n]; [reflexivity|]). lia.
Qed.

Lemma string_of_uint_empty d :
  NilEmpty.string_of_uint d = EmptyString -> d = Decimal.Nil.
Proof. destruct d; simpl; [reflexivity|discriminate..]. Qed.

Lemma to_string_one_char n : String.length (to_string n) = 1 -> n < 10.
Proof.
  unfold to_string. intros H.
  rewrite <- (DecimalNat.Unsigned.of_to n).
  destruct (Nat.to_uint n) as [|d|d|d|d|d|d|d|d|d|d]; simpl in H;
    [discriminate|..];
    injection H as H;
    (assert (E : NilEmpty.string_of_uint d = EmptyString)
       by (destruct (NilEmpty.string_of_uint d); [reflexivity|discriminate]));
    apply string_of_uint_empty in E; subst d; vm_compute; lia.
Qed.

(** X6.  In behavioural mode, when the only configuration port of the
    model that is not a mode-select port has a default value of 10 or
    more, the generation stops on the failed assertion of the length of
    its text, after the declaration of the module is written and before
    the body. *)
Theorem X6_default_value_of_two_digits_stops circuit_lib circuit_model name g
    w port :
  is_SPICE_MODEL_GATE
    (model_type circuit_lib (pass_gate_logic_model circuit_lib circuit_model))
  = false ->
  usable w ->
  num_outputs g = 1 ->
  num_levels g = 1 ->
  non_mode_select_sram_ports circuit_lib circuit_model = [port] ->
  10 <= port_default_value circuit_lib port ->
  generate_verilog_cmos_mux_branch_module circuit_lib circuit_model name g
    false w
  = (Fatal (VTR_ASSERT_failed "1 == mem_default_val.length()"),
     declared circuit_lib circuit_model name g w).
Proof.
  intros Hg Hw Ho Hl Hp Hv.
  rewrite cmos_module_run by assumption.
  unfold cmos_branch_body. rewrite Hp. simpl length. simpl nth.
  change (1 =? 1)%nat with true. rewrite !bind_assoc, bind_assert.
  destruct (Nat.eqb_spec 1
              (String.length (to_string (port_default_value circuit_lib port))))
    as [E|E]; [|reflexivity].
  symmetry in E. apply to_string_one_char in E. lia.
Qed.

Lemma X6_default_value_of_two_digits_stops_witness :
  generate_verilog_cmos_mux_branch_module (default_value_lib 12) 0 "m"
    sample_graph false open_world
  = (Fatal (VTR_ASSERT_failed "1 == mem_default_val.length()"),
     declared (default_value_lib 12) 0 "m" sample_graph open_world).
Proof.
  apply (X6_default_value_of_two_digits_stops (default_value_lib 12) 0 "m"
           sample_graph open_world 20).
  - reflexivity.
  - reflexivity.
  - reflexivity.
  - reflexivity.
  - reflexivity.
  - vm_compute. lia.
Defined.

(** X7.  In behavioural mode, when the only configuration port of the
    model that is not a mode-select port has a default value [v] below
    10, the module is generated to its end and every case literal has the
    decimal digit of [v] at each position but the one of the memory bit of
    its edge. *)
Theorem X7_default_is_the_digit_of_the_value circuit_lib circuit_model name g
    w port :
  is_SPICE_MODEL_GATE
    (model_type circuit_lib (pass_gate_logic_model circuit_lib circuit_model))
  = false ->
  usable w ->
  num_outputs g = 1 ->
  num_levels g = 1 ->
  at_most_one_edge_per_pair g = true ->
  mems_below (num_memory_bits g) g = true ->
  non_mode_select_sram_ports circuit_lib circuit_model = [port] ->
  port_default_value circuit_lib port < 10 ->
  exists codes,
    generate_verilog_cmos_mux_branch_module circuit_lib circuit_model name g
      false w
    = (Done tt,
       emit
         ((behavioral_header (BasicPort_sized "in" (num_inputs g))
             (BasicPort_sized "mem" (num_memory_bits g))
             (BasicPort_sized "out_reg" (num_outputs g))
           ++ flat_map
                (case_entry (num_memory_bits g)
                   (BasicPort_sized "out_reg" (num_outputs g)) "in" g)
                (combine (connected_pairs g) codes)
           ++ behavioral_footer (BasicPort_sized "out" (num_outputs g))
                (BasicPort_sized "out_reg" (num_outputs g)) (num_outputs g))
          ++ [ModuleEnd name])
         (declared circuit_lib circuit_model name g w))
    /\ Forall2
         (fun p code =>
            exists ed, edge_of g p = Some ed /\
                       case_code_spec (num_memory_bits g)
                         (ascii_of_nat
                            (48 + port_default_value circuit_lib port))
                         ed code)
         (connected_pairs g) codes.
Proof.
  intros Hg Hw Ho Hl H1 Hm Hp Hv.
  set (w1 := declared circuit_lib circuit_model name g w).
  assert (Hw1 : usable w1) by exact Hw.
  destruct (behavioral_body_spec (BasicPort_sized "in" (num_inputs g))
              (BasicPort_sized "out" (num_outputs g))
              (BasicPort_sized "mem" (num_memory_bits g)) g
              (nat_of_ascii
                 (ascii_of_nat (48 + port_default_value circuit_lib port)))
              w1 Hw1 H1) as (codes & Hrun & Hcodes).
  { now rewrite get_width_sized. }
  rewrite get_width_sized, ascii_nat_embedding in Hcodes.
  exists codes. split; [|exact Hcodes].
  rewrite cmos_module_run by assumption. fold w1.
  unfold cmos_branch_body. rewrite Hp. simpl length. simpl nth.
  rewrite (to_string_digit _ Hv). simpl String.length.
  change (1 =? 1)%nat with true. rewrite !bind_assoc, !bind_assert.
  rewrite (bind_Done _ _ _ _ _ Hrun).
  rewrite print_verilog_module_end_usable by exact Hw1.
  rewrite emit_emit, get_width_sized.
  replace (get_name (BasicPort_sized "in" (num_inputs g))) with "in"
    by now destruct (num_inputs g).
  reflexivity.
Qed.

Lemma X7_default_is_the_digit_of_the_value_witness :
  exists codes,
    fst (generate_verilog_cmos_mux_branch_module (default_value_lib 7) 0 "m"
           sample_graph false open_world) = Done tt
    /\ Forall2
         (fun p code =>
            exists ed, edge_of sample_graph p = Some ed /\
                       case_code_spec 4 "7"%char ed code)
         (connected_pairs sample_graph) codes.
Proof.
  destruct (X7_default_is_the_digit_of_the_value (default_value_lib 7) 0 "m"
              sample_graph open_world 20)
    as (codes & Hrun & Hcodes);
    [reflexivity|reflexivity|reflexivity|reflexivity|reflexivity|reflexivity
    |reflexivity|vm_compute; lia|].
  exists codes. split; [now rewrite Hrun|exact Hcodes].
Defined.

(** ** Passes that write no module *)

(** X8.  When the system refuses to create the staging file, the driver
    stops with [exit(1)] at the check of the stream, before the header is
    written: the stream stays closed, nothing is registered, no file is
    touched and the reserved lines are not updated. *)
Theorem X8_staging_file_cannot_be_created env mux_lib circuit_lib verilog_dir
    submodule_dir w :
  staging_file_name env submodule_dir ∈ w_unwritable w ->
  print_verilog_submodule_muxes env mux_lib circuit_lib verilog_dir
    submodule_dir w
  = (Fatal (exit_1 "Fail to create a file!"),
     mkWorld (w_module_manager w)
       (mkfstream (staging_file_name env submodule_dir) false false [])
       (w_files w) (w_unwritable w) (w_reserved_blwl w)).
Proof.
  intros H. rewrite driver_run. now rewrite bool_decide_eq_true_2.
Qed.

Lemma X8_staging_file_cannot_be_created_witness :
  fst (print_verilog_submodule_muxes sample_env one_mux_lib (cmos_lib false)
         "verilog/" "sub/"
         (mkWorld [] (mkfstream "" false true []) ∅ {["sub/muxes.v.bak"]} []))
  = Fatal (exit_1 "Fail to create a file!").
Proof.
  rewrite (X8_staging_file_cannot_be_created sample_env one_mux_lib
             (cmos_lib false) "verilog/" "sub/"
             (mkWorld [] (mkfstream "" false true []) ∅ {["sub/muxes.v.bak"]}
                [])).
  - reflexivity.
  - vm_compute. reflexivity.
Defined.

Lemma dispatch_skipped env circuit_lib b w :
  branch_skipped circuit_lib b = true ->
  dispatch_branch env circuit_lib b w = (Done tt, w).
Proof.
  unfold branch_skipped, dispatch_branch, generate_verilog_mux_branch_module.
  destruct (design_tech_type circuit_lib (fst (fst b)));
    [|reflexivity|discriminate].
  intros H. apply andb_prop in H as [Hg Hm].
  rewrite cmos_gate_run by exact Hg. now rewrite Hm.
Qed.

Lemma all_skipped env circuit_lib bs w :
  forallb (branch_skipped circuit_lib) bs = true ->
  for_each bs (dispatch_branch env circuit_lib) w = (Done tt, w).
Proof.
  induction bs as [|b bs IH]; simpl; [reflexivity|].
  intros H. apply andb_prop in H as [Hb Hbs].
  rewrite (bind_Done _ _ _ _ _ (dispatch_skipped env circuit_lib b w Hb)).
  now apply IH.
Qed.

(** X9.  When every branch of the library is of an RRAM model or of a CMOS
    model with a 2:1 logic-gate multiplexer as pass gate, and the staging
    file can be created, the pass ends: the netlist holds the header and
    the include section and no module, nothing is registered, and the
    reserved lines are still updated with the largest multiplexer size of
    the library. *)
Theorem X9_pass_without_module env mux_lib circuit_lib verilog_dir
    submodule_dir w :
  staging_file_name env submodule_dir ∉ w_unwritable w ->
  forallb (branch_skipped circuit_lib) (branches_of env mux_lib) = true ->
  print_verilog_submodule_muxes env mux_lib circuit_lib verilog_dir
    submodule_dir w
  = (Done tt,
     mkWorld (w_module_manager w)
       (mkfstream (staging_file_name env submodule_dir) false true
          [FileHeader "Multiplexers"; IncludeDefines verilog_dir])
       (<[staging_file_name env submodule_dir
            := [FileHeader "Multiplexers"; IncludeDefines verilog_dir]]>
          (w_files w))
       (w_unwritable w)
       (w_reserved_blwl w ++ [(max_mux_size mux_lib, max_mux_size mux_lib)])).
Proof.
  intros Hu Hs. rewrite driver_run. rewrite bool_decide_eq_false_2 by exact Hu.
  rewrite generate_all_branches_flat, all_skipped by exact Hs. reflexivity.
Qed.

Lemma X9_pass_without_module_witness :
  w_reserved_blwl
    (snd (print_verilog_submodule_muxes sample_env one_mux_lib rram_lib
            "verilog/" "sub/" sample_world))
  = [(4, 4)].
Proof.
  rewrite (X9_pass_without_module sample_env one_mux_lib rram_lib "verilog/"
             "sub/" sample_world).
  - reflexivity.
  - vm_compute. intros H. discriminate H.
  - reflexivity.
Defined.

(** ** Registered modules stay registered *)

Lemma names_alter (f : Module -> Module) i (mm : ModuleManager) :
  (forall m, module_name (f m) = module_name m) ->
  List.map module_name (alter f i mm) = List.map module_name mm.
Proof.
  intros Hf. revert i.
  induction mm as [|m mm IH]; intros [|i]; simpl; try reflexivity.
  - now rewrite Hf.
  - f_equal. apply IH.
Qed.

Lemma names_kept_put mm0 c : preserves (names_kept mm0) (put c).
Proof. intros w H. exact H. Qed.

Lemma names_kept_add_module mm0 n :
  preserves (names_kept mm0) (mm_add_module n).
Proof.
  intros w [l Hl]. unfold mm_add_module, add_module.
  destruct (find_module (w_module_manager w) n); simpl.
  - now exists l.
  - exists (l ++ [n]). unfold names_kept. simpl.
    now rewrite List.map_app, Hl, app_assoc.
Qed.

Lemma names_kept_add_port mm0 id p t :
  preserves (names_kept mm0) (mm_add_port id p t).
Proof.
  intros w [l Hl]. exists l. simpl. destruct id as [i|]; simpl; [|exact Hl].
  now rewrite names_alter.
Qed.

Lemma names_kept_add_child mm0 parent child :
  preserves (names_kept mm0) (mm_add_child_module parent child).
Proof.
  intros w [l Hl]. exists l. simpl.
  destruct parent as [p|], child as [c|]; simpl; try exact Hl.
  now rewrite names_alter.
Qed.

Lemma preserves_cmos_module_ops P circuit_lib circuit_model name g b :
  (forall c, preserves P (put c)) ->
  (forall n, preserves P (mm_add_module n)) ->
  (forall id p t, preserves P (mm_add_port id p t)) ->
  (forall p c, preserves P (mm_add_child_module p c)) ->
  preserves P
    (generate_verilog_cmos_mux_branch_module circuit_lib circuit_model name g
       b).
Proof.
  intros Hp Hadd Hport Hchild.
  unfold generate_verilog_cmos_mux_branch_module,
    print_verilog_module_declaration, print_verilog_module_end.
  cbv zeta.
  preserves_with
    ltac:(first [ apply Hadd | apply Hport | apply Hchild | apply Hp
                | apply (preserves_any_put P Hp) ]).
Qed.

Lemma names_kept_all_branches mm0 env mux_lib circuit_lib :
  preserves (names_kept mm0) (generate_all_branches env mux_lib circuit_lib).
Proof.
  unfold generate_all_branches.
  apply preserves_for_each. intros mux. cbv zeta.
  apply preserves_for_each. intros g.
  unfold generate_verilog_mux_branch_module.
  destruct (design_tech_type circuit_lib (mux_circuit_model mux)).
  - apply preserves_cmos_module_ops.
    + apply names_kept_put.
    + apply names_kept_add_module.
    + apply names_kept_add_port.
    + apply names_kept_add_child.
  - now apply preserves_same.
  - now apply preserves_same.
Qed.

Lemma find_module_from_kept k (mm mm' : ModuleManager) l n i :
  List.map module_name mm' = List.map module_name mm ++ l ->
  find_module_from k mm n = Some i ->
  find_module_from k mm' n = Some i.
Proof.
  revert k mm'. induction mm as [|m mm IH]; intros k mm' Hn; simpl;
    [discriminate|].
  destruct mm' as [|m' mm']; [discriminate|]. simpl in Hn.
  injection Hn as Hm Hn. simpl. rewrite Hm.
  destruct (String.eqb (module_name m) n); [auto|]. now apply IH.
Qed.

(** X11.  Whatever its outcome, a generation pass never removes or renames
    a module: a module registered before the pass is found under the same
    name and the same id after it, and the manager holds at least as many
    modules. *)
Theorem X11_registered_modules_stay env mux_lib circuit_lib verilog_dir
    submodule_dir w n i :
  find_module (w_module_manager w) n = Some i ->
  let w' :=
    snd (print_verilog_submodule_muxes env mux_lib circuit_lib verilog_dir
           submodule_dir w) in
  find_module (w_module_manager w') n = Some i
  /\ length (w_module_manager w) <= length (w_module_manager w').
Proof.
  intros Hf. cbv zeta.
  assert (Hk : names_kept (w_module_manager w)
                 (snd (print_verilog_submodule_muxes env mux_lib circuit_lib
                         verilog_dir submodule_dir w))).
  { rewrite driver_run. destruct (bool_decide _).
    - exists []. simpl. now rewrite app_nil_r.
    - pose proof (names_kept_all_branches (w_module_manager w) env mux_lib
                    circuit_lib (started env verilog_dir submodule_dir w))
        as Hp.
      destruct (generate_all_branches env mux_lib circuit_lib
                  (started env verilog_dir submodule_dir w)) as [[[]|f] w3];
        simpl in Hp |- *; apply Hp; exists []; simpl; now rewrite app_nil_r. }
  destruct Hk as [l Hl]. split.
  - now apply (find_module_from_kept 0 (w_module_manager w) _ l).
  - apply (f_equal (@length string)) in Hl.
    rewrite length_app, !length_map in Hl. lia.
Qed.

Lemma X11_registered_modules_stay_witness :
  find_module
    (w_module_manager
       (snd (print_verilog_submodule_muxes sample_env one_mux_lib
               (cmos_lib true) "verilog/" "sub/" sample_world)))
    "TGATE"
  = Some 0.
Proof.
  refine (proj1 (X11_registered_modules_stay sample_env one_mux_lib
                   (cmos_lib true) "verilog/" "sub/" sample_world "TGATE" 0
                   _)).
  reflexivity.
Defined.

(** ** The netlist is a sequence of closed modules *)

Lemma preserves_puts_inner P cs :
  forallb inner_chunk cs = true ->
  (forall c, inner_chunk c = true -> preserves P (put c)) ->
  preserves P (puts cs).
Proof.
  intros Hcs Hp. induction cs as [|c cs IH]; simpl.
  - now apply preserves_same.
  - simpl in Hcs. apply andb_prop in Hcs as [Hc Hcs].
    apply preserves_bind; [now apply Hp|intros _; now apply IH].
Qed.

Ltac preserves_inner prim :=
  repeat first
    [ apply preserves_bind; [|intros ?]
    | apply preserves_for_each; intros ?
    | apply preserves_puts_inner; [reflexivity|]
    | apply preserves_same; intros ?;
      first [ apply same_ret | apply same_VTR_ASSERT
            | apply same_check_file_handler | apply same_string_assign
            | apply same_mm_find_module | apply same_exit1 ]
    | match goal with
      | |- preserves _ (if ?b then _ else _) => destruct b
      | |- preserves _ (match ?x with _ => _ end) => destruct x
      end
    | prim ].

Lemma grown_inside_put prefix c :
  inner_chunk c = true -> preserves (grown_inside prefix) (put c).
Proof.
  intros Hc w (rest & Ho & Hn).
  unfold grown_inside, put, fstream_put, out in *. simpl.
  destruct (fp_usable (w_fp w)); simpl.
  - exists (rest ++ [c]). rewrite Ho, app_assoc. split; [reflexivity|].
    rewrite forallb_app, Hn. simpl. now rewrite Hc.
  - now exists rest.
Qed.

Lemma grown_inside_add_child prefix parent child :
  preserves (grown_inside prefix) (mm_add_child_module parent child).
Proof. intros w H. exact H. Qed.

Lemma grown_inside_start w : grown_inside (out w) w.
Proof. exists []. now rewrite app_nil_r. Qed.

Lemma grown_inside_cmos_branch_body prefix circuit_lib circuit_model module_id
    g b :
  preserves (grown_inside prefix)
    (cmos_branch_body circuit_lib circuit_model module_id g b).
Proof.
  unfold cmos_branch_body,
    generate_verilog_cmos_mux_branch_body_structural,
    generate_verilog_cmos_mux_branch_body_behavioral,
    print_verilog_comment, print_verilog_module_instance.
  cbv zeta.
  preserves_inner
    ltac:(first [ exact (grown_inside_put prefix)
                | now apply grown_inside_put
                | apply grown_inside_add_child ]).
Qed.

(** A CMOS branch module that is generated to its end is one closed
    block in the stream. *)
Lemma cmos_module_Done_block circuit_lib circuit_model name g b w w' :
  is_SPICE_MODEL_GATE
    (model_type circuit_lib (pass_gate_logic_model circuit_lib circuit_model))
  = false ->
  generate_verilog_cmos_mux_branch_module circuit_lib circuit_model name g b w
  = (Done tt, w') ->
  exists ports body,
    out w' = out w ++ module_block (name, ports, body)
    /\ forallb inner_chunk body = true.
Proof.
  intros Hg H.
  destruct (fp_usable (w_fp w)) eqn:Hw.
  2:{ rewrite cmos_unusable in H; [discriminate|exact Hg|].
      unfold usable. now rewrite Hw. }
  destruct (Nat.eq_dec (num_outputs g) 1) as [Ho|Ho].
  2:{ rewrite cmos_shape_violation in H; [discriminate|auto..]. }
  destruct (Nat.eq_dec (num_levels g) 1) as [Hl|Hl].
  2:{ rewrite cmos_shape_violation in H; [discriminate|auto..]. }
  rewrite cmos_module_run in H by assumption.
  apply bind_Done_inv in H as ([] & w2 & Hbody & Hend).
  apply module_end_Done in Hend.
  destruct (Done_keeps_invariant _ _ _ _ _
              (grown_inside_cmos_branch_body _ circuit_lib circuit_model _ g b)
              (grown_inside_start _) Hbody) as (body & Hb & Hn).
  eexists _, body. split; [|exact Hn].
  rewrite Hend, Hb. unfold declared, module_block. rewrite out_emit. simpl.
  rewrite <- !app_assoc. reflexivity.
Qed.

Lemma dispatch_branch_Done_blocks env circuit_lib b w w' :
  dispatch_branch env circuit_lib b w = (Done tt, w') ->
  exists blocks,
    out w' = out w ++ flat_map module_block blocks
    /\ List.map (fun k => fst (fst k)) blocks
       = (if branch_emits circuit_lib b then [branch_name env circuit_lib b]
          else [])
    /\ Forall (fun k => forallb inner_chunk (snd k) = true) blocks.
Proof.
  unfold dispatch_branch, generate_verilog_mux_branch_module, branch_emits,
    emits_module.
  fold (branch_name env circuit_lib b).
  destruct (design_tech_type circuit_lib (fst (fst b))).
  - destruct (is_SPICE_MODEL_GATE _) eqn:Hg; simpl.
    + rewrite cmos_gate_run by exact Hg.
      destruct (is_SPICE_MODEL_GATE_MUX2 _); [|discriminate].
      intros [= <-]. exists []. simpl. now rewrite app_nil_r.
    + intros H.
      apply cmos_module_Done_block in H as (ports & body & Ho & Hn);
        [|exact Hg].
      exists [(branch_name env circuit_lib b, ports, body)]. simpl.
      rewrite app_nil_r. repeat split; [exact Ho|]. now constructor.
  - intros [= <-]. exists []. simpl. now rewrite app_nil_r.
  - discriminate.
Qed.

Lemma dispatch_branches_Done_blocks env circuit_lib bs w w' :
  for_each bs (dispatch_branch env circuit_lib) w = (Done tt, w') ->
  exists blocks,
    out w' = out w ++ flat_map module_block blocks
    /\ List.map (fun k => fst (fst k)) blocks
       = List.map (branch_name env circuit_lib)
           (List.filter (branch_emits circuit_lib) bs)
    /\ Forall (fun k => forallb inner_chunk (snd k) = true) blocks.
Proof.
  revert w. induction bs as [|b bs IH]; intros w; simpl.
  - intros [= <-]. exists []. simpl. now rewrite app_nil_r.
  - intros H. apply bind_Done_inv in H as ([] & w1 & Hb & Hrest).
    destruct (dispatch_branch_Done_blocks _ _ _ _ _ Hb)
      as (k1 & Ho1 & Hn1 & Hi1).
    destruct (IH _ Hrest) as (k2 & Ho2 & Hn2 & Hi2).
    exists (k1 ++ k2). split; [|split].
    + rewrite Ho2, Ho1, flat_map_app. now rewrite <- app_assoc.
    + rewrite List.map_app, Hn1, Hn2.
      now destruct (branch_emits circuit_lib b).
    + now apply Forall_app.
Qed.

(** X12.  The netlist of a pass that ends is the header, the include
    section and then a sequence of modules, one for each branch that gets
    a definition and in their order; each module is its declaration, a
    body and its end under the same name, and no declaration and no end
    of a module occurs inside a body: every module is closed before the
    next one is opened. *)
Theorem X12_netlist_is_closed_modules env mux_lib circuit_lib verilog_dir
    submodule_dir w w' :
  print_verilog_submodule_muxes env mux_lib circuit_lib verilog_dir
    submodule_dir w = (Done tt, w') ->
  exists blocks,
    out w'
    = FileHeader "Multiplexers" :: IncludeDefines verilog_dir
      :: flat_map module_block blocks
    /\ List.map (fun k => fst (fst k)) blocks
       = List.map (branch_name env circuit_lib)
           (List.filter (branch_emits circuit_lib) (branches_of env mux_lib))
    /\ Forall (fun k => forallb inner_chunk (snd k) = true) blocks.
Proof.
  intros H. rewrite driver_run in H.
  destruct (bool_decide _); [discriminate|].
  rewrite generate_all_branches_flat in H.
  destruct (for_each (branches_of env mux_lib)
              (dispatch_branch env circuit_lib)
              (started env verilog_dir submodule_dir w))
    as [[[]|f] w3] eqn:E; [|discriminate].
  replace w'
    with (snd (try_update_sram_orgz_info_reserved_blwl
                 (max_mux_size mux_lib) (max_mux_size mux_lib)
                 (snd (fp_close w3)))) by now rewrite H.
  rewrite out_update_after_close.
  destruct (dispatch_branches_Done_blocks _ _ _ _ _ E)
    as (blocks & Ho & Hn & Hi).
  exists blocks. split; [exact Ho|]. split; [exact Hn|exact Hi].
Qed.

Lemma X12_netlist_is_closed_modules_witness :
  exists blocks,
    out (snd (print_verilog_submodule_muxes sample_env twice_mux_lib
                (cmos_lib true) "verilog/" "sub/" sample_world))
    = FileHeader "Multiplexers" :: IncludeDefines "verilog/"
      :: flat_map module_block blocks
    /\ length blocks = 2.
Proof.
  destruct (X12_netlist_is_closed_modules sample_env twice_mux_lib
              (cmos_lib true) "verilog/" "sub/" sample_world
              (snd (print_verilog_submodule_muxes sample_env twice_mux_lib
                      (cmos_lib true) "verilog/" "sub/" sample_world)))
    as (blocks & Ho & Hn & _).
  - vm_compute. reflexivity.
  - exists blocks. split; [exact Ho|].
    apply (f_equal (@length string)) in Hn. rewrite length_map in Hn.
    rewrite Hn. reflexivity.
Defined.

(** ** A pass that ends has checked every branch *)

Lemma for_each_Done_each {A} (l : list A) (f : A -> M unit) w w' :
  for_each l f w = (Done tt, w') ->
  forall x, In x l -> exists w1 w2, f x w1 = (Done tt, w2).
Proof.
  revert w. induction l as [|a l IH]; intros w H x Hx; [destruct Hx|].
  simpl in H. apply bind_Done_inv in H as ([] & w1 & Ha & Hl).
  destruct Hx as [<-|Hx]; [eauto|]. now apply (IH _ Hl).
Qed.

Lemma edges_assert_passed n :
  ((1 =? n)%nat || (0 =? n)%nat) = true -> (n <=? 1)%nat = true.
Proof. destruct n as [|[|n]]; simpl; auto. Qed.

Lemma structural_body_Done_checks circuit_lib tgate_model module_id input_port
    output_port mem_port mem_inv_port g w w' :
  generate_verilog_cmos_mux_branch_body_structural circuit_lib tgate_model
    module_id input_port output_port mem_port mem_inv_port g w
  = (Done tt, w') ->
  (length (model_ports_by_type circuit_lib tgate_model SPICE_MODEL_PORT_INPUT
             true) =? 3)%nat = true
  /\ (length (model_ports_by_type circuit_lib tgate_model
                SPICE_MODEL_PORT_OUTPUT true) =? 1)%nat = true
  /\ at_most_one_edge_per_pair g = true.
Proof.
  unfold generate_verilog_cmos_mux_branch_body_structural. intros H.
  apply bind_check_Done_inv in H as [Hw H].
  unfold mm_find_module at 1 in H. unfold bind at 1 in H.
  apply bind_assert_Done_inv in H as [_ H]. cbv zeta in H.
  apply bind_assert_Done_inv in H as [H3 H].
  apply bind_assert_Done_inv in H as [H1 H].
  rewrite bind_comment in H by exact Hw.
  rewrite for_each_pairs in H.
  rewrite Nat.eqb_sym in H3. rewrite Nat.eqb_sym in H1.
  split; [exact H3|]. split; [exact H1|].
  unfold at_most_one_edge_per_pair. apply forallb_forall. intros p Hp.
  destruct (for_each_Done_each _ _ _ _ H p Hp) as (w1 & w2 & Hstep).
  apply bind_assert_Done_inv in Hstep as [Ha _].
  now apply edges_assert_passed.
Qed.

Lemma behavioral_body_Done_checks input_port output_port mem_port g d w w' :
  generate_verilog_cmos_mux_branch_body_behavioral input_port output_port
    mem_port g d w
  = (Done tt, w') ->
  at_most_one_edge_per_pair g = true.
Proof.
  unfold generate_verilog_cmos_mux_branch_body_behavioral. intros H.
  apply bind_check_Done_inv in H as [Hw H].
  rewrite bind_comment in H by exact Hw. cbv zeta in H.
  rewrite !bind_puts in H by exact Hw.
  rewrite bind_for_each_pairs in H.
  apply bind_Done_inv in H as ([] & w3 & H & _).
  unfold at_most_one_edge_per_pair. apply forallb_forall. intros p Hp.
  destruct (for_each_Done_each _ _ _ _ H p Hp) as (w1 & w2 & Hstep).
  apply bind_assert_Done_inv in Hstep as [Ha _].
  now apply edges_assert_passed.
Qed.

Lemma dispatch_branch_Done_valid env circuit_lib b w w' :
  dispatch_branch env circuit_lib b w = (Done tt, w') ->
  branch_valid circuit_lib b = true.
Proof.
  unfold dispatch_branch, generate_verilog_mux_branch_module, branch_valid.
  cbv zeta.
  destruct (design_tech_type circuit_lib (fst (fst b)));
    [|reflexivity|discriminate].
  destruct (is_SPICE_MODEL_GATE _) eqn:Hg.
  { rewrite cmos_gate_run by exact Hg.
    destruct (is_SPICE_MODEL_GATE_MUX2 _); [reflexivity|discriminate]. }
  intros H.
  destruct (fp_usable (w_fp w)) eqn:Hw.
  2:{ rewrite cmos_unusable in H; [discriminate|exact Hg|].
      unfold usable. now rewrite Hw. }
  destruct (Nat.eq_dec (num_outputs (snd b)) 1) as [Ho|Ho].
  2:{ rewrite cmos_shape_violation in H; [discriminate|auto..]. }
  destruct (Nat.eq_dec (num_levels (snd b)) 1) as [Hl|Hl].
  2:{ rewrite cmos_shape_violation in H; [discriminate|auto..]. }
  rewrite cmos_module_run in H by assumption.
  apply bind_Done_inv in H as ([] & w2 & Hbody & _).
  rewrite Ho, Hl. simpl.
  unfold cmos_branch_body in Hbody.
  destruct (dump_structural_verilog circuit_lib (fst (fst b))).
  - apply structural_body_Done_checks in Hbody as (-> & -> & ->).
    reflexivity.
  - apply bind_assert_Done_inv in Hbody as [Hn Hbody].
    apply bind_assert_Done_inv in Hbody as [Hv Hbody].
    apply behavioral_body_Done_checks in Hbody as ->.
    rewrite Nat.eqb_sym, Hn. simpl.
    apply Nat.eqb_eq in Hv. symmetry in Hv. apply to_string_one_char in Hv.
    now apply Nat.ltb_lt.
Qed.

(** X13.  A pass ends only when every branch handed over passed the
    checks of the generation: its model is RRAM or CMOS; for a CMOS model
    with a logic gate as pass gate, the gate is a 2:1 multiplexer;
    otherwise the graph has one output, one level and at most one edge
    for each pair, and, in structural mode, the pass-gate model has three
    input ports and one output port, or, in behavioural mode, the model
    has exactly one configuration port that is not a mode-select port,
    with a default value below 10. *)
Theorem X13_pass_ends_only_on_valid_branches env mux_lib circuit_lib
    verilog_dir submodule_dir w w' :
  print_verilog_submodule_muxes env mux_lib circuit_lib verilog_dir
    submodule_dir w = (Done tt, w') ->
  forallb (branch_valid circuit_lib) (branches_of env mux_lib) = true.
Proof.
  intros H. rewrite driver_run in H.
  destruct (bool_decide _); [discriminate|].
  rewrite generate_all_branches_flat in H.
  destruct (for_each (branches_of env mux_lib)
              (dispatch_branch env circuit_lib)
              (started env verilog_dir submodule_dir w))
    as [[[]|f] w3] eqn:E; [|discriminate].
  apply forallb_forall. intros b Hb.
  destruct (for_each_Done_each _ _ _ _ E b Hb) as (w1 & w2 & Hd).
  now apply dispatch_branch_Done_valid in Hd.
Qed.

Lemma X13_pass_ends_only_on_valid_branches_witness :
  forallb (branch_valid (cmos_lib false)) (branches_of sample_env one_mux_lib)
  = true.
Proof.
  apply (X13_pass_ends_only_on_valid_branches sample_env one_mux_lib
           (cmos_lib false) "verilog/" "sub/" sample_world
           (snd (print_verilog_submodule_muxes sample_env one_mux_lib
                   (cmos_lib false) "verilog/" "sub/" sample_world))).
  vm_compute. reflexivity.
Defined.

(** ** As many pass gates as edges *)

Lemma count_instances_app l l' :
  count_instances (l ++ l') = count_instances l + count_instances l'.
Proof.
  unfold count_instances. now rewrite List.filter_app, length_app.
Qed.

Lemma count_instances_map {A} (f : A -> chunk) (l : list A) :
  (forall x, exists parent child m e, f x = ModuleInstance parent child m e) ->
  count_instances (List.map f l) = length l.
Proof.
  intros Hf. unfold count_instances.
  induction l as [|x l IH]; simpl; [reflexivity|].
  destruct (Hf x) as (parent & child & m & e & ->). simpl. now rewrite IH.
Qed.

(** X14.  In structural mode, for a graph whose edges go from its inputs
    to its outputs with at most one edge for each pair, the body writes
    exactly as many pass-gate instances as the graph has edges. *)
Theorem X14_one_pass_gate_for_each_edge circuit_lib tgate_model module_id
    input_port output_port mem_port mem_inv_port g w tid :
  usable w ->
  find_module (w_module_manager w) (model_name circuit_lib tgate_model)
    = Some tid ->
  length (model_ports_by_type circuit_lib tgate_model SPICE_MODEL_PORT_INPUT
            true) = 3 ->
  length (model_ports_by_type circuit_lib tgate_model SPICE_MODEL_PORT_OUTPUT
            true) = 1 ->
  at_most_one_edge_per_pair g = true ->
  edges_on_nodes g = true ->
  let run :=
    generate_verilog_cmos_mux_branch_body_structural circuit_lib tgate_model
      module_id input_port output_port mem_port mem_inv_port g w in
  fst run = Done tt
  /\ count_instances (out (snd run))
     = count_instances (out w) + length (mux_edges g).
Proof.
  intros Hw Hf H3 H1 Hone Hn. cbv zeta.
  rewrite (structural_body_run circuit_lib tgate_model module_id input_port
             output_port mem_port mem_inv_port g w tid) by assumption.
  split; [reflexivity|].
  cbn [snd]. unfold out. simpl.
  change (fp_data (w_fp w)
          ++ Comment "---- Structure-level description -----"
             :: ?l)
    with (fp_data (w_fp w)
          ++ [Comment "---- Structure-level description -----"] ++ l).
  rewrite !count_instances_app. rewrite count_instances_map by eauto.
  rewrite length_connected_pairs by assumption. reflexivity.
Qed.

Lemma X14_one_pass_gate_for_each_edge_witness :
  count_instances
    (out (snd (generate_verilog_cmos_mux_branch_body_structural (cmos_lib true)
                 1 (Some 0) (BasicPort_sized "in" 4) (BasicPort_sized "out" 1)
                 (BasicPort_sized "mem" 4) (BasicPort_sized "mem_inv" 4)
                 sample_graph open_world)))
  = 4.
Proof.
  refine (proj2 (X14_one_pass_gate_for_each_edge (cmos_lib true) 1 (Some 0)
                   (BasicPort_sized "in" 4) (BasicPort_sized "out" 1)
                   (BasicPort_sized "mem" 4) (BasicPort_sized "mem_inv" 4)
                   sample_graph open_world 0 _ _ _ _ _ _)); reflexivity.
Defined.
